(** * Dual-mode HID keyboard: report generation core

    A shallow embedding of [hid/dual_mode_keyboard/keyboard.c] and proofs of
    the properties its specification states about it.

    The application state [tKbAppState] of the C program is a record, every
    handler is a function on that record, and the calls the program makes
    into the Bluetooth stack and the keyscan driver are recorded, in order,
    in a [trace].  Handlers that index an array return an [outcome]: C leaves
    an access outside the array undefined, the embedding stops there with
    [OutOfBounds]. *)

From Stdlib Require Import ZArith Lia Bool List.
From stdpp Require Import base list.
Import ListNotations.
Local Open Scope Z_scope.

(** ** Machine integers *)

(** Value kept by a [uint8_t] object after an assignment. *)
Definition u8 (z : Z) : Z := z mod 256.

(** Value kept by an [int16_t] object after an assignment (two's complement
    wrap-around, what the ARM compilers of the SDK do on a narrowing
    conversion). *)
Definition int16 (z : Z) : Z := (z + 32768) mod 65536 - 32768.

Definition INT16_MIN : Z := -32768.
Definition INT16_MAX : Z := 32767.

(** ** Outcomes of handlers that index arrays *)

Inductive outcome (A : Type) : Type :=
| Done (a : A)
| OutOfBounds
| OutOfFuel.
Arguments Done {A} a.
Arguments OutOfBounds {A}.
Arguments OutOfFuel {A}.

Definition bind {A B : Type} (m : outcome A) (k : A -> outcome B) : outcome B :=
  match m with
  | Done a => k a
  | OutOfBounds => OutOfBounds
  | OutOfFuel => OutOfFuel
  end.

Notation "'do' x <- m ; k" := (bind m (fun x => k))
  (at level 10, x name, m at level 100, k at level 200).

(** [a[i]] as an rvalue. *)
Definition rd {A : Type} (a : list A) (i : Z) : outcome A :=
  if 0 <=? i then
    match a !! Z.to_nat i with
    | Some x => Done x
    | None => OutOfBounds
    end
  else OutOfBounds.

(** [a[i] = x]. *)
Definition wr {A : Type} (a : list A) (i : Z) (x : A) : outcome (list A) :=
  if (0 <=? i) && (i <? Z.of_nat (length a)) then Done (<[Z.to_nat i := x]> a)
  else OutOfBounds.

(** ** Enumerations and constants of the headers *)

Inductive FuncLockState : Type := FUNC_LOCK_STATE_OFF | FUNC_LOCK_STATE_ON.
Inductive FuncLockKeyPosition : Type := FUNC_LOCK_KEY_UP | FUNC_LOCK_KEY_DOWN.
Inductive Transport : Type := BT_TRANSPORT_BR_EDR | BT_TRANSPORT_LE.
Inductive ConnectButtonPosition : Type := CONNECT_BUTTON_UP | CONNECT_BUTTON_DOWN.

(** The lock state as it is or-ed into the status byte of the func-lock
    report: one bit, next to the event flag of value 2. *)
Definition FuncLockState_code (st : FuncLockState) : Z :=
  match st with
  | FUNC_LOCK_STATE_OFF => 0
  | FUNC_LOCK_STATE_ON => 1
  end.

(** Key types of the key configuration table.  The dispatcher hands every
    type it does not name to the user-defined handler. *)
Inductive KeyType : Type :=
| KEY_TYPE_NONE
| KEY_TYPE_STD
| KEY_TYPE_MODIFIER
| KEY_TYPE_BIT_MAPPED
| KEY_TYPE_SLEEP
| KEY_TYPE_FUNC_LOCK
| KEY_TYPE_FUNC_LOCK_DEP
| KEY_TYPE_USER_DEF (n : Z).

Record KbKeyConfig : Type := mkKbKeyConfig {
  type : KeyType;
  translationValue : Z
}.

(** The up/down flag of a key event is zero for a key that went down: the
    trace in [kbapp_pollActivityKey] prints "Up" for a non-zero flag. *)
Definition KEY_DOWN : Z := 0.
Definition KEY_UP : Z := 1.

(** Modelled from the spec: the protocol is host-settable, boot = 0 and
    report = 1; [PROTOCOL_REPORT] and [HID_PAR_PROTOCOL_REPORT] name the same
    value in two headers. *)
Definition PROTOCOL_BOOT : Z := 0.
Definition PROTOCOL_REPORT : Z := 1.
Definition HID_PAR_PROTOCOL_REPORT : Z := 1.

(** Usage codes of the keyboard page of the USB HID usage tables. *)
Definition USB_USAGE_1 : Z := 0x1E.
Definition USB_USAGE_9 : Z := 0x26.
Definition USB_USAGE_0 : Z := 0x27.
Definition USB_USAGE_ENTER : Z := 0x28.
Definition USB_USAGE_ESCAPE : Z := 0x29.
Definition USB_USAGE_BACKSPACE : Z := 0x2A.
Definition USB_USAGE_F1 : Z := 0x3A.
Definition USB_USAGE_F2 : Z := 0x3B.
Definition USB_USAGE_F3 : Z := 0x3C.
Definition USB_USAGE_F4 : Z := 0x3D.
Definition USB_USAGE_F5 : Z := 0x3E.
Definition USB_USAGE_F6 : Z := 0x3F.
Definition USB_USAGE_F7 : Z := 0x40.
Definition USB_USAGE_F8 : Z := 0x41.
Definition USB_USAGE_F9 : Z := 0x42.
Definition USB_USAGE_F10 : Z := 0x43.
Definition USB_USAGE_F11 : Z := 0x44.
Definition USB_USAGE_F12 : Z := 0x45.
Definition USB_USAGE_DELETE : Z := 0x4C.
Definition USB_USAGE_KP_ENTER : Z := 0x58.
Definition USB_USAGE_KP_1 : Z := 0x59.
Definition USB_USAGE_KP_9 : Z := 0x61.
Definition USB_USAGE_KP_0 : Z := 0x62.
Definition USB_USAGE_POWER : Z := 0x66.

(** Columns of [pinCodeEventTransTab], in the order of its initialiser. *)
Definition KEY_ENTRY_EVENT_START : Z := 0.
Definition KEY_ENTRY_EVENT_CHAR : Z := 1.
Definition KEY_ENTRY_EVENT_BACKSPACE : Z := 2.
Definition KEY_ENTRY_EVENT_RESTART : Z := 3.
Definition KEY_ENTRY_EVENT_STOP : Z := 4.
Definition KEY_ENTRY_EVENT_MAX : Z := 5.

(** ** Events, reports and the application state *)

(** An element of the event queue: the event type selects the payload. *)
Inductive HidEvent : Type :=
| HID_EVENT_KEY_STATE_CHANGE (keyCode upDownFlag : Z)
| HID_EVENT_MOTION_AXIS_0 (motion : Z)
| HID_EVENT_EVENT_FIFO_OVERFLOW
| HID_EVENT_OTHER (eventType : Z).

Record KeyboardStandardReport : Type := mkStdRpt {
  std_reportID : Z;
  modifierKeys : Z;
  reserved : Z;
  keyCodes : list Z
}.

Record KeyboardBitMappedReport : Type := mkBitRpt {
  bit_reportID : Z;
  bitMappedKeys : list Z
}.

Record KeyboardSleepReport : Type := mkSlpRpt {
  slp_reportID : Z;
  sleepVal : Z
}.

Record KeyboardFuncLockReport : Type := mkFuncLockRpt {
  fl_reportID : Z;
  status : Z
}.

Record KeyboardScrollReport : Type := mkScrollRpt {
  scroll_reportID : Z;
  motionAxis0 : Z
}.

Record KeyboardPinEntryReport : Type := mkPinRpt {
  pin_reportID : Z;
  reportCode : Z
}.

Record FuncLockInfo : Type := mkFuncLockInfo {
  state : FuncLockState;
  kepPosition : FuncLockKeyPosition;
  toggleStateOnKeyUp : bool
}.

(** What the program hands to its collaborators, in the order of the calls. *)
Inductive IoEvent : Type :=
| TxRolloverRpt
| TxStdRpt (r : KeyboardStandardReport)
| TxBitRpt (r : KeyboardBitMappedReport)
| TxSlpRpt (r : KeyboardSleepReport)
| TxFuncLockRpt (r : KeyboardFuncLockReport)
| TxScrollRpt (r : KeyboardScrollReport)
| TxScrollRptLE (value : Z)
| TxPinRpt (r : KeyboardPinEntryReport)
| PinCode (size : Z) (buffer : list Z)
| PassCode (size : Z) (buffer : list Z)
| PassCodeKeyPressReport (code : Z)
| KeyscanReset
| ActivityDetected
| VirtualCableUnplug
| EnterPairing
| Disconnect.

(** [kbAppConfig], the configuration structure another file of the firmware
    defines; the fields are the ones this file reads. *)
Record KbAppConfig : Type := mkKbAppConfig {
  stdRptID : Z;
  maxKeysInStdRpt : Z;
  bitReportID : Z;
  numBitMappedKeys : Z;
  sleepReportID : Z;
  pinReportID : Z;
  scrollReportID : Z;
  scrollReportLen : Z;
  negateScroll : bool;
  scrollScale : Z;
  pollsToKeepFracScrollData : Z;
  scrollCombining : bool;
  funcLockReportID : Z;
  defaultFuncLockState : FuncLockState;
  connectButtonScanIndex : Z;
  recoveryPollCount : Z;
  maxEventNum : Z
}.

(** What the build supplies from outside [keyboard.c]: the configuration, the
    key table with its size, and the constants of [keyboard.h] and of the SDK
    headers whose values the file does not fix. *)
Class Firmware : Type := mkFirmware {
  kbAppConfig : KbAppConfig;
  kbKeyConfig : list KbKeyConfig;
  END_OF_SCAN_CYCLE : Z;
  KB_MAX_KEYS : Z;
  MAX_PIN_SIZE : Z;
  MAX_PASS_SIZE : Z;
  PIN_ENTRY_MODE_NONE : Z;
  LEGACY_PIN_ENTRY_IN_PROGRESS : Z;
  PASS_KEY_ENTRY_IN_PROGRESS : Z;
  PIN_ENTRY_EVENT_INVALID : Z;
  PIN_ENTRY_EVENT_CHAR : Z;
  PIN_ENTRY_EVENT_BACKSPACE : Z;
  PIN_ENTRY_EVENT_RESTART : Z;
  PASS_KEY_ENTRY_EVENT_START : Z;
  PASS_KEY_ENTRY_EVENT_CHAR : Z;
  PASS_KEY_ENTRY_EVENT_BACKSPACE : Z;
  PASS_KEY_ENTRY_EVENT_RESTART : Z;
  PASS_KEY_ENTRY_EVENT_STOP : Z;
  SCROLL_REPORT_VOLUME_UP : Z;
  SCROLL_REPORT_VOLUME_DOWN : Z
}.

(** [*kbAppState] together with the file-level variables [kbapp_protocol] and
    [kbapp_funcLock_state], the transport the host is connected over, and the
    trace of calls made so far. *)

(** ** Results of host requests, calls on wake-up *)

(** The handshake results the handlers of host requests return. *)
Inductive HandshakeRsp : Type :=
| HID_PAR_HANDSHAKE_RSP_SUCCESS
| HID_PAR_HANDSHAKE_RSP_ERR_INVALID_REP_ID
| HID_PAR_HANDSHAKE_RSP_ERR_UNSUPPORTED_REQ
| HID_PAR_HANDSHAKE_RSP_ERR_INVALID_PARAM.

(** The calls [kbapp_aon_restore] makes into the two link layers. *)
Inductive AonCall : Type :=
| wiced_ble_hidd_link_aon_action_handler_RESTORE_FROM_AON
| wiced_bt_hidd_link_aon_action_handler_RESTORE_FROM_AON.

(** The two report tables [blekb_setProtocol] registers with
    [wiced_blehidd_register_report_table]. *)
Inductive GattMap : Type := reportModeGattMap | bootModeGattMap.

(** ** The LED output report *)

Record KeyboardLedReport : Type := mkLedRpt {
  led_reportID : Z;
  ledStates : Z
}.

Inductive Led : Type := KB_LED_CAPS | KB_LED_LE_LINK | KB_LED_ERBDR_LINK.

Inductive LedCall : Type :=
| kb_LED_on (led : Led)
| kb_LED_off (led : Led).

(** What the handlers of the LED report read from the configuration and
    from the headers: the report ID configured in [kbAppConfig], the size of
    [KeyboardLedReport] and the offset of its member [ledStates], and the
    codes of the report types. *)
Class LedHeader : Type := mkLedHeader {
  ledReportID : Z;
  sizeof_KeyboardLedReport : Z;
  offsetof_ledStates : Z;
  HID_PAR_REP_TYPE_OUTPUT : Z;
  WICED_HID_REPORT_TYPE_OUTPUT : Z
}.

(** The part of the application state the LED handlers work on, the global
    [blekb_kb_output_rpt], and the calls they make on the LEDs, in order. *)
Record tKbLedState : Type := mkKbLedState {
  ledReport : KeyboardLedReport;
  blekb_kb_output_rpt : Z;
  led_calls : list LedCall
}.
Record tKbAppState : Type := mkKbAppState {
  eventQueue : list HidEvent;
  stdRpt : KeyboardStandardReport;
  bitMappedReport : KeyboardBitMappedReport;
  slpRpt : KeyboardSleepReport;
  funcLockRpt : KeyboardFuncLockReport;
  scrollReport : KeyboardScrollReport;
  pinReport : KeyboardPinEntryReport;
  funcLockInfo : FuncLockInfo;
  keysInStdRpt : Z;
  modKeysInStdRpt : Z;
  keysInBitRpt : Z;
  recoveryInProgress : Z;
  stdRptChanged : bool;
  bitRptChanged : bool;
  slpRptChanged : bool;
  funcLockRptChanged : bool;
  scrollRptChanged : bool;
  pinRptChanged : bool;
  pinCodeEntryInProgress : Z;
  enterKeyPressed : Z;
  pinCodeSize : Z;
  maxPinCodeSize : Z;
  pinCodeBuffer : list Z;
  scrollFractional : Z;
  pollsSinceScroll : Z;
  idleRate : Z;
  idleRateInBtClocks : Z;
  kbapp_protocol : Z;
  kbapp_funcLock_state : FuncLockState;
  host_transport : Transport;
  trace : list IoEvent
}.

Definition set_eventQueue (v : list HidEvent) (s : tKbAppState) : tKbAppState :=
  mkKbAppState v (stdRpt s) (bitMappedReport s) (slpRpt s) (funcLockRpt s)
    (scrollReport s) (pinReport s) (funcLockInfo s) (keysInStdRpt s)
    (modKeysInStdRpt s) (keysInBitRpt s) (recoveryInProgress s)
    (stdRptChanged s) (bitRptChanged s) (slpRptChanged s)
    (funcLockRptChanged s) (scrollRptChanged s) (pinRptChanged s)
    (pinCodeEntryInProgress s) (enterKeyPressed s) (pinCodeSize s)
    (maxPinCodeSize s) (pinCodeBuffer s) (scrollFractional s)
    (pollsSinceScroll s) (idleRate s) (idleRateInBtClocks s)
    (kbapp_protocol s) (kbapp_funcLock_state s) (host_transport s) (trace s).

Definition set_stdRpt (v : KeyboardStandardReport) (s : tKbAppState) : tKbAppState :=
  mkKbAppState (eventQueue s) v (bitMappedReport s) (slpRpt s) (funcLockRpt s)
    (scrollReport s) (pinReport s) (funcLockInfo s) (keysInStdRpt s)
    (modKeysInStdRpt s) (keysInBitRpt s) (recoveryInProgress s)
    (stdRptChanged s) (bitRptChanged s) (slpRptChanged s)
    (funcLockRptChanged s) (scrollRptChanged s) (pinRptChanged s)
    (pinCodeEntryInProgress s) (enterKeyPressed s) (pinCodeSize s)
    (maxPinCodeSize s) (pinCodeBuffer s) (scrollFractional s)
    (pollsSinceScroll s) (idleRate s) (idleRateInBtClocks s)
    (kbapp_protocol s) (kbapp_funcLock_state s) (host_transport s) (trace s).

Definition set_bitMappedReport (v : KeyboardBitMappedReport) (s : tKbAppState) : tKbAppState :=
  mkKbAppState (eventQueue s) (stdRpt s) v (slpRpt s) (funcLockRpt s)
    (scrollReport s) (pinReport s) (funcLockInfo s) (keysInStdRpt s)
    (modKeysInStdRpt s) (keysInBitRpt s) (recoveryInProgress s)
    (stdRptChanged s) (bitRptChanged s) (slpRptChanged s)
    (funcLockRptChanged s) (scrollRptChanged s) (pinRptChanged s)
    (pinCodeEntryInProgress s) (enterKeyPressed s) (pinCodeSize s)
    (maxPinCodeSize s) (pinCodeBuffer s) (scrollFractional s)
    (pollsSinceScroll s) (idleRate s) (idleRateInBtClocks s)
    (kbapp_protocol s) (kbapp_funcLock_state s) (host_transport s) (trace s).

Definition set_slpRpt (v : KeyboardSleepReport) (s : tKbAppState) : tKbAppState :=
  mkKbAppState (eventQueue s) (stdRpt s) (bitMappedReport s) v (funcLockRpt s)
    (scrollReport s) (pinReport s) (funcLockInfo s) (keysInStdRpt s)
    (modKeysInStdRpt s) (keysInBitRpt s) (recoveryInProgress s)
    (stdRptChanged s) (bitRptChanged s) (slpRptChanged s)
    (funcLockRptChanged s) (scrollRptChanged s) (pinRptChanged s)
    (pinCodeEntryInProgress s) (enterKeyPressed s) (pinCodeSize s)
    (maxPinCodeSize s) (pinCodeBuffer s) (scrollFractional s)
    (pollsSinceScroll s) (idleRate s) (idleRateInBtClocks s)
    (kbapp_protocol s) (kbapp_funcLock_state s) (host_transport s) (trace s).

Definition set_funcLockRpt (v : KeyboardFuncLockReport) (s : tKbAppState) : tKbAppState :=
  mkKbAppState (eventQueue s) (stdRpt s) (bitMappedReport s) (slpRpt s) v
    (scrollReport s) (pinReport s) (funcLockInfo s) (keysInStdRpt s)
    (modKeysInStdRpt s) (keysInBitRpt s) (recoveryInProgress s)
    (stdRptChanged s) (bitRptChanged s) (slpRptChanged s)
    (funcLockRptChanged s) (scrollRptChanged s) (pinRptChanged s)
    (pinCodeEntryInProgress s) (enterKeyPressed s) (pinCodeSize s)
    (maxPinCodeSize s) (pinCodeBuffer s) (scrollFractional s)
    (pollsSinceScroll s) (idleRate s) (idleRateInBtClocks s)
    (kbapp_protocol s) (kbapp_funcLock_state s) (host_transport s) (trace s).

Definition set_scrollReport (v : KeyboardScrollReport) (s : tKbAppState) : tKbAppState :=
  mkKbAppState (eventQueue s) (stdRpt s) (bitMappedReport s) (slpRpt s)
    (funcLockRpt s) v (pinReport s) (funcLockInfo s) (keysInStdRpt s)
    (modKeysInStdRpt s) (keysInBitRpt s) (recoveryInProgress s)
    (stdRptChanged s) (bitRptChanged s) (slpRptChanged s)
    (funcLockRptChanged s) (scrollRptChanged s) (pinRptChanged s)
    (pinCodeEntryInProgress s) (enterKeyPressed s) (pinCodeSize s)
    (maxPinCodeSize s) (pinCodeBuffer s) (scrollFractional s)
    (pollsSinceScroll s) (idleRate s) (idleRateInBtClocks s)
    (kbapp_protocol s) (kbapp_funcLock_state s) (host_transport s) (trace s).

Definition set_pinReport (v : KeyboardPinEntryReport) (s : tKbAppState) : tKbAppState :=
  mkKbAppState (eventQueue s) (stdRpt s) (bitMappedReport s) (slpRpt s)
    (funcLockRpt s) (scrollReport s) v (funcLockInfo s) (keysInStdRpt s)
    (modKeysInStdRpt s) (keysInBitRpt s) (recoveryInProgress s)
    (stdRptChanged s) (bitRptChanged s) (slpRptChanged s)
    (funcLockRptChanged s) (scrollRptChanged s) (pinRptChanged s)
    (pinCodeEntryInProgress s) (enterKeyPressed s) (pinCodeSize s)
    (maxPinCodeSize s) (pinCodeBuffer s) (scrollFractional s)
    (pollsSinceScroll s) (idleRate s) (idleRateInBtClocks s)
    (kbapp_protocol s) (kbapp_funcLock_state s) (host_transport s) (trace s).

Definition set_funcLockInfo (v : FuncLockInfo) (s : tKbAppState) : tKbAppState :=
  mkKbAppState (eventQueue s) (stdRpt s) (bitMappedReport s) (slpRpt s)
    (funcLockRpt s) (scrollReport s) (pinReport s) v (keysInStdRpt s)
    (modKeysInStdRpt s) (keysInBitRpt s) (recoveryInProgress s)
    (stdRptChanged s) (bitRptChanged s) (slpRptChanged s)
    (funcLockRptChanged s) (scrollRptChanged s) (pinRptChanged s)
    (pinCodeEntryInProgress s) (enterKeyPressed s) (pinCodeSize s)
    (maxPinCodeSize s) (pinCodeBuffer s) (scrollFractional s)
    (pollsSinceScroll s) (idleRate s) (idleRateInBtClocks s)
    (kbapp_protocol s) (kbapp_funcLock_state s) (host_transport s) (trace s).

Definition set_keysInStdRpt (v : Z) (s : tKbAppState) : tKbAppState :=
  mkKbAppState (eventQueue s) (stdRpt s) (bitMappedReport s) (slpRpt s)
    (funcLockRpt s) (scrollReport s) (pinReport s) (funcLockInfo s) v
    (modKeysInStdRpt s) (keysInBitRpt s) (recoveryInProgress s)
    (stdRptChanged s) (bitRptChanged s) (slpRptChanged s)
    (funcLockRptChanged s) (scrollRptChanged s) (pinRptChanged s)
    (pinCodeEntryInProgress s) (enterKeyPressed s) (pinCodeSize s)
    (maxPinCodeSize s) (pinCodeBuffer s) (scrollFractional s)
    (pollsSinceScroll s) (idleRate s) (idleRateInBtClocks s)
    (kbapp_protocol s) (kbapp_funcLock_state s) (host_transport s) (trace s).

Definition set_modKeysInStdRpt (v : Z) (s : tKbAppState) : tKbAppState :=
  mkKbAppState (eventQueue s) (stdRpt s) (bitMappedReport s) (slpRpt s)
    (funcLockRpt s) (scrollReport s) (pinReport s) (funcLockInfo s)
    (keysInStdRpt s) v (keysInBitRpt s) (recoveryInProgress s)
    (stdRptChanged s) (bitRptChanged s) (slpRptChanged s)
    (funcLockRptChanged s) (scrollRptChanged s) (pinRptChanged s)
    (pinCodeEntryInProgress s) (enterKeyPressed s) (pinCodeSize s)
    (maxPinCodeSize s) (pinCodeBuffer s) (scrollFractional s)
    (pollsSinceScroll s) (idleRate s) (idleRateInBtClocks s)
    (kbapp_protocol s) (kbapp_funcLock_state s) (host_transport s) (trace s).

Definition set_keysInBitRpt (v : Z) (s : tKbAppState) : tKbAppState :=
  mkKbAppState (eventQueue s) (stdRpt s) (bitMappedReport s) (slpRpt s)
    (funcLockRpt s) (scrollReport s) (pinReport s) (funcLockInfo s)
    (keysInStdRpt s) (modKeysInStdRpt s) v (recoveryInProgress s)
    (stdRptChanged s) (bitRptChanged s) (slpRptChanged s)
    (funcLockRptChanged s) (scrollRptChanged s) (pinRptChanged s)
    (pinCodeEntryInProgress s) (enterKeyPressed s) (pinCodeSize s)
    (maxPinCodeSize s) (pinCodeBuffer s) (scrollFractional s)
    (pollsSinceScroll s) (idleRate s) (idleRateInBtClocks s)
    (kbapp_protocol s) (kbapp_funcLock_state s) (host_transport s) (trace s).

Definition set_recoveryInProgress (v : Z) (s : tKbAppState) : tKbAppState :=
  mkKbAppState (eventQueue s) (stdRpt s) (bitMappedReport s) (slpRpt s)
    (funcLockRpt s) (scrollReport s) (pinReport s) (funcLockInfo s)
    (keysInStdRpt s) (modKeysInStdRpt s) (keysInBitRpt s) v (stdRptChanged s)
    (bitRptChanged s) (slpRptChanged s) (funcLockRptChanged s)
    (scrollRptChanged s) (pinRptChanged s) (pinCodeEntryInProgress s)
    (enterKeyPressed s) (pinCodeSize s) (maxPinCodeSize s) (pinCodeBuffer s)
    (scrollFractional s) (pollsSinceScroll s) (idleRate s)
    (idleRateInBtClocks s) (kbapp_protocol s) (kbapp_funcLock_state s)
    (host_transport s) (trace s).

Definition set_stdRptChanged (v : bool) (s : tKbAppState) : tKbAppState :=
  mkKbAppState (eventQueue s) (stdRpt s) (bitMappedReport s) (slpRpt s)
    (funcLockRpt s) (scrollReport s) (pinReport s) (funcLockInfo s)
    (keysInStdRpt s) (modKeysInStdRpt s) (keysInBitRpt s)
    (recoveryInProgress s) v (bitRptChanged s) (slpRptChanged s)
    (funcLockRptChanged s) (scrollRptChanged s) (pinRptChanged s)
    (pinCodeEntryInProgress s) (enterKeyPressed s) (pinCodeSize s)
    (maxPinCodeSize s) (pinCodeBuffer s) (scrollFractional s)
    (pollsSinceScroll s) (idleRate s) (idleRateInBtClocks s)
    (kbapp_protocol s) (kbapp_funcLock_state s) (host_transport s) (trace s).

Definition set_bitRptChanged (v : bool) (s : tKbAppState) : tKbAppState :=
  mkKbAppState (eventQueue s) (stdRpt s) (bitMappedReport s) (slpRpt s)
    (funcLockRpt s) (scrollReport s) (pinReport s) (funcLockInfo s)
    (keysInStdRpt s) (modKeysInStdRpt s) (keysInBitRpt s)
    (recoveryInProgress s) (stdRptChanged s) v (slpRptChanged s)
    (funcLockRptChanged s) (scrollRptChanged s) (pinRptChanged s)
    (pinCodeEntryInProgress s) (enterKeyPressed s) (pinCodeSize s)
    (maxPinCodeSize s) (pinCodeBuffer s) (scrollFractional s)
    (pollsSinceScroll s) (idleRate s) (idleRateInBtClocks s)
    (kbapp_protocol s) (kbapp_funcLock_state s) (host_transport s) (trace s).

Definition set_slpRptChanged (v : bool) (s : tKbAppState) : tKbAppState :=
  mkKbAppState (eventQueue s) (stdRpt s) (bitMappedReport s) (slpRpt s)
    (funcLockRpt s) (scrollReport s) (pinReport s) (funcLockInfo s)
    (keysInStdRpt s) (modKeysInStdRpt s) (keysInBitRpt s)
    (recoveryInProgress s) (stdRptChanged s) (bitRptChanged s) v
    (funcLockRptChanged s) (scrollRptChanged s) (pinRptChanged s)
    (pinCodeEntryInProgress s) (enterKeyPressed s) (pinCodeSize s)
    (maxPinCodeSize s) (pinCodeBuffer s) (scrollFractional s)
    (pollsSinceScroll s) (idleRate s) (idleRateInBtClocks s)
    (kbapp_protocol s) (kbapp_funcLock_state s) (host_transport s) (trace s).

Definition set_funcLockRptChanged (v : bool) (s : tKbAppState) : tKbAppState :=
  mkKbAppState (eventQueue s) (stdRpt s) (bitMappedReport s) (slpRpt s)
    (funcLockRpt s) (scrollReport s) (pinReport s) (funcLockInfo s)
    (keysInStdRpt s) (modKeysInStdRpt s) (keysInBitRpt s)
    (recoveryInProgress s) (stdRptChanged s) (bitRptChanged s)
    (slpRptChanged s) v (scrollRptChanged s) (pinRptChanged s)
    (pinCodeEntryInProgress s) (enterKeyPressed s) (pinCodeSize s)
    (maxPinCodeSize s) (pinCodeBuffer s) (scrollFractional s)
    (pollsSinceScroll s) (idleRate s) (idleRateInBtClocks s)
    (kbapp_protocol s) (kbapp_funcLock_state s) (host_transport s) (trace s).

Definition set_scrollRptChanged (v : bool) (s : tKbAppState) : tKbAppState :=
  mkKbAppState (eventQueue s) (stdRpt s) (bitMappedReport s) (slpRpt s)
    (funcLockRpt s) (scrollReport s) (pinReport s) (funcLockInfo s)
    (keysInStdRpt s) (modKeysInStdRpt s) (keysInBitRpt s)
    (recoveryInProgress s) (stdRptChanged s) (bitRptChanged s)
    (slpRptChanged s) (funcLockRptChanged s) v (pinRptChanged s)
    (pinCodeEntryInProgress s) (enterKeyPressed s) (pinCodeSize s)
    (maxPinCodeSize s) (pinCodeBuffer s) (scrollFractional s)
    (pollsSinceScroll s) (idleRate s) (idleRateInBtClocks s)
    (kbapp_protocol s) (kbapp_funcLock_state s) (host_transport s) (trace s).

Definition set_pinRptChanged (v : bool) (s : tKbAppState) : tKbAppState :=
  mkKbAppState (eventQueue s) (stdRpt s) (bitMappedReport s) (slpRpt s)
    (funcLockRpt s) (scrollReport s) (pinReport s) (funcLockInfo s)
    (keysInStdRpt s) (modKeysInStdRpt s) (keysInBitRpt s)
    (recoveryInProgress s) (stdRptChanged s) (bitRptChanged s)
    (slpRptChanged s) (funcLockRptChanged s) (scrollRptChanged s) v
    (pinCodeEntryInProgress s) (enterKeyPressed s) (pinCodeSize s)
    (maxPinCodeSize s) (pinCodeBuffer s) (scrollFractional s)
    (pollsSinceScroll s) (idleRate s) (idleRateInBtClocks s)
    (kbapp_protocol s) (kbapp_funcLock_state s) (host_transport s) (trace s).

Definition set_pinCodeEntryInProgress (v : Z) (s : tKbAppState) : tKbAppState :=
  mkKbAppState (eventQueue s) (stdRpt s) (bitMappedReport s) (slpRpt s)
    (funcLockRpt s) (scrollReport s) (pinReport s) (funcLockInfo s)
    (keysInStdRpt s) (modKeysInStdRpt s) (keysInBitRpt s)
    (recoveryInProgress s) (stdRptChanged s) (bitRptChanged s)
    (slpRptChanged s) (funcLockRptChanged s) (scrollRptChanged s)
    (pinRptChanged s) v (enterKeyPressed s) (pinCodeSize s) (maxPinCodeSize s)
    (pinCodeBuffer s) (scrollFractional s) (pollsSinceScroll s) (idleRate s)
    (idleRateInBtClocks s) (kbapp_protocol s) (kbapp_funcLock_state s)
    (host_transport s) (trace s).

Definition set_enterKeyPressed (v : Z) (s : tKbAppState) : tKbAppState :=
  mkKbAppState (eventQueue s) (stdRpt s) (bitMappedReport s) (slpRpt s)
    (funcLockRpt s) (scrollReport s) (pinReport s) (funcLockInfo s)
    (keysInStdRpt s) (modKeysInStdRpt s) (keysInBitRpt s)
    (recoveryInProgress s) (stdRptChanged s) (bitRptChanged s)
    (slpRptChanged s) (funcLockRptChanged s) (scrollRptChanged s)
    (pinRptChanged s) (pinCodeEntryInProgress s) v (pinCodeSize s)
    (maxPinCodeSize s) (pinCodeBuffer s) (scrollFractional s)
    (pollsSinceScroll s) (idleRate s) (idleRateInBtClocks s)
    (kbapp_protocol s) (kbapp_funcLock_state s) (host_transport s) (trace s).

Definition set_pinCodeSize (v : Z) (s : tKbAppState) : tKbAppState :=
  mkKbAppState (eventQueue s) (stdRpt s) (bitMappedReport s) (slpRpt s)
    (funcLockRpt s) (scrollReport s) (pinReport s) (funcLockInfo s)
    (keysInStdRpt s) (modKeysInStdRpt s) (keysInBitRpt s)
    (recoveryInProgress s) (stdRptChanged s) (bitRptChanged s)
    (slpRptChanged s) (funcLockRptChanged s) (scrollRptChanged s)
    (pinRptChanged s) (pinCodeEntryInProgress s) (enterKeyPressed s) v
    (maxPinCodeSize s) (pinCodeBuffer s) (scrollFractional s)
    (pollsSinceScroll s) (idleRate s) (idleRateInBtClocks s)
    (kbapp_protocol s) (kbapp_funcLock_state s) (host_transport s) (trace s).

Definition set_maxPinCodeSize (v : Z) (s : tKbAppState) : tKbAppState :=
  mkKbAppState (eventQueue s) (stdRpt s) (bitMappedReport s) (slpRpt s)
    (funcLockRpt s) (scrollReport s) (pinReport s) (funcLockInfo s)
    (keysInStdRpt s) (modKeysInStdRpt s) (keysInBitRpt s)
    (recoveryInProgress s) (stdRptChanged s) (bitRptChanged s)
    (slpRptChanged s) (funcLockRptChanged s) (scrollRptChanged s)
    (pinRptChanged s) (pinCodeEntryInProgress s) (enterKeyPressed s)
    (pinCodeSize s) v (pinCodeBuffer s) (scrollFractional s)
    (pollsSinceScroll s) (idleRate s) (idleRateInBtClocks s)
    (kbapp_protocol s) (kbapp_funcLock_state s) (host_transport s) (trace s).

Definition set_pinCodeBuffer (v : list Z) (s : tKbAppState) : tKbAppState :=
  mkKbAppState (eventQueue s) (stdRpt s) (bitMappedReport s) (slpRpt s)
    (funcLockRpt s) (scrollReport s) (pinReport s) (funcLockInfo s)
    (keysInStdRpt s) (modKeysInStdRpt s) (keysInBitRpt s)
    (recoveryInProgress s) (stdRptChanged s) (bitRptChanged s)
    (slpRptChanged s) (funcLockRptChanged s) (scrollRptChanged s)
    (pinRptChanged s) (pinCodeEntryInProgress s) (enterKeyPressed s)
    (pinCodeSize s) (maxPinCodeSize s) v (scrollFractional s)
    (pollsSinceScroll s) (idleRate s) (idleRateInBtClocks s)
    (kbapp_protocol s) (kbapp_funcLock_state s) (host_transport s) (trace s).

Definition set_scrollFractional (v : Z) (s : tKbAppState) : tKbAppState :=
  mkKbAppState (eventQueue s) (stdRpt s) (bitMappedReport s) (slpRpt s)
    (funcLockRpt s) (scrollReport s) (pinReport s) (funcLockInfo s)
    (keysInStdRpt s) (modKeysInStdRpt s) (keysInBitRpt s)
    (recoveryInProgress s) (stdRptChanged s) (bitRptChanged s)
    (slpRptChanged s) (funcLockRptChanged s) (scrollRptChanged s)
    (pinRptChanged s) (pinCodeEntryInProgress s) (enterKeyPressed s)
    (pinCodeSize s) (maxPinCodeSize s) (pinCodeBuffer s) v
    (pollsSinceScroll s) (idleRate s) (idleRateInBtClocks s)
    (kbapp_protocol s) (kbapp_funcLock_state s) (host_transport s) (trace s).

Definition set_pollsSinceScroll (v : Z) (s : tKbAppState) : tKbAppState :=
  mkKbAppState (eventQueue s) (stdRpt s) (bitMappedReport s) (slpRpt s)
    (funcLockRpt s) (scrollReport s) (pinReport s) (funcLockInfo s)
    (keysInStdRpt s) (modKeysInStdRpt s) (keysInBitRpt s)
    (recoveryInProgress s) (stdRptChanged s) (bitRptChanged s)
    (slpRptChanged s) (funcLockRptChanged s) (scrollRptChanged s)
    (pinRptChanged s) (pinCodeEntryInProgress s) (enterKeyPressed s)
    (pinCodeSize s) (maxPinCodeSize s) (pinCodeBuffer s) (scrollFractional s)
    v (idleRate s) (idleRateInBtClocks s) (kbapp_protocol s)
    (kbapp_funcLock_state s) (host_transport s) (trace s).

Definition set_idleRate (v : Z) (s : tKbAppState) : tKbAppState :=
  mkKbAppState (eventQueue s) (stdRpt s) (bitMappedReport s) (slpRpt s)
    (funcLockRpt s) (scrollReport s) (pinReport s) (funcLockInfo s)
    (keysInStdRpt s) (modKeysInStdRpt s) (keysInBitRpt s)
    (recoveryInProgress s) (stdRptChanged s) (bitRptChanged s)
    (slpRptChanged s) (funcLockRptChanged s) (scrollRptChanged s)
    (pinRptChanged s) (pinCodeEntryInProgress s) (enterKeyPressed s)
    (pinCodeSize s) (maxPinCodeSize s) (pinCodeBuffer s) (scrollFractional s)
    (pollsSinceScroll s) v (idleRateInBtClocks s) (kbapp_protocol s)
    (kbapp_funcLock_state s) (host_transport s) (trace s).

Definition set_idleRateInBtClocks (v : Z) (s : tKbAppState) : tKbAppState :=
  mkKbAppState (eventQueue s) (stdRpt s) (bitMappedReport s) (slpRpt s)
    (funcLockRpt s) (scrollReport s) (pinReport s) (funcLockInfo s)
    (keysInStdRpt s) (modKeysInStdRpt s) (keysInBitRpt s)
    (recoveryInProgress s) (stdRptChanged s) (bitRptChanged s)
    (slpRptChanged s) (funcLockRptChanged s) (scrollRptChanged s)
    (pinRptChanged s) (pinCodeEntryInProgress s) (enterKeyPressed s)
    (pinCodeSize s) (maxPinCodeSize s) (pinCodeBuffer s) (scrollFractional s)
    (pollsSinceScroll s) (idleRate s) v (kbapp_protocol s)
    (kbapp_funcLock_state s) (host_transport s) (trace s).

Definition set_kbapp_protocol (v : Z) (s : tKbAppState) : tKbAppState :=
  mkKbAppState (eventQueue s) (stdRpt s) (bitMappedReport s) (slpRpt s)
    (funcLockRpt s) (scrollReport s) (pinReport s) (funcLockInfo s)
    (keysInStdRpt s) (modKeysInStdRpt s) (keysInBitRpt s)
    (recoveryInProgress s) (stdRptChanged s) (bitRptChanged s)
    (slpRptChanged s) (funcLockRptChanged s) (scrollRptChanged s)
    (pinRptChanged s) (pinCodeEntryInProgress s) (enterKeyPressed s)
    (pinCodeSize s) (maxPinCodeSize s) (pinCodeBuffer s) (scrollFractional s)
    (pollsSinceScroll s) (idleRate s) (idleRateInBtClocks s) v
    (kbapp_funcLock_state s) (host_transport s) (trace s).

Definition set_kbapp_funcLock_state (v : FuncLockState) (s : tKbAppState) : tKbAppState :=
  mkKbAppState (eventQueue s) (stdRpt s) (bitMappedReport s) (slpRpt s)
    (funcLockRpt s) (scrollReport s) (pinReport s) (funcLockInfo s)
    (keysInStdRpt s) (modKeysInStdRpt s) (keysInBitRpt s)
    (recoveryInProgress s) (stdRptChanged s) (bitRptChanged s)
    (slpRptChanged s) (funcLockRptChanged s) (scrollRptChanged s)
    (pinRptChanged s) (pinCodeEntryInProgress s) (enterKeyPressed s)
    (pinCodeSize s) (maxPinCodeSize s) (pinCodeBuffer s) (scrollFractional s)
    (pollsSinceScroll s) (idleRate s) (idleRateInBtClocks s)
    (kbapp_protocol s) v (host_transport s) (trace s).

Definition set_host_transport (v : Transport) (s : tKbAppState) : tKbAppState :=
  mkKbAppState (eventQueue s) (stdRpt s) (bitMappedReport s) (slpRpt s)
    (funcLockRpt s) (scrollReport s) (pinReport s) (funcLockInfo s)
    (keysInStdRpt s) (modKeysInStdRpt s) (keysInBitRpt s)
    (recoveryInProgress s) (stdRptChanged s) (bitRptChanged s)
    (slpRptChanged s) (funcLockRptChanged s) (scrollRptChanged s)
    (pinRptChanged s) (pinCodeEntryInProgress s) (enterKeyPressed s)
    (pinCodeSize s) (maxPinCodeSize s) (pinCodeBuffer s) (scrollFractional s)
    (pollsSinceScroll s) (idleRate s) (idleRateInBtClocks s)
    (kbapp_protocol s) (kbapp_funcLock_state s) v (trace s).

Definition set_trace (v : list IoEvent) (s : tKbAppState) : tKbAppState :=
  mkKbAppState (eventQueue s) (stdRpt s) (bitMappedReport s) (slpRpt s)
    (funcLockRpt s) (scrollReport s) (pinReport s) (funcLockInfo s)
    (keysInStdRpt s) (modKeysInStdRpt s) (keysInBitRpt s)
    (recoveryInProgress s) (stdRptChanged s) (bitRptChanged s)
    (slpRptChanged s) (funcLockRptChanged s) (scrollRptChanged s)
    (pinRptChanged s) (pinCodeEntryInProgress s) (enterKeyPressed s)
    (pinCodeSize s) (maxPinCodeSize s) (pinCodeBuffer s) (scrollFractional s)
    (pollsSinceScroll s) (idleRate s) (idleRateInBtClocks s)
    (kbapp_protocol s) (kbapp_funcLock_state s) (host_transport s) v.
(** Assignments to the members of the report structures. *)
Definition set_keyCodes (v : list Z) (s : tKbAppState) : tKbAppState :=
  set_stdRpt
    (mkStdRpt (std_reportID (stdRpt s)) (modifierKeys (stdRpt s))
       (reserved (stdRpt s)) v) s.

Definition set_modifierKeys (v : Z) (s : tKbAppState) : tKbAppState :=
  set_stdRpt
    (mkStdRpt (std_reportID (stdRpt s)) v (reserved (stdRpt s))
       (keyCodes (stdRpt s))) s.

Definition set_bitMappedKeys (v : list Z) (s : tKbAppState) : tKbAppState :=
  set_bitMappedReport (mkBitRpt (bit_reportID (bitMappedReport s)) v) s.

Definition set_sleepVal (v : Z) (s : tKbAppState) : tKbAppState :=
  set_slpRpt (mkSlpRpt (slp_reportID (slpRpt s)) v) s.

Definition set_status (v : Z) (s : tKbAppState) : tKbAppState :=
  set_funcLockRpt (mkFuncLockRpt (fl_reportID (funcLockRpt s)) v) s.

Definition set_motionAxis0 (v : Z) (s : tKbAppState) : tKbAppState :=
  set_scrollReport (mkScrollRpt (scroll_reportID (scrollReport s)) v) s.

Definition set_reportCode (v : Z) (s : tKbAppState) : tKbAppState :=
  set_pinReport (mkPinRpt (pin_reportID (pinReport s)) v) s.

Definition set_state (v : FuncLockState) (s : tKbAppState) : tKbAppState :=
  set_funcLockInfo
    (mkFuncLockInfo v (kepPosition (funcLockInfo s))
       (toggleStateOnKeyUp (funcLockInfo s))) s.

Definition set_kepPosition (v : FuncLockKeyPosition) (s : tKbAppState)
  : tKbAppState :=
  set_funcLockInfo
    (mkFuncLockInfo (state (funcLockInfo s)) v
       (toggleStateOnKeyUp (funcLockInfo s))) s.

Definition set_toggleStateOnKeyUp (v : bool) (s : tKbAppState) : tKbAppState :=
  set_funcLockInfo
    (mkFuncLockInfo (state (funcLockInfo s)) (kepPosition (funcLockInfo s)) v)
    s.

Section Keyboard.
Context {fw : Firmware}.

(** [kbKeyConfig_size], which the configuration file sets to the number of
    entries of [kbKeyConfig]. *)
Definition kbKeyConfig_size : Z := Z.of_nat (length kbKeyConfig).

(** Translation table for func-lock dependent keys: bit-mapped report code and
    standard report code of each key. *)
Record KbFuncLockDepKeyTransTab : Type := mkDepKey {
  bitRptCode : Z;
  stdRptCode : Z
}.

Definition kbFuncLockDepKeyTransTab : list KbFuncLockDepKeyTransTab :=
  [ mkDepKey 0x03 USB_USAGE_F1;
    mkDepKey 0x05 USB_USAGE_F2;
    mkDepKey 0x08 USB_USAGE_F3;
    mkDepKey 0x06 USB_USAGE_F4;
    mkDepKey 0x09 USB_USAGE_F5;
    mkDepKey 0x0D USB_USAGE_F6;
    mkDepKey 0x0B USB_USAGE_F7;
    mkDepKey 0x0E USB_USAGE_F8;
    mkDepKey 0x0C USB_USAGE_F9;
    mkDepKey 0x11 USB_USAGE_F10;
    mkDepKey 0x10 USB_USAGE_F11;
    mkDepKey 0x0F USB_USAGE_F12;
    mkDepKey 0x0 USB_USAGE_POWER ].

Definition pinCodeEventTransTab : list (list Z) :=
  [ [ PIN_ENTRY_EVENT_INVALID;
      PIN_ENTRY_EVENT_CHAR;
      PIN_ENTRY_EVENT_BACKSPACE;
      PIN_ENTRY_EVENT_RESTART;
      PIN_ENTRY_EVENT_INVALID ];
    [ PASS_KEY_ENTRY_EVENT_START;
      PASS_KEY_ENTRY_EVENT_CHAR;
      PASS_KEY_ENTRY_EVENT_BACKSPACE;
      PASS_KEY_ENTRY_EVENT_RESTART;
      PASS_KEY_ENTRY_EVENT_STOP ] ].

(** ** The event queue of the HID library *)

(** Modelled from the spec: the queue is a bounded FIFO; [peekCurrent] reads
    the oldest event without removing it. *)
Definition wiced_hidd_event_queue_get_current_element (s : tKbAppState)
  : option HidEvent :=
  head (eventQueue s).

(** Modelled from the spec: [popCurrent] removes the oldest event. *)
Definition wiced_hidd_event_queue_remove_current_element (s : tKbAppState)
  : tKbAppState :=
  set_eventQueue (tail (eventQueue s)) s.

(** Modelled from the spec: [flush] discards all pending events. *)
Definition wiced_hidd_event_queue_flush (s : tKbAppState) : tKbAppState :=
  set_eventQueue [] s.

(** Modelled from the spec: [count] is the number of pending events. *)
Definition wiced_hidd_event_queue_get_num_elements (s : tKbAppState) : Z :=
  Z.of_nat (length (eventQueue s)).

(** Modelled from the spec: [push] never fails outwardly; when the queue runs
    out of room an overflow-marker event takes the place of the event that is
    dropped. *)
Definition wiced_hidd_event_queue_add_event_with_overflow
  (e : HidEvent) (s : tKbAppState) : tKbAppState :=
  let n := Z.of_nat (length (eventQueue s)) in
  if n + 1 <? maxEventNum kbAppConfig then set_eventQueue (eventQueue s ++ [e]) s
  else if n <? maxEventNum kbAppConfig
       then set_eventQueue (eventQueue s ++ [HID_EVENT_EVENT_FIFO_OVERFLOW]) s
       else s.

(** A call into a collaborator. *)
Definition emit (e : IoEvent) (s : tKbAppState) : tKbAppState :=
  set_trace (trace s ++ [e]) s.

(** ** Scroll scaling *)

(** [kbapp_scaleValue]: the pair of the returned whole number and of the
    value left in [*val].  The operands of the shifts are promoted to [int];
    the results are stored in [int16_t] objects. *)
Definition kbapp_scaleValue (val : Z) (scaleFactor : Z) : Z * Z :=
  let result := if val <? 0 then int16 (- val) else val in
  let result := int16 (Z.shiftr result scaleFactor) in
  if negb (result =? 0) then
    let result := if val <? 0 then int16 (- result) else result in
    (result, int16 (val - Z.shiftl result scaleFactor))
  else (result, val).

(** [kbapp_pollActivityScroll]; [scroll_getCount_result] is what the
    quadrature driver returns for this poll. *)
Definition kbapp_pollActivityScroll (scroll_getCount_result : Z)
  (s : tKbAppState) : tKbAppState :=
  let scrollCurrent := scroll_getCount_result in
  if negb (scrollCurrent =? 0) then
    let scrollCurrent :=
      if negateScroll kbAppConfig then int16 (- scrollCurrent)
      else scrollCurrent in
    let '(motion, s) :=
      if negb (scrollScale kbAppConfig =? 0) then
        let s := set_scrollFractional
                   (int16 (scrollFractional s + scrollCurrent)) s in
        let '(q, r) :=
          kbapp_scaleValue (scrollFractional s) (scrollScale kbAppConfig) in
        let s := set_scrollFractional r s in
        (q, set_pollsSinceScroll 0 s)
      else (scrollCurrent, s) in
    wiced_hidd_event_queue_add_event_with_overflow
      (HID_EVENT_MOTION_AXIS_0 motion) s
  else
    if negb (pollsToKeepFracScrollData kbAppConfig =? 0) then
      let s := set_pollsSinceScroll (u8 (pollsSinceScroll s + 1)) s in
      if pollsToKeepFracScrollData kbAppConfig <=? pollsSinceScroll s then
        set_pollsSinceScroll 0 (set_scrollFractional 0 s)
      else s
    else s.

(** ** Sending reports *)

Definition kbapp_stdRptRolloverSend (s : tKbAppState) : tKbAppState :=
  emit TxRolloverRpt s.

Definition kbapp_stdRptSend (s : tKbAppState) : tKbAppState :=
  let s := set_stdRptChanged false s in
  emit (TxStdRpt (stdRpt s)) s.

Definition kbapp_bitRptSend (s : tKbAppState) : tKbAppState :=
  let s := set_bitRptChanged false s in
  emit (TxBitRpt (bitMappedReport s)) s.

Definition kbapp_slpRptSend (s : tKbAppState) : tKbAppState :=
  let s := set_slpRptChanged false s in
  emit (TxSlpRpt (slpRpt s)) s.

Definition kbapp_funcLockRptSend (s : tKbAppState) : tKbAppState :=
  let s := set_funcLockRptChanged false s in
  emit (TxFuncLockRpt (funcLockRpt s)) s.

Definition kbapp_scrollRptSend (s : tKbAppState) : tKbAppState :=
  let s := set_scrollRptChanged false s in
  match host_transport s with
  | BT_TRANSPORT_LE =>
      let blekb_scroll_rpt :=
        if 0 <? motionAxis0 (scrollReport s) then SCROLL_REPORT_VOLUME_UP
        else SCROLL_REPORT_VOLUME_DOWN in
      let s := emit (TxScrollRptLE blekb_scroll_rpt) s in
      emit (TxScrollRptLE 0) s
  | BT_TRANSPORT_BR_EDR => emit (TxScrollRpt (scrollReport s)) s
  end.

Definition kbapp_pinRptSend (s : tKbAppState) : tKbAppState :=
  let s := set_pinRptChanged false s in
  emit (TxPinRpt (pinReport s)) s.

Definition kbapp_txModifiedKeyReports (s : tKbAppState) : tKbAppState :=
  if recoveryInProgress s =? 0 then
    let s := if stdRptChanged s then kbapp_stdRptSend s else s in
    if kbapp_protocol s =? PROTOCOL_REPORT then
      let s := if bitRptChanged s then kbapp_bitRptSend s else s in
      let s := if slpRptChanged s then kbapp_slpRptSend s else s in
      let s := if funcLockRptChanged s then kbapp_funcLockRptSend s else s in
      if scrollRptChanged s then kbapp_scrollRptSend s else s
    else s
  else s.

(** ** Clearing reports *)

Definition kbapp_stdRptClear (s : tKbAppState) : tKbAppState :=
  let s := set_keysInStdRpt 0 s in
  let s := set_modKeysInStdRpt 0 s in
  set_stdRpt
    (mkStdRpt (stdRptID kbAppConfig) 0 0
       (replicate (length (keyCodes (stdRpt s))) 0)) s.

Definition kbapp_slpRptClear (s : tKbAppState) : tKbAppState :=
  set_slpRpt (mkSlpRpt (sleepReportID kbAppConfig) 0) s.

Definition kbapp_bitRptClear (s : tKbAppState) : tKbAppState :=
  let s := set_keysInBitRpt 0 s in
  set_bitMappedReport
    (mkBitRpt (bitReportID kbAppConfig)
       (replicate (length (bitMappedKeys (bitMappedReport s))) 0)) s.

Definition kbapp_scrollRptClear (s : tKbAppState) : tKbAppState :=
  let s := set_scrollReport (mkScrollRpt (scrollReportID kbAppConfig) 0) s in
  set_scrollRptChanged false s.

Definition kbapp_pinRptClear (s : tKbAppState) : tKbAppState :=
  set_pinReport (mkPinRpt (pinReportID kbAppConfig) 0) s.

Definition kbapp_clearAllReports (s : tKbAppState) : tKbAppState :=
  let s := kbapp_stdRptClear s in
  let s := kbapp_bitRptClear s in
  let s := kbapp_slpRptClear s in
  let s := kbapp_pinRptClear s in
  let s := kbapp_scrollRptClear s in
  let s := set_funcLockRptChanged false s in
  let s := set_scrollRptChanged false s in
  let s := set_pinRptChanged false s in
  let s := set_stdRptChanged false s in
  let s := set_slpRptChanged false s in
  set_bitRptChanged false s.

Definition kbapp_flushUserInput (s : tKbAppState) : tKbAppState :=
  let s := set_scrollFractional 0 s in
  let s := set_recoveryInProgress 0 s in
  let s := kbapp_clearAllReports s in
  wiced_hidd_event_queue_flush s.

(** ** The error response *)

Definition kbapp_connectButtonPressed (s : tKbAppState) : tKbAppState :=
  let s := emit VirtualCableUnplug s in
  emit EnterPairing s.

Definition kbapp_connectButtonHandler
  (connectButtonPosition : ConnectButtonPosition) (s : tKbAppState)
  : tKbAppState :=
  match connectButtonPosition with
  | CONNECT_BUTTON_DOWN => kbapp_connectButtonPressed s
  | CONNECT_BUTTON_UP => s
  end.

Definition kbapp_stdErrResp (s : tKbAppState) : tKbAppState :=
  let s := kbapp_clearAllReports s in
  let s := set_kepPosition FUNC_LOCK_KEY_UP s in
  let s := if recoveryInProgress s =? 0 then kbapp_stdRptRolloverSend s
           else s in
  let s := set_recoveryInProgress (recoveryPollCount kbAppConfig) s in
  let s := set_stdRptChanged true s in
  let s := set_bitRptChanged true s in
  let s := set_slpRptChanged true s in
  kbapp_connectButtonHandler CONNECT_BUTTON_UP s.

Definition kbapp_stdErrRespWithFwHwReset (s : tKbAppState) : tKbAppState :=
  let s := kbapp_stdErrResp s in
  let s := wiced_hidd_event_queue_flush s in
  emit KeyscanReset s.

Definition kbapp_procErrKeyscan (s : tKbAppState) : tKbAppState :=
  kbapp_stdErrRespWithFwHwReset s.

Definition kbapp_procErrEvtQueue (s : tKbAppState) : tKbAppState :=
  kbapp_stdErrRespWithFwHwReset s.

Definition kbapp_stdRptProcOverflow (s : tKbAppState) : tKbAppState :=
  kbapp_stdErrRespWithFwHwReset s.

(** ** The standard report *)

(** The search loop of [kbapp_stdRptProcEvtKeyDown]: [None] when the code is
    found (the function returns), otherwise the value of [i] at loop exit.
    The counter [i] is a [uint8_t]: 256 tests of the loop condition see every
    value it can take. *)
Fixpoint kbapp_stdRptProcEvtKeyDown_loop (fuel : nat) (i : Z)
  (translationCode : Z) (s : tKbAppState) : outcome (option Z) :=
  match fuel with
  | O => OutOfFuel
  | S fuel =>
      if i <? keysInStdRpt s then
        do k <- rd (keyCodes (stdRpt s)) i;
        if k =? translationCode then Done None
        else kbapp_stdRptProcEvtKeyDown_loop fuel (u8 (i + 1)) translationCode s
      else Done (Some i)
  end.

Definition kbapp_stdRptProcEvtKeyDown (upDownFlag keyCode translationCode : Z)
  (s : tKbAppState) : outcome tKbAppState :=
  do r <- kbapp_stdRptProcEvtKeyDown_loop 256 0 translationCode s;
  match r with
  | None => Done s
  | Some i =>
      if i <? maxKeysInStdRpt kbAppConfig then
        do kc <- wr (keyCodes (stdRpt s)) i translationCode;
        let s := set_keyCodes kc s in
        let s := set_keysInStdRpt (u8 (keysInStdRpt s + 1)) s in
        Done (set_stdRptChanged true s)
      else Done (kbapp_stdRptProcOverflow s)
  end.

(** The loop of [kbapp_stdRptProcEvtKeyUp].  It goes on after a match; the
    bound [keysInStdRpt] is read again at every test. *)
Fixpoint kbapp_stdRptProcEvtKeyUp_loop (fuel : nat) (i : Z)
  (translationCode : Z) (s : tKbAppState) : outcome tKbAppState :=
  match fuel with
  | O => OutOfFuel
  | S fuel =>
      if i <? keysInStdRpt s then
        do k <- rd (keyCodes (stdRpt s)) i;
        if k =? translationCode then
          let s := set_keysInStdRpt (u8 (keysInStdRpt s - 1)) s in
          do last <- rd (keyCodes (stdRpt s)) (keysInStdRpt s);
          do kc <- wr (keyCodes (stdRpt s)) i last;
          let s := set_keyCodes kc s in
          do kc <- wr (keyCodes (stdRpt s)) (keysInStdRpt s) 0;
          let s := set_keyCodes kc s in
          let s := set_stdRptChanged true s in
          kbapp_stdRptProcEvtKeyUp_loop fuel (u8 (i + 1)) translationCode s
        else kbapp_stdRptProcEvtKeyUp_loop fuel (u8 (i + 1)) translationCode s
      else Done s
  end.

Definition kbapp_stdRptProcEvtKeyUp (upDownFlag keyCode translationCode : Z)
  (s : tKbAppState) : outcome tKbAppState :=
  kbapp_stdRptProcEvtKeyUp_loop 256 0 translationCode s.

Definition kbapp_stdRptProcEvtKey (upDownFlag keyCode translationCode : Z)
  (s : tKbAppState) : outcome tKbAppState :=
  if upDownFlag =? KEY_DOWN
  then kbapp_stdRptProcEvtKeyDown upDownFlag keyCode translationCode s
  else kbapp_stdRptProcEvtKeyUp upDownFlag keyCode translationCode s.

Definition kbapp_stdRptProcEvtModKey (upDownFlag keyCode translationCode : Z)
  (s : tKbAppState) : tKbAppState :=
  if upDownFlag =? KEY_DOWN then
    if Z.land (modifierKeys (stdRpt s)) translationCode =? 0 then
      let s := set_modifierKeys
                 (Z.lor (modifierKeys (stdRpt s)) translationCode) s in
      let s := set_stdRptChanged true s in
      set_modKeysInStdRpt (u8 (modKeysInStdRpt s + 1)) s
    else s
  else
    if negb (Z.land (modifierKeys (stdRpt s)) translationCode =? 0) then
      let s := set_modifierKeys
                 (Z.land (modifierKeys (stdRpt s)) (Z.lnot translationCode))
                 s in
      let s := set_stdRptChanged true s in
      set_modKeysInStdRpt (u8 (modKeysInStdRpt s - 1)) s
    else s.

(** ** The sleep and bit-mapped reports *)

Definition kbapp_slpRptProcEvtKey (upDownFlag keyCode slpBitMask : Z)
  (s : tKbAppState) : tKbAppState :=
  if upDownFlag =? KEY_DOWN then
    if Z.land (sleepVal (slpRpt s)) slpBitMask =? 0 then
      let s := set_sleepVal (Z.lor (sleepVal (slpRpt s)) slpBitMask) s in
      set_slpRptChanged true s
    else s
  else
    if negb (Z.land (sleepVal (slpRpt s)) slpBitMask =? 0) then
      let s := set_sleepVal
                 (Z.land (sleepVal (slpRpt s)) (Z.lnot slpBitMask)) s in
      set_slpRptChanged true s
    else s.

Definition bitOffsetToByteValue : list Z :=
  [ 0x01; 0x02; 0x04; 0x08; 0x10; 0x20; 0x40; 0x80 ].

Definition kbapp_bitRptProcEvtKey (upDownFlag keyCode rowCol : Z)
  (s : tKbAppState) : outcome tKbAppState :=
  if rowCol <? numBitMappedKeys kbAppConfig then
    let row := Z.shiftr rowCol 3 in
    let col := Z.land rowCol 0x07 in
    do keyMask <- rd bitOffsetToByteValue col;
    do b <- rd (bitMappedKeys (bitMappedReport s)) row;
    if upDownFlag =? KEY_DOWN then
      if Z.land b keyMask =? 0 then
        do a <- wr (bitMappedKeys (bitMappedReport s)) row (Z.lor b keyMask);
        let s := set_bitMappedKeys a s in
        let s := set_keysInBitRpt (u8 (keysInBitRpt s + 1)) s in
        Done (set_bitRptChanged true s)
      else Done s
    else
      if negb (Z.land b keyMask =? 0) then
        do a <- wr (bitMappedKeys (bitMappedReport s)) row
                  (Z.land b (Z.lnot keyMask));
        let s := set_bitMappedKeys a s in
        let s := set_keysInBitRpt (u8 (keysInBitRpt s - 1)) s in
        Done (set_bitRptChanged true s)
      else Done s
  else Done s.

(** ** Func-lock *)

Definition kbapp_funcLockToggle (s : tKbAppState) : tKbAppState :=
  let st := match state (funcLockInfo s) with
            | FUNC_LOCK_STATE_OFF => FUNC_LOCK_STATE_ON
            | FUNC_LOCK_STATE_ON => FUNC_LOCK_STATE_OFF
            end in
  let s := set_state st s in
  let s := set_kbapp_funcLock_state st s in
  let s := set_status (Z.lor (FuncLockState_code (state (funcLockInfo s))) 2)
             s in
  set_funcLockRptChanged true s.

Definition kbapp_funcLockProcEvtKey (upDownFlag keyCode translationCode : Z)
  (s : tKbAppState) : tKbAppState :=
  if (recoveryInProgress s =? 0) && (kbapp_protocol s =? PROTOCOL_REPORT) then
    if upDownFlag =? KEY_DOWN then
      match kepPosition (funcLockInfo s) with
      | FUNC_LOCK_KEY_UP =>
          let s := set_kepPosition FUNC_LOCK_KEY_DOWN s in
          let s := kbapp_funcLockToggle s in
          set_toggleStateOnKeyUp false s
      | FUNC_LOCK_KEY_DOWN => s
      end
    else
      match kepPosition (funcLockInfo s) with
      | FUNC_LOCK_KEY_DOWN =>
          let s := set_kepPosition FUNC_LOCK_KEY_UP s in
          if toggleStateOnKeyUp (funcLockInfo s) then kbapp_funcLockToggle s
          else s
      | FUNC_LOCK_KEY_UP => s
      end
  else s.

Definition is_FUNC_LOCK_STATE_ON (st : FuncLockState) : bool :=
  match st with
  | FUNC_LOCK_STATE_ON => true
  | FUNC_LOCK_STATE_OFF => false
  end.

Definition kbapp_funcLockProcEvtDepKey
  (upDownFlag keyCode funcLockDepKeyTableIndex : Z) (s : tKbAppState)
  : outcome tKbAppState :=
  if upDownFlag =? KEY_DOWN then
    do s <-
      (if is_FUNC_LOCK_STATE_ON (state (funcLockInfo s))
          || (kbapp_protocol s =? PROTOCOL_BOOT)
       then
         do e <- rd kbFuncLockDepKeyTransTab funcLockDepKeyTableIndex;
         kbapp_stdRptProcEvtKey upDownFlag keyCode (stdRptCode e) s
       else
         do e <- rd kbFuncLockDepKeyTransTab funcLockDepKeyTableIndex;
         kbapp_bitRptProcEvtKey upDownFlag keyCode (bitRptCode e) s);
    Done (set_toggleStateOnKeyUp true s)
  else
    do e <- rd kbFuncLockDepKeyTransTab funcLockDepKeyTableIndex;
    do s <- kbapp_stdRptProcEvtKey upDownFlag keyCode (stdRptCode e) s;
    do e <- rd kbFuncLockDepKeyTransTab funcLockDepKeyTableIndex;
    kbapp_bitRptProcEvtKey upDownFlag keyCode (bitRptCode e) s.

(** ** The key dispatcher *)

Definition kbapp_procEvtUserDefinedKey (upDownFlag keyCode translationCode : Z)
  (s : tKbAppState) : tKbAppState := s.

Definition kbapp_procEvtUserDefined (s : tKbAppState) : tKbAppState := s.

(** The [switch] on the key type in [kbapp_procEvtKey]. *)
Definition kbapp_procEvtKey_switch (keyType : KeyType)
  (upDownFlag keyCode keyTranslationCode : Z) (s : tKbAppState)
  : outcome tKbAppState :=
  match keyType with
  | KEY_TYPE_STD =>
      kbapp_stdRptProcEvtKey upDownFlag keyCode keyTranslationCode s
  | KEY_TYPE_MODIFIER =>
      Done (kbapp_stdRptProcEvtModKey upDownFlag keyCode keyTranslationCode s)
  | KEY_TYPE_BIT_MAPPED =>
      kbapp_bitRptProcEvtKey upDownFlag keyCode keyTranslationCode s
  | KEY_TYPE_SLEEP =>
      Done (kbapp_slpRptProcEvtKey upDownFlag keyCode keyTranslationCode s)
  | KEY_TYPE_FUNC_LOCK =>
      Done (kbapp_funcLockProcEvtKey upDownFlag keyCode keyTranslationCode s)
  | KEY_TYPE_FUNC_LOCK_DEP =>
      kbapp_funcLockProcEvtDepKey upDownFlag keyCode keyTranslationCode s
  | KEY_TYPE_NONE => Done s
  | KEY_TYPE_USER_DEF _ =>
      Done (kbapp_procEvtUserDefinedKey upDownFlag keyCode keyTranslationCode s)
  end.

(** The [do ... while (keyCode < KB_MAX_KEYS)] loop of [kbapp_procEvtKey].
    Every turn that does not leave the loop consumes one event. *)
Fixpoint kbapp_procEvtKey_loop (fuel : nat) (s : tKbAppState)
  : outcome tKbAppState :=
  match fuel with
  | O => OutOfFuel
  | S fuel =>
      match wiced_hidd_event_queue_get_current_element s with
      | Some (HID_EVENT_KEY_STATE_CHANGE keyCode upDownFlag) =>
          if keyCode <? kbKeyConfig_size then
            do k <- rd kbKeyConfig keyCode;
            do s <- kbapp_procEvtKey_switch (type k) upDownFlag keyCode
                      (translationValue k) s;
            let s := wiced_hidd_event_queue_remove_current_element s in
            if keyCode <? KB_MAX_KEYS then kbapp_procEvtKey_loop fuel s
            else Done s
          else if keyCode =? END_OF_SCAN_CYCLE then
            let s := kbapp_txModifiedKeyReports s in
            let s := emit ActivityDetected s in
            let s := wiced_hidd_event_queue_remove_current_element s in
            if keyCode <? KB_MAX_KEYS then kbapp_procEvtKey_loop fuel s
            else Done s
          else Done (kbapp_procErrKeyscan s)
      | Some _ => Done (kbapp_procErrEvtQueue s)
      | None => Done (kbapp_procErrEvtQueue s)
      end
  end.

Definition kbapp_procEvtKey (s : tKbAppState) : outcome tKbAppState :=
  kbapp_procEvtKey_loop (S (length (eventQueue s))) s.

(** The loop of [kbapp_procEvtScroll] over the scroll events at the head of
    the queue: the accumulated motion and the events left.  The motions are
    added as integers: the width of the report member [motionAxis0] is
    declared in a header that is not among the sources, so the sum is not
    reduced to it. *)
Fixpoint kbapp_procEvtScroll_loop (q : list HidEvent) (acc : Z)
  : Z * list HidEvent :=
  match q with
  | HID_EVENT_MOTION_AXIS_0 motion :: q' =>
      if scrollCombining kbAppConfig
      then kbapp_procEvtScroll_loop q' (acc + motion)
      else (acc + motion, q')
  | _ => (acc, q)
  end.

Definition kbapp_procEvtScroll (s : tKbAppState) : tKbAppState :=
  let s := set_motionAxis0 0 s in
  let '(m, q) :=
    kbapp_procEvtScroll_loop (eventQueue s) (motionAxis0 (scrollReport s)) in
  let s := set_eventQueue q (set_motionAxis0 m s) in
  let s := if negb (motionAxis0 (scrollReport s) =? 0)
           then set_scrollRptChanged true s else s in
  kbapp_txModifiedKeyReports s.

(** ** Report generation *)

(** [kbapp_idleRateProc]; the arguments are what the buffer pool and the
    Bluetooth clock report when they are asked. *)
Definition kbapp_idleRateProc (poolutilization bt_clocks_since : Z)
  (s : tKbAppState) : tKbAppState :=
  if negb (idleRate s =? 0)
     && (recoveryInProgress s =? 0)
     && (negb (keysInStdRpt s =? 0) || negb (modKeysInStdRpt s =? 0))
     && (wiced_hidd_event_queue_get_num_elements s =? 0)
     && (poolutilization <? 80)
     && (idleRateInBtClocks s <=? bt_clocks_since)
  then kbapp_stdRptSend s
  else s.

(** The [while] loop of [kbapp_generateAndTxReports]; [pool] lists what the
    buffer pool reports at the successive tests of the loop condition. *)
Fixpoint kbapp_generateAndTxReports_loop (pool : list Z) (s : tKbAppState)
  : outcome tKbAppState :=
  match pool with
  | [] => OutOfFuel
  | poolutilization :: pool =>
      if poolutilization <? 80 then
        match wiced_hidd_event_queue_get_current_element s with
        | Some curEvent =>
            do s <-
              match curEvent with
              | HID_EVENT_KEY_STATE_CHANGE _ _ => kbapp_procEvtKey s
              | HID_EVENT_MOTION_AXIS_0 _ => Done (kbapp_procEvtScroll s)
              | HID_EVENT_EVENT_FIFO_OVERFLOW => Done (kbapp_procErrEvtQueue s)
              | HID_EVENT_OTHER _ => Done (kbapp_procEvtUserDefined s)
              end;
            kbapp_generateAndTxReports_loop pool s
        | None => Done s
        end
      else Done s
  end.

Definition kbapp_generateAndTxReports (pool : list Z)
  (idle_poolutilization bt_clocks_since : Z) (s : tKbAppState)
  : outcome tKbAppState :=
  if negb (pinCodeEntryInProgress s =? PIN_ENTRY_MODE_NONE) then
    Done (if pinRptChanged s then kbapp_pinRptSend s else s)
  else
    let s :=
      if negb (recoveryInProgress s =? 0) then
        let s := set_recoveryInProgress (u8 (recoveryInProgress s - 1)) s in
        if recoveryInProgress s =? 0 then kbapp_txModifiedKeyReports s else s
      else s in
    do s <- kbapp_generateAndTxReports_loop pool s;
    Done (kbapp_idleRateProc idle_poolutilization bt_clocks_since s).

(** ** Protocol *)

Definition kbapp_setProtocol (newProtocol : Z) (s : tKbAppState)
  : tKbAppState :=
  let s :=
    if negb (kbapp_protocol s =? newProtocol)
       && (newProtocol =? HID_PAR_PROTOCOL_REPORT)
    then
      let s := kbapp_bitRptClear s in
      let s := kbapp_slpRptClear s in
      let s := kbapp_scrollRptClear s in
      set_kepPosition FUNC_LOCK_KEY_UP s
    else s in
  set_kbapp_protocol newProtocol s.

(** ** Pin and pass code entry *)

Definition kbapp_pinRptUpdate (pinEntryCode : Z) (s : tKbAppState)
  : tKbAppState :=
  let s := set_reportCode pinEntryCode s in
  set_pinRptChanged true s.

Definition kbapp_pinEntryEvent (keyEntry : Z) (s : tKbAppState)
  : outcome tKbAppState :=
  if negb (pinCodeEntryInProgress s =? PIN_ENTRY_MODE_NONE)
     && (keyEntry <? KEY_ENTRY_EVENT_MAX)
  then
    do row <- rd pinCodeEventTransTab (Z.land (pinCodeEntryInProgress s) 0x01);
    do newCode <- rd row keyEntry;
    if pinCodeEntryInProgress s =? LEGACY_PIN_ENTRY_IN_PROGRESS then
      if negb (newCode =? PIN_ENTRY_EVENT_INVALID)
      then Done (kbapp_pinRptUpdate newCode s)
      else Done s
    else if pinCodeEntryInProgress s =? PASS_KEY_ENTRY_IN_PROGRESS then
      Done (emit (PassCodeKeyPressReport newCode) s)
    else Done s
  else Done s.

(** The digit a usage code stands for in [kbapp_handlePinEntry], [0xff] for a
    code that is no digit. *)
Definition numericKey (usbUsageCode : Z) : Z :=
  if (usbUsageCode =? USB_USAGE_0) || (usbUsageCode =? USB_USAGE_KP_0) then 0
  else if (USB_USAGE_1 <=? usbUsageCode) && (usbUsageCode <=? USB_USAGE_9)
  then u8 (usbUsageCode - USB_USAGE_1 + 1)
  else if (USB_USAGE_KP_1 <=? usbUsageCode) && (usbUsageCode <=? USB_USAGE_KP_9)
  then u8 (usbUsageCode - USB_USAGE_KP_1 + 1)
  else 0xff.

(** The [switch] on the usage code of a standard key that went down. *)
Definition kbapp_handlePinEntry_switch (usbUsageCode : Z) (s : tKbAppState)
  : outcome tKbAppState :=
  if (usbUsageCode =? USB_USAGE_BACKSPACE) || (usbUsageCode =? USB_USAGE_DELETE)
  then
    if negb (pinCodeSize s =? 0) then
      let s := set_pinCodeSize (u8 (pinCodeSize s - 1)) s in
      kbapp_pinEntryEvent KEY_ENTRY_EVENT_BACKSPACE s
    else Done s
  else if usbUsageCode =? USB_USAGE_ESCAPE then
    let s := set_pinCodeSize 0 s in
    kbapp_pinEntryEvent KEY_ENTRY_EVENT_RESTART s
  else if (usbUsageCode =? USB_USAGE_ENTER)
          || (usbUsageCode =? USB_USAGE_KP_ENTER)
  then Done (set_enterKeyPressed usbUsageCode s)
  else
    let numericKeyAsciiCode := numericKey usbUsageCode in
    if negb (numericKeyAsciiCode =? 0xff) then
      let numericKeyAsciiCode := u8 (numericKeyAsciiCode + 48) in
      if pinCodeSize s <? maxPinCodeSize s then
        do buf <- wr (pinCodeBuffer s) (pinCodeSize s) numericKeyAsciiCode;
        let s := set_pinCodeBuffer buf s in
        let s := set_pinCodeSize (u8 (pinCodeSize s + 1)) s in
        kbapp_pinEntryEvent KEY_ENTRY_EVENT_CHAR s
      else Done s
    else Done s.

(** Completion of the entry: the code goes to the authenticating transport,
    the mode is left and all user input is flushed. *)
Definition kbapp_handlePinEntry_complete (s : tKbAppState)
  : outcome tKbAppState :=
  do s <-
    (if pinCodeEntryInProgress s =? LEGACY_PIN_ENTRY_IN_PROGRESS then
       Done (emit (PinCode (pinCodeSize s) (pinCodeBuffer s)) s)
     else
       do s <- kbapp_pinEntryEvent KEY_ENTRY_EVENT_STOP s;
       do buf <- wr (pinCodeBuffer s) (pinCodeSize s) 0;
       let s := set_pinCodeBuffer buf s in
       Done (emit (PassCode (pinCodeSize s) (pinCodeBuffer s)) s));
  let s := set_pinCodeEntryInProgress PIN_ENTRY_MODE_NONE s in
  Done (kbapp_flushUserInput s).

(** One turn of the [while] loop of [kbapp_handlePinEntry] on the current
    event; the flag tells that the function returned from inside the loop. *)
Definition kbapp_handlePinEntry_body (curEvent : HidEvent) (s : tKbAppState)
  : outcome (bool * tKbAppState) :=
  match curEvent with
  | HID_EVENT_KEY_STATE_CHANGE keyCode upDownFlag =>
      if (upDownFlag =? KEY_DOWN) && (enterKeyPressed s =? 0) then
        do k <- rd kbKeyConfig keyCode;
        match type k with
        | KEY_TYPE_STD =>
            do s <- kbapp_handlePinEntry_switch (translationValue k) s;
            Done (false, s)
        | _ => Done (false, s)
        end
      else
        if negb (enterKeyPressed s =? 0) then
          do k <- rd kbKeyConfig keyCode;
          if translationValue k =? enterKeyPressed s then
            do s <- kbapp_handlePinEntry_complete s;
            Done (true, s)
          else Done (false, s)
        else Done (false, s)
  | _ => Done (false, s)
  end.

Fixpoint kbapp_handlePinEntry_loop (fuel : nat) (s : tKbAppState)
  : outcome tKbAppState :=
  match fuel with
  | O => OutOfFuel
  | S fuel =>
      match wiced_hidd_event_queue_get_current_element s with
      | Some curEvent =>
          do r <- kbapp_handlePinEntry_body curEvent s;
          if fst r then Done (snd r)
          else kbapp_handlePinEntry_loop fuel
                 (wiced_hidd_event_queue_remove_current_element (snd r))
      | None => Done s
      end
  end.

Definition kbapp_handlePinEntry (s : tKbAppState) : outcome tKbAppState :=
  kbapp_handlePinEntry_loop (S (length (eventQueue s))) s.

(** [memset (buffer, 0, n)]. *)
Definition memset0 (buffer : list Z) (n : Z) : outcome (list Z) :=
  if (0 <=? n) && (n <=? Z.of_nat (length buffer))
  then Done (replicate (Z.to_nat n) 0 ++ drop (Z.to_nat n) buffer)
  else OutOfBounds.

Definition kbapp_enterPinCodeEntryMode (s : tKbAppState)
  : outcome tKbAppState :=
  if pinCodeEntryInProgress s =? PIN_ENTRY_MODE_NONE then
    let s := set_enterKeyPressed 0 s in
    let s := kbapp_flushUserInput s in
    let s := set_pinCodeSize 0 s in
    let s := set_maxPinCodeSize MAX_PIN_SIZE s in
    do buf <- memset0 (pinCodeBuffer s) MAX_PIN_SIZE;
    let s := set_pinCodeBuffer buf s in
    Done (set_pinCodeEntryInProgress LEGACY_PIN_ENTRY_IN_PROGRESS s)
  else Done (emit Disconnect s).

Definition kbapp_exitPinAndPassCodeEntryMode (s : tKbAppState)
  : tKbAppState :=
  set_pinCodeEntryInProgress PIN_ENTRY_MODE_NONE s.

Definition kbapp_enterPassCodeEntryMode (s : tKbAppState)
  : outcome tKbAppState :=
  if pinCodeEntryInProgress s =? PIN_ENTRY_MODE_NONE then
    let s := set_enterKeyPressed 0 s in
    let s := kbapp_flushUserInput s in
    let s := set_pinCodeSize 0 s in
    let s := set_maxPinCodeSize MAX_PASS_SIZE s in
    let s := set_pinCodeBuffer (replicate (length (pinCodeBuffer s)) 0) s in
    let s := set_pinCodeEntryInProgress PASS_KEY_ENTRY_IN_PROGRESS s in
    kbapp_pinEntryEvent KEY_ENTRY_EVENT_START s
  else Done (emit Disconnect s).

(** ** Polling the hardware *)

(** The loop of [kbapp_pollActivityKey] over the events the keyscan driver
    holds, oldest first, each a pair of key code and up/down flag. *)
Fixpoint kbapp_pollActivityKey_loop (keyscan_events : list (Z * Z))
  (suppressEndScanCycleAfterConnectButton : bool) (s : tKbAppState)
  : tKbAppState :=
  match keyscan_events with
  | [] => s
  | (keyCode, upDownFlag) :: keyscan_events =>
      if keyCode =? connectButtonScanIndex kbAppConfig then
        let s :=
          if recoveryInProgress s =? 0 then
            kbapp_connectButtonHandler
              (if upDownFlag =? KEY_DOWN then CONNECT_BUTTON_DOWN
               else CONNECT_BUTTON_UP) s
          else s in
        kbapp_pollActivityKey_loop keyscan_events
          suppressEndScanCycleAfterConnectButton s
      else if keyCode =? END_OF_SCAN_CYCLE then
        let s :=
          if negb suppressEndScanCycleAfterConnectButton then
            wiced_hidd_event_queue_add_event_with_overflow
              (HID_EVENT_KEY_STATE_CHANGE keyCode upDownFlag) s
          else s in
        kbapp_pollActivityKey_loop keyscan_events true s
      else
        let s := wiced_hidd_event_queue_add_event_with_overflow
                   (HID_EVENT_KEY_STATE_CHANGE keyCode upDownFlag) s in
        kbapp_pollActivityKey_loop keyscan_events false s
  end.

Definition kbapp_pollActivityKey (keyscan_events : list (Z * Z))
  (s : tKbAppState) : tKbAppState :=
  kbapp_pollActivityKey_loop keyscan_events true s.

(** What [kbapp_pollActivityUser] reports to the link layer. *)
Inductive Activity : Type :=
| BTHIDLINK_ACTIVITY_NONE
| BTHIDLINK_ACTIVITY_REPORTABLE
| BTHIDLINK_ACTIVITY_REPORTABLE_AND_NON_REPORTABLE.

Definition kbapp_pollActivityUser (keyscan_events : list (Z * Z))
  (scroll_getCount_result : Z) (s : tKbAppState)
  : outcome (Activity * tKbAppState) :=
  let s := kbapp_pollActivityKey keyscan_events s in
  let s := kbapp_pollActivityScroll scroll_getCount_result s in
  if negb (pinCodeEntryInProgress s =? PIN_ENTRY_MODE_NONE) then
    do s <- kbapp_handlePinEntry s;
    Done (BTHIDLINK_ACTIVITY_REPORTABLE_AND_NON_REPORTABLE, s)
  else
    Done (if negb (wiced_hidd_event_queue_get_num_elements s =? 0)
             || negb (modKeysInStdRpt s =? 0)
             || negb (keysInStdRpt s =? 0)
             || negb (keysInBitRpt s =? 0)
             || negb (sleepVal (slpRpt s) =? 0)
          then BTHIDLINK_ACTIVITY_REPORTABLE
          else BTHIDLINK_ACTIVITY_NONE, s).

(** ** Idle rate *)

Definition kbapp_getIdleRate (s : tKbAppState) : Z := idleRate s.

(** [kbapp_setIdleRate].  The product is formed in [int] and is at most
    [255 * 192], which an unsigned member of sixteen bits or more holds; the
    division is the unsigned one. *)
Definition kbapp_setIdleRate (idleRateIn4msUnits : Z) (s : tKbAppState)
  : HandshakeRsp * tKbAppState :=
  let s := set_idleRate idleRateIn4msUnits s in
  let s := set_idleRateInBtClocks (idleRateIn4msUnits * 192) s in
  let s := set_idleRateInBtClocks (idleRateInBtClocks s / 15) s in
  (HID_PAR_HANDSHAKE_RSP_SUCCESS, s).

(** ** Wake-up from shutdown sleep *)

(** [kbapp_aon_restore]; the argument is what
    [wiced_hal_mia_is_reset_reason_por] returns. *)
Definition kbapp_aon_restore (is_reset_reason_por : bool) (s : tKbAppState)
  : tKbAppState * list AonCall :=
  if negb is_reset_reason_por then
    (set_state (kbapp_funcLock_state s) s,
     [ wiced_ble_hidd_link_aon_action_handler_RESTORE_FROM_AON;
       wiced_bt_hidd_link_aon_action_handler_RESTORE_FROM_AON ])
  else (s, []).

(** ** The protocol mode on the LE transport *)

(** [blekb_setProtocol], the handler both report tables register for writes
    to the Protocol Mode characteristic: the first byte of the payload is
    stored as the protocol, without a look at the size, and the report
    table of that protocol is registered.  The result is the state and the
    table registered. *)
Definition blekb_setProtocol (reportType reportId : Z) (payload : list Z)
  (payloadSize : Z) (s : tKbAppState) : outcome (tKbAppState * GattMap) :=
  do v <- rd payload 0;
  let s := set_kbapp_protocol v s in
  if kbapp_protocol s =? PROTOCOL_REPORT then Done (s, reportModeGattMap)
  else Done (s, bootModeGattMap).

(** ** The LED output report *)

Context {lh : LedHeader}.

Definition set_ledStates (v : Z) (s : tKbLedState) : tKbLedState :=
  mkKbLedState (mkLedRpt (led_reportID (ledReport s)) v)
    (blekb_kb_output_rpt s) (led_calls s).

Definition set_blekb_kb_output_rpt (v : Z) (s : tKbLedState) : tKbLedState :=
  mkKbLedState (ledReport s) v (led_calls s).

Definition led_call (c : LedCall) (s : tKbLedState) : tKbLedState :=
  mkKbLedState (ledReport s) (blekb_kb_output_rpt s) (led_calls s ++ [c]).

(** The [if] on bit 1 of the LED states both handlers end with: the caps
    lock LED is switched on or off. *)
Definition caps_led_update (s : tKbLedState) : tKbLedState :=
  if negb (Z.land (ledStates (ledReport s)) 0x02 =? 0)
  then led_call (kb_LED_on KB_LED_CAPS) s
  else led_call (kb_LED_off KB_LED_CAPS) s.

(** [kbapp_procLedRpt]; the report is the array of bytes the pointer
    [incomingLedReport] points to. *)
Definition kbapp_procLedRpt (incomingLedReport : list Z)
  (incomingLedReportSize : Z) (s : tKbLedState)
  : outcome (HandshakeRsp * tKbLedState) :=
  if incomingLedReportSize =? sizeof_KeyboardLedReport then
    do v <- rd incomingLedReport offsetof_ledStates;
    let s := set_ledStates v s in
    Done (HID_PAR_HANDSHAKE_RSP_SUCCESS, caps_led_update s)
  else Done (HID_PAR_HANDSHAKE_RSP_ERR_INVALID_PARAM, s).

Definition kbapp_setReport (reportType : Z) (payload : list Z)
  (payloadSize : Z) (s : tKbLedState) : outcome (HandshakeRsp * tKbLedState) :=
  if reportType =? HID_PAR_REP_TYPE_OUTPUT then
    if 2 <=? payloadSize then
      do id <- rd payload 0;
      if id =? ledReportID then kbapp_procLedRpt payload payloadSize s
      else Done (HID_PAR_HANDSHAKE_RSP_ERR_INVALID_REP_ID, s)
    else Done (HID_PAR_HANDSHAKE_RSP_ERR_INVALID_PARAM, s)
  else Done (HID_PAR_HANDSHAKE_RSP_ERR_UNSUPPORTED_REQ, s).

(** [kbapp_rxData]: the first byte of the payload is compared before the
    size is. *)
Definition kbapp_rxData (reportType : Z) (payload : list Z) (payloadSize : Z)
  (s : tKbLedState) : outcome tKbLedState :=
  if reportType =? HID_PAR_REP_TYPE_OUTPUT then
    do id <- rd payload 0;
    if (id =? ledReportID) && (1 <=? payloadSize) then
      do r <- kbapp_procLedRpt payload payloadSize s;
      Done (snd r)
    else Done s
  else Done s.

(** [blekb_setReport], the handler of the LE transport: the report ID comes
    apart from the payload.  The part under
    [PTS_HIDS_CONFORMANCE_TC_CW_BV_03_C], which no file of the program
    defines, is left out. *)
Definition blekb_setReport (reportType reportId : Z) (payload : list Z)
  (payloadSize : Z) (s : tKbLedState) : outcome tKbLedState :=
  if reportType =? WICED_HID_REPORT_TYPE_OUTPUT then
    if 1 <=? payloadSize then
      if reportId =? ledReportID then
        do v <- rd payload 0;
        let s := set_blekb_kb_output_rpt v s in
        let s := set_ledStates (blekb_kb_output_rpt s) s in
        Done (caps_led_update s)
      else Done s
    else Done s
  else Done s.

(** ** Notions used in the statements *)

(** The two operations of claim C4, to speak of runs of them. *)
Inductive RecoveryStep : Type :=
| StepTxModifiedKeyReports
| StepFuncLockKey (upDownFlag keyCode translationCode : Z).

Definition run_RecoveryStep (s : tKbAppState) (st : RecoveryStep)
  : tKbAppState :=
  match st with
  | StepTxModifiedKeyReports => kbapp_txModifiedKeyReports s
  | StepFuncLockKey f k t => kbapp_funcLockProcEvtKey f k t s
  end.


(** The key usage codes the standard report holds: the first [keysInStdRpt]
    entries of its key code array. *)
Definition std_keys (s : tKbAppState) : list Z :=
  take (Z.to_nat (keysInStdRpt s)) (keyCodes (stdRpt s)).

(** Number of rollover reports in a trace. *)
Fixpoint rollovers (t : list IoEvent) : nat :=
  match t with
  | [] => 0
  | TxRolloverRpt :: t => S (rollovers t)
  | _ :: t => rollovers t
  end.

(** Key-down events of standard keys with the given translation codes, one
    after the other. *)
Fixpoint press_keys (codes : list Z) (s : tKbAppState) : outcome tKbAppState :=
  match codes with
  | [] => Done s
  | c :: codes =>
      do s <- kbapp_stdRptProcEvtKeyDown KEY_DOWN 0 c s;
      press_keys codes s
  end.

(** The key count of the standard report is a [uint8_t] and stays within the
    key code array. *)
Definition wf_std (s : tKbAppState) : Prop :=
  0 <= keysInStdRpt s < 256 /\
  keysInStdRpt s <= Z.of_nat (length (keyCodes (stdRpt s))).

(** Claim C2 as the specification words it, at a state [s] and a translation
    code [c]: when the key-down does not overflow the report, the key-down
    followed by the key-up leaves the key set and the key count as they
    were. *)
Definition key_pair_restores (s : tKbAppState) (c : Z) : Prop :=
  forall s1 s2 : tKbAppState,
    (In c (std_keys s) \/ keysInStdRpt s < maxKeysInStdRpt kbAppConfig) ->
    kbapp_stdRptProcEvtKey KEY_DOWN 0 c s = Done s1 ->
    kbapp_stdRptProcEvtKey KEY_UP 0 c s1 = Done s2 ->
    std_keys s2 = std_keys s /\ keysInStdRpt s2 = keysInStdRpt s.

(** Claim C1 as the specification words it: all five dynamic reports are
    marked as changed. *)
Definition all_dynamic_reports_dirty (s : tKbAppState) : Prop :=
  stdRptChanged s = true /\
  bitRptChanged s = true /\
  slpRptChanged s = true /\
  funcLockRptChanged s = true /\
  scrollRptChanged s = true.

(** Successive calls of [kbapp_generateAndTxReports]; each element of [env]
    gives what the buffer pool and the Bluetooth clock report during one
    call. *)
Fixpoint polls (env : list (list Z * Z * Z)) (s : tKbAppState)
  : outcome tKbAppState :=
  match env with
  | [] => Done s
  | (pool, idle_poolutilization, bt_clocks_since) :: env =>
      do s <- kbapp_generateAndTxReports pool idle_poolutilization
                bt_clocks_since s;
      polls env s
  end.

(** Bit [p] of the bit-mapped key array: bit [p mod 8] of byte [p / 8]. *)
Definition bit_at (a : list Z) (p : nat) : bool :=
  Z.testbit (nth (p / 8) a 0) (Z.of_nat (p mod 8)).

(** Number of [p < n] at which [f] holds. *)
Fixpoint count_upto (f : nat -> bool) (n : nat) : nat :=
  match n with
  | O => O
  | S n => ((if f n then 1 else 0) + count_upto f n)%nat
  end.

(** Number of set bits in the bit-mapped key array. *)
Definition bits_set (a : list Z) : Z :=
  Z.of_nat (count_upto (bit_at a) (8 * length a)).

(** The invariant of the bit-mapped report: the counter is the number of set
    bits, and no bit is set at or beyond the number of configured keys. *)
Definition bitRpt_inv (s : tKbAppState) : Prop :=
  keysInBitRpt s = bits_set (bitMappedKeys (bitMappedReport s)) /\
  forall p : nat,
    numBitMappedKeys kbAppConfig <= Z.of_nat p ->
    bit_at (bitMappedKeys (bitMappedReport s)) p = false.

(** The configured bit-mapped keys fit a [uint8_t] and the array. *)
Definition wf_bit (s : tKbAppState) : Prop :=
  numBitMappedKeys kbAppConfig <= 255 /\
  numBitMappedKeys kbAppConfig
  <= 8 * Z.of_nat (length (bitMappedKeys (bitMappedReport s))).

(** Claim C5 as the specification words it, at an accumulator value [v] and
    a shift amount [s]: the quotient has the magnitude [|v| >> s] and the
    sign of [v], and the accumulator is left at [v - (q << s)]. *)
Definition scale_sign_correct (v s : Z) : Prop :=
  let '(q, r) := kbapp_scaleValue v s in
  Z.abs q = Z.shiftr (Z.abs v) s /\
  (q <> 0 -> Z.sgn q = Z.sgn v) /\
  r = v - Z.shiftl q s.

(** The scroll events [kbapp_pollActivityScroll] queues for the successive
    scroll counts of [deltas]. *)
Definition scroll_run (deltas : list Z) (s : tKbAppState) : tKbAppState :=
  fold_left (fun s d => kbapp_pollActivityScroll d s) deltas s.

(** What the func-lock key handler reads stays as it is from [s] to [s']. *)
Definition same_funcLock_context (s s' : tKbAppState) : Prop :=
  funcLockInfo s' = funcLockInfo s /\
  recoveryInProgress s' = recoveryInProgress s /\
  kbapp_protocol s' = kbapp_protocol s.

Definition toggled (st : FuncLockState) : FuncLockState :=
  match st with
  | FUNC_LOCK_STATE_OFF => FUNC_LOCK_STATE_ON
  | FUNC_LOCK_STATE_ON => FUNC_LOCK_STATE_OFF
  end.

(** Claim C6 as the specification words it, for the sequence with a
    func-lock dependent key: func-lock down, dependent key down, dependent
    key up, func-lock up leave the lock state toggled twice, that is, as it
    was. *)
Definition funcLock_combo_toggles_twice (s : tKbAppState) (idx : Z) : Prop :=
  recoveryInProgress s = 0 ->
  kbapp_protocol s = PROTOCOL_REPORT ->
  kepPosition (funcLockInfo s) = FUNC_LOCK_KEY_UP ->
  forall s2 s3 : tKbAppState,
    kbapp_funcLockProcEvtDepKey KEY_DOWN 0 idx
      (kbapp_funcLockProcEvtKey KEY_DOWN 0 0 s) = Done s2 ->
    kbapp_funcLockProcEvtDepKey KEY_UP 0 idx s2 = Done s3 ->
    state (funcLockInfo (kbapp_funcLockProcEvtKey KEY_UP 0 0 s3))
    = state (funcLockInfo s).

(** No code equal to [c] among the entries [i], ..., [i + k - 1]. *)
Definition no_match (kc : list Z) (c : Z) (i : Z) (k : nat) : Prop :=
  forall (j : nat) (x : Z),
    (Z.to_nat i <= j < Z.to_nat i + k)%nat -> kc !! j = Some x -> x <> c.


(** ** Notions used in the statements about the rest of the program *)

(** The calls [kbapp_connectButtonPressed] makes for the connect-button
    events among the keyscan events [evs]: one virtual cable unplug and one
    request to enter pairing for every event that reports the button down. *)
Definition connect_button_actions (evs : list (Z * Z)) : list IoEvent :=
  flat_map
    (fun e : Z * Z =>
       if (fst e =? connectButtonScanIndex kbAppConfig) && (snd e =? KEY_DOWN)
       then [VirtualCableUnplug; EnterPairing]
       else [])
    evs.

(** A keyscan event of the connect button or an end-of-scan-cycle marker. *)
Definition connect_or_end_of_scan (e : Z * Z) : Prop :=
  fst e = connectButtonScanIndex kbAppConfig \/ fst e = END_OF_SCAN_CYCLE.

(** A keyscan event of a key other than the connect button. *)
Definition not_connect_button (e : Z * Z) : bool :=
  negb (fst e =? connectButtonScanIndex kbAppConfig).

(** A queued event that is no key event of the connect button. *)
Definition not_of_connect_button (e : HidEvent) : Prop :=
  match e with
  | HID_EVENT_KEY_STATE_CHANGE keyCode _ =>
      keyCode <> connectButtonScanIndex kbAppConfig
  | _ => True
  end.

(** Number of bits set among the eight bits of the modifier byte. *)
Definition mod_bits (m : Z) : Z :=
  Z.of_nat (count_upto (fun i : nat => Z.testbit m (Z.of_nat i)) 8).


(** Every key event of the queue carries a scan code of the key table. *)
Definition key_codes_in_table (q : list HidEvent) : Prop :=
  Forall
    (fun e : HidEvent =>
       match e with
       | HID_EVENT_KEY_STATE_CHANGE keyCode _ =>
           0 <= keyCode < kbKeyConfig_size
       | _ => True
       end)
    q.

(** The pin code typed so far fits the size allowed, which fits the buffer;
    outside the legacy mode the buffer has room for the terminating zero as
    well. *)
Definition wf_pin (s : tKbAppState) : Prop :=
  0 <= pinCodeSize s <= maxPinCodeSize s /\
  maxPinCodeSize s <= Z.of_nat (length (pinCodeBuffer s)) /\
  maxPinCodeSize s <= 255 /\
  (pinCodeEntryInProgress s <> LEGACY_PIN_ENTRY_IN_PROGRESS ->
   maxPinCodeSize s < Z.of_nat (length (pinCodeBuffer s))).

(** The pin entry state and the queue are the same in [s] and [s']. *)
Definition same_pin_entry (s s' : tKbAppState) : Prop :=
  pinCodeSize s' = pinCodeSize s /\
  maxPinCodeSize s' = maxPinCodeSize s /\
  pinCodeBuffer s' = pinCodeBuffer s /\
  pinCodeEntryInProgress s' = pinCodeEntryInProgress s /\
  enterKeyPressed s' = enterKeyPressed s /\
  eventQueue s' = eventQueue s.

(** The key table indexes the tables of the handlers within their bounds:
    translation values are [uint8_t] values, and that of a func-lock
    dependent key is an index into the table of thirteen dependent keys. *)
Definition wf_keyConfig : Prop :=
  Forall
    (fun k : KbKeyConfig =>
       0 <= translationValue k /\
       (type k = KEY_TYPE_FUNC_LOCK_DEP -> translationValue k < 13))
    kbKeyConfig.

(** The standard and bit-mapped reports have the sizes the configuration
    assumes. *)
Definition wf_reports (s : tKbAppState) : Prop :=
  wf_std s /\
  wf_bit s /\
  maxKeysInStdRpt kbAppConfig <= Z.of_nat (length (keyCodes (stdRpt s))) /\
  maxKeysInStdRpt kbAppConfig <= 255.

(** Scan codes are [uint8_t] values. *)
Definition key_codes_nonneg (q : list HidEvent) : Prop :=
  Forall
    (fun e : HidEvent =>
       match e with
       | HID_EVENT_KEY_STATE_CHANGE keyCode _ => 0 <= keyCode
       | _ => True
       end)
    q.

(** A handler left the reports well-formed, the standard report without a
    repeated key if it had none, and the queue as it was or empty. *)
Definition handled (s s' : tKbAppState) : Prop :=
  wf_reports s' /\
  (NoDup (std_keys s) -> NoDup (std_keys s')) /\
  (eventQueue s' = eventQueue s \/ eventQueue s' = []).

(** The queue [q'] is what is left of the queue [q] once events, at least
    one if there is any, were taken from its head. *)
Definition consumed (q q' : list HidEvent) : Prop :=
  exists n : nat, q' = drop (S n) q.

(** No event of the queue is of a type this file does not handle. *)
Definition no_user_events (q : list HidEvent) : Prop :=
  Forall
    (fun e : HidEvent =>
       match e with
       | HID_EVENT_OTHER _ => False
       | _ => True
       end)
    q.

End Keyboard.

(** ** A concrete build

    A configuration in the style of the reference keyboard: six keys in the
    standard report, twenty bit-mapped keys, a recovery of three polls. *)

Definition demo_config : KbAppConfig :=
  {| stdRptID := 1;
     maxKeysInStdRpt := 6;
     bitReportID := 2;
     numBitMappedKeys := 20;
     sleepReportID := 3;
     pinReportID := 4;
     scrollReportID := 5;
     scrollReportLen := 2;
     negateScroll := false;
     scrollScale := 2;
     pollsToKeepFracScrollData := 50;
     scrollCombining := true;
     funcLockReportID := 6;
     defaultFuncLockState := FUNC_LOCK_STATE_OFF;
     connectButtonScanIndex := 200;
     recoveryPollCount := 3;
     maxEventNum := 44 |}.

(** Scan codes 0 to 12 of the demonstration key table. *)
Definition demo_keys : list KbKeyConfig :=
  [ mkKbKeyConfig KEY_TYPE_STD USB_USAGE_1;
    mkKbKeyConfig KEY_TYPE_STD USB_USAGE_9;
    mkKbKeyConfig KEY_TYPE_STD USB_USAGE_0;
    mkKbKeyConfig KEY_TYPE_STD USB_USAGE_ENTER;
    mkKbKeyConfig KEY_TYPE_STD USB_USAGE_BACKSPACE;
    mkKbKeyConfig KEY_TYPE_STD USB_USAGE_ESCAPE;
    mkKbKeyConfig KEY_TYPE_MODIFIER 0x02;
    mkKbKeyConfig KEY_TYPE_BIT_MAPPED 0x0A;
    mkKbKeyConfig KEY_TYPE_SLEEP 0x01;
    mkKbKeyConfig KEY_TYPE_FUNC_LOCK 0;
    mkKbKeyConfig KEY_TYPE_FUNC_LOCK_DEP 0;
    mkKbKeyConfig KEY_TYPE_FUNC_LOCK_DEP 11;
    mkKbKeyConfig KEY_TYPE_NONE 0 ].

Definition demo_firmware : Firmware :=
  {| kbAppConfig := demo_config;
     kbKeyConfig := demo_keys;
     END_OF_SCAN_CYCLE := 0xFE;
     KB_MAX_KEYS := 160;
     MAX_PIN_SIZE := 16;
     MAX_PASS_SIZE := 6;
     PIN_ENTRY_MODE_NONE := 0;
     LEGACY_PIN_ENTRY_IN_PROGRESS := 2;
     PASS_KEY_ENTRY_IN_PROGRESS := 3;
     PIN_ENTRY_EVENT_INVALID := 0;
     PIN_ENTRY_EVENT_CHAR := 1;
     PIN_ENTRY_EVENT_BACKSPACE := 2;
     PIN_ENTRY_EVENT_RESTART := 3;
     PASS_KEY_ENTRY_EVENT_START := 0;
     PASS_KEY_ENTRY_EVENT_CHAR := 1;
     PASS_KEY_ENTRY_EVENT_BACKSPACE := 2;
     PASS_KEY_ENTRY_EVENT_RESTART := 3;
     PASS_KEY_ENTRY_EVENT_STOP := 4;
     SCROLL_REPORT_VOLUME_UP := 0xE9;
     SCROLL_REPORT_VOLUME_DOWN := 0xEA |}.

(** The state the zero initialiser of [dual_mode_keyboard_application_state]
    gives, with six key codes, three bytes of bit-mapped keys and a pin buffer
    of seventeen bytes, connected over BR/EDR in report protocol. *)
Definition zero_state : tKbAppState :=
  {| eventQueue := [];
     stdRpt := mkStdRpt 0 0 0 [0; 0; 0; 0; 0; 0];
     bitMappedReport := mkBitRpt 0 [0; 0; 0];
     slpRpt := mkSlpRpt 0 0;
     funcLockRpt := mkFuncLockRpt 0 0;
     scrollReport := mkScrollRpt 0 0;
     pinReport := mkPinRpt 0 0;
     funcLockInfo := mkFuncLockInfo FUNC_LOCK_STATE_OFF FUNC_LOCK_KEY_UP false;
     keysInStdRpt := 0;
     modKeysInStdRpt := 0;
     keysInBitRpt := 0;
     recoveryInProgress := 0;
     stdRptChanged := false;
     bitRptChanged := false;
     slpRptChanged := false;
     funcLockRptChanged := false;
     scrollRptChanged := false;
     pinRptChanged := false;
     pinCodeEntryInProgress := 0;
     enterKeyPressed := 0;
     pinCodeSize := 0;
     maxPinCodeSize := 0;
     pinCodeBuffer := replicate 17 0;
     scrollFractional := 0;
     pollsSinceScroll := 0;
     idleRate := 0;
     idleRateInBtClocks := 0;
     kbapp_protocol := PROTOCOL_REPORT;
     kbapp_funcLock_state := FUNC_LOCK_STATE_OFF;
     host_transport := BT_TRANSPORT_BR_EDR;
     trace := [] |}.

(** A state in the middle of a session: two standard keys and two bit-mapped
    keys down, the sleep key down, the func-lock key held, a func-lock report
    and a scroll report waiting to be sent. *)
Definition busy_state : tKbAppState :=
  {| eventQueue := [];
     stdRpt := mkStdRpt 1 0 0 [4; 5; 0; 0; 0; 0];
     bitMappedReport := mkBitRpt 2 [5; 0; 0];
     slpRpt := mkSlpRpt 3 1;
     funcLockRpt := mkFuncLockRpt 6 3;
     scrollReport := mkScrollRpt 5 3;
     pinReport := mkPinRpt 4 0;
     funcLockInfo := mkFuncLockInfo FUNC_LOCK_STATE_ON FUNC_LOCK_KEY_DOWN false;
     keysInStdRpt := 2;
     modKeysInStdRpt := 0;
     keysInBitRpt := 2;
     recoveryInProgress := 0;
     stdRptChanged := true;
     bitRptChanged := true;
     slpRptChanged := true;
     funcLockRptChanged := true;
     scrollRptChanged := true;
     pinRptChanged := false;
     pinCodeEntryInProgress := 0;
     enterKeyPressed := 0;
     pinCodeSize := 0;
     maxPinCodeSize := 0;
     pinCodeBuffer := replicate 17 0;
     scrollFractional := 0;
     pollsSinceScroll := 0;
     idleRate := 0;
     idleRateInBtClocks := 0;
     kbapp_protocol := PROTOCOL_REPORT;
     kbapp_funcLock_state := FUNC_LOCK_STATE_ON;
     host_transport := BT_TRANSPORT_BR_EDR;
     trace := [] |}.


(** ** Inputs for the rest of the program *)

(** An LED report of two bytes, the report ID and the LED states, with the
    report type codes of the two transports. *)
Definition demo_led : LedHeader :=
  {| ledReportID := 1;
     sizeof_KeyboardLedReport := 2;
     offsetof_ledStates := 1;
     HID_PAR_REP_TYPE_OUTPUT := 2;
     WICED_HID_REPORT_TYPE_OUTPUT := 2 |}.

(** All LEDs off, no call made yet. *)
Definition demo_led_state : tKbLedState :=
  mkKbLedState (mkLedRpt 1 0) 0 [].

(** What two scan cycles, a scroll movement and an overflow of the event
    FIFO leave in the queue: the key of usage code 9 goes down, the shift key
    goes down and a func-lock dependent key goes up in the first cycle, the
    key of usage code 1 goes up in the second. *)
Definition demo_queue : list HidEvent :=
  [ HID_EVENT_KEY_STATE_CHANGE 1 KEY_DOWN;
    HID_EVENT_KEY_STATE_CHANGE 6 KEY_DOWN;
    HID_EVENT_KEY_STATE_CHANGE 10 KEY_UP;
    HID_EVENT_KEY_STATE_CHANGE 0xFE KEY_DOWN;
    HID_EVENT_MOTION_AXIS_0 1;
    HID_EVENT_KEY_STATE_CHANGE 0 KEY_UP;
    HID_EVENT_KEY_STATE_CHANGE 0xFE KEY_DOWN;
    HID_EVENT_EVENT_FIFO_OVERFLOW ].

(** The busy state with these events queued. *)
Definition queued_state : tKbAppState := set_eventQueue demo_queue busy_state.


(** The busy state with an event of a type of the application's own at the
    head of the queue. *)
Definition user_event_state : tKbAppState :=
  set_eventQueue
    [ HID_EVENT_OTHER 9; HID_EVENT_KEY_STATE_CHANGE 0xFE KEY_DOWN ] busy_state.

(** Legacy pin entry under way: two digits typed of sixteen allowed, the pin
    report waiting to be sent, and in the queue a digit key that goes down
    and up, the backspace key and the enter key. *)
Definition pin_entry_state : tKbAppState :=
  set_eventQueue
    [ HID_EVENT_KEY_STATE_CHANGE 1 KEY_DOWN;
      HID_EVENT_KEY_STATE_CHANGE 1 KEY_UP;
      HID_EVENT_KEY_STATE_CHANGE 4 KEY_DOWN;
      HID_EVENT_KEY_STATE_CHANGE 3 KEY_DOWN ]
    (set_pinRptChanged true
       (set_pinCodeBuffer (49 :: 50 :: replicate 15 0)
          (set_pinCodeSize 2
             (set_maxPinCodeSize 16
                (set_pinCodeEntryInProgress 2 zero_state))))).
Section Properties.
Context {fw : Firmware}.

(** *** Arrays *)

Lemma rd_lookup {A : Type} (a : list A) (i : Z) (x : A) :
  0 <= i -> a !! Z.to_nat i = Some x -> rd a i = Done x.
Proof.
  intros Hi Hx. unfold rd.
  destruct (Z.leb_spec 0 i); [|lia]. now rewrite Hx.
Qed.

Lemma rd_in_range {A : Type} (a : list A) (i : Z) :
  0 <= i < Z.of_nat (length a) ->
  exists x, rd a i = Done x /\ a !! Z.to_nat i = Some x.
Proof.
  intros Hi.
  destruct (lookup_lt_is_Some_2 a (Z.to_nat i)) as [x Hx]; [lia|].
  exists x. split; [apply rd_lookup; [lia | exact Hx] | exact Hx].
Qed.

Lemma rd_out_of_range {A : Type} (a : list A) (i : Z) :
  Z.of_nat (length a) <= i -> rd a i = OutOfBounds.
Proof.
  intros Hi. unfold rd.
  destruct (Z.leb_spec 0 i); [|reflexivity].
  rewrite lookup_ge_None_2; [reflexivity | lia].
Qed.

Lemma wr_in_range {A : Type} (a : list A) (i : Z) (x : A) :
  0 <= i < Z.of_nat (length a) -> wr a i x = Done (<[Z.to_nat i := x]> a).
Proof.
  intros Hi. unfold wr.
  destruct (Z.leb_spec 0 i); [|lia].
  destruct (Z.ltb_spec i (Z.of_nat (length a))); [reflexivity | lia].
Qed.

Lemma u8_small (z : Z) : 0 <= z < 256 -> u8 z = z.
Proof. intros H. unfold u8. now apply Z.mod_small. Qed.

(** *** Recovery suppresses transmission and func-lock events *)

Lemma txModifiedKeyReports_recovery s :
  recoveryInProgress s <> 0 -> kbapp_txModifiedKeyReports s = s.
Proof.
  intros H. unfold kbapp_txModifiedKeyReports.
  destruct (Z.eqb_spec (recoveryInProgress s) 0); [contradiction | reflexivity].
Qed.

Lemma funcLockProcEvtKey_recovery s f k t :
  recoveryInProgress s <> 0 -> kbapp_funcLockProcEvtKey f k t s = s.
Proof.
  intros H. unfold kbapp_funcLockProcEvtKey.
  destruct (Z.eqb_spec (recoveryInProgress s) 0); [contradiction | reflexivity].
Qed.

(** C4: in every state whose recovery countdown is not zero,
    [kbapp_txModifiedKeyReports] sends nothing and [kbapp_funcLockProcEvtKey]
    changes neither the lock state, nor the tracked key position, nor the
    toggle-on-key-up flag (both leave the whole state as it is); the same
    holds along every run of these two operations, since none of them moves
    the countdown. *)
Theorem recovery_suppresses_tx_and_funcLock (s : tKbAppState) :
  recoveryInProgress s <> 0 ->
  trace (kbapp_txModifiedKeyReports s) = trace s /\
  kbapp_txModifiedKeyReports s = s /\
  (forall upDownFlag keyCode translationCode,
     let s' := kbapp_funcLockProcEvtKey upDownFlag keyCode translationCode s in
     state (funcLockInfo s') = state (funcLockInfo s) /\
     kepPosition (funcLockInfo s') = kepPosition (funcLockInfo s) /\
     toggleStateOnKeyUp (funcLockInfo s') = toggleStateOnKeyUp (funcLockInfo s) /\
     s' = s) /\
  (forall steps : list RecoveryStep, fold_left run_RecoveryStep steps s = s).
Proof.
  intros H. repeat split.
  - now rewrite txModifiedKeyReports_recovery.
  - now apply txModifiedKeyReports_recovery.
  - now rewrite funcLockProcEvtKey_recovery.
  - now rewrite funcLockProcEvtKey_recovery.
  - now rewrite funcLockProcEvtKey_recovery.
  - now apply funcLockProcEvtKey_recovery.
  - intros steps. induction steps as [|st steps IH]; [reflexivity|].
    simpl. destruct st; simpl.
    + now rewrite txModifiedKeyReports_recovery.
    + now rewrite funcLockProcEvtKey_recovery.
Qed.

(** *** Protocol switch *)

(** X24: [kbapp_setProtocol], the set-protocol handler of the application
    interface.  A call that takes the keyboard from boot to report protocol
    clears the bit-mapped report with its key count, the sleep report and
    the scroll report and marks the func-lock key as up, whatever the state
    was; a call for the current protocol, or for boot protocol, changes
    nothing but the protocol variable. *)
Theorem setProtocol_clears_only_on_switch_to_report
  (s : tKbAppState) (newProtocol : Z) :
  (kbapp_protocol s = PROTOCOL_BOOT ->
   newProtocol = HID_PAR_PROTOCOL_REPORT ->
   let s' := kbapp_setProtocol newProtocol s in
   bitMappedKeys (bitMappedReport s')
     = replicate (length (bitMappedKeys (bitMappedReport s))) 0 /\
   keysInBitRpt s' = 0 /\
   sleepVal (slpRpt s') = 0 /\
   motionAxis0 (scrollReport s') = 0 /\
   scrollRptChanged s' = false /\
   kepPosition (funcLockInfo s') = FUNC_LOCK_KEY_UP /\
   kbapp_protocol s' = PROTOCOL_REPORT) /\
  (newProtocol = kbapp_protocol s \/ newProtocol = PROTOCOL_BOOT ->
   kbapp_setProtocol newProtocol s = set_kbapp_protocol newProtocol s).
Proof.
  split.
  - intros Hb Hn. subst newProtocol. unfold kbapp_setProtocol. rewrite Hb.
    simpl. repeat split.
  - intros [Hn | Hn]; subst newProtocol; unfold kbapp_setProtocol.
    + rewrite Z.eqb_refl. reflexivity.
    + simpl. now rewrite andb_false_r.
Qed.

(** *** The standard report *)

Lemma no_match_tail kc c i k :
  0 <= i -> no_match kc c i (S k) -> no_match kc c (i + 1) k.
Proof.
  intros Hi H j x Hj. apply H. lia.
Qed.

Lemma KeyDown_loop_skip (s : tKbAppState) (c : Z) (k fuel : nat) (i : Z) :
  0 <= i ->
  i + Z.of_nat k <= keysInStdRpt s ->
  keysInStdRpt s <= Z.of_nat (length (keyCodes (stdRpt s))) ->
  keysInStdRpt s < 256 ->
  no_match (keyCodes (stdRpt s)) c i k ->
  kbapp_stdRptProcEvtKeyDown_loop (k + fuel) i c s
  = kbapp_stdRptProcEvtKeyDown_loop fuel (i + Z.of_nat k) c s.
Proof.
  revert i. induction k as [|k IH]; intros i Hi Hk Hlen H8 Hno.
  - simpl. now rewrite Z.add_0_r.
  - simpl Nat.add. cbn [kbapp_stdRptProcEvtKeyDown_loop].
    destruct (Z.ltb_spec i (keysInStdRpt s)); [|lia].
    destruct (rd_in_range (keyCodes (stdRpt s)) i) as (x & Hrd & Hx); [lia|].
    rewrite Hrd. cbn [bind].
    destruct (Z.eqb_spec x c) as [->|Hne].
    + exfalso. apply (Hno (Z.to_nat i) c); [lia | exact Hx | reflexivity].
    + rewrite u8_small by lia.
      rewrite IH; [f_equal; lia | lia | lia | lia | lia |].
      now apply no_match_tail.
Qed.

Lemma KeyDown_loop_absent (s : tKbAppState) (c : Z) :
  0 <= keysInStdRpt s < 256 ->
  keysInStdRpt s <= Z.of_nat (length (keyCodes (stdRpt s))) ->
  ~ In c (std_keys s) ->
  kbapp_stdRptProcEvtKeyDown_loop 256 0 c s = Done (Some (keysInStdRpt s)).
Proof.
  intros Hn Hlen Hnot.
  replace 256%nat
    with (Z.to_nat (keysInStdRpt s) + (256 - Z.to_nat (keysInStdRpt s)))%nat
    by lia.
  rewrite KeyDown_loop_skip; try lia.
  - rewrite Z2Nat.id by lia. rewrite Z.add_0_l.
    destruct (256 - Z.to_nat (keysInStdRpt s))%nat as [|f] eqn:E; [lia|].
    cbn [kbapp_stdRptProcEvtKeyDown_loop].
    destruct (Z.ltb_spec (keysInStdRpt s) (keysInStdRpt s)); [lia|reflexivity].
  - intros j x Hj Hx ->. apply Hnot. unfold std_keys.
    apply list_elem_of_In, list_elem_of_lookup. exists j.
    rewrite lookup_take_lt by lia. exact Hx.
Qed.

Lemma KeyDown_loop_present (s : tKbAppState) (c : Z) (fuel : nat) (i : Z) :
  0 <= i ->
  keysInStdRpt s <= Z.of_nat (length (keyCodes (stdRpt s))) ->
  keysInStdRpt s < 256 ->
  (keysInStdRpt s - i < Z.of_nat fuel) ->
  (exists j : nat, (Z.to_nat i <= j < Z.to_nat (keysInStdRpt s))%nat /\
                   keyCodes (stdRpt s) !! j = Some c) ->
  kbapp_stdRptProcEvtKeyDown_loop fuel i c s = Done None.
Proof.
  revert i. induction fuel as [|fuel IH]; intros i Hi Hlen H8 Hf (j & Hj & Hc).
  - lia.
  - cbn [kbapp_stdRptProcEvtKeyDown_loop].
    destruct (Z.ltb_spec i (keysInStdRpt s)); [|lia].
    destruct (rd_in_range (keyCodes (stdRpt s)) i) as (x & Hrd & Hx); [lia|].
    rewrite Hrd. cbn [bind].
    destruct (Z.eqb_spec x c) as [->|Hne]; [reflexivity|].
    rewrite u8_small by lia.
    apply IH; try lia.
    exists j. split; [|exact Hc].
    assert (j <> Z.to_nat i) by (intros ->; congruence). lia.
Qed.

Lemma In_std_keys_lookup (s : tKbAppState) (c : Z) :
  In c (std_keys s) ->
  exists j : nat, (j < Z.to_nat (keysInStdRpt s))%nat /\
                  keyCodes (stdRpt s) !! j = Some c.
Proof.
  unfold std_keys. intros H.
  apply list_elem_of_In, list_elem_of_lookup in H. destruct H as (j & Hj).
  apply lookup_take_Some in Hj. destruct Hj as [Hj Hlt]. eauto.
Qed.

Lemma KeyDown_present (s : tKbAppState) (f k c : Z) :
  wf_std s -> In c (std_keys s) ->
  kbapp_stdRptProcEvtKeyDown f k c s = Done s.
Proof.
  intros [Hn Hlen] Hin. unfold kbapp_stdRptProcEvtKeyDown.
  rewrite KeyDown_loop_present; [reflexivity | lia | lia | lia | lia |].
  destruct (In_std_keys_lookup s c Hin) as (j & Hj & Hc).
  exists j. split; [lia | exact Hc].
Qed.

Lemma KeyDown_room (s : tKbAppState) (f k c : Z) :
  wf_std s -> ~ In c (std_keys s) ->
  keysInStdRpt s < maxKeysInStdRpt kbAppConfig ->
  keysInStdRpt s < Z.of_nat (length (keyCodes (stdRpt s))) ->
  kbapp_stdRptProcEvtKeyDown f k c s
  = Done (set_stdRptChanged true
            (set_keysInStdRpt (u8 (keysInStdRpt s + 1))
               (set_keyCodes
                  (<[Z.to_nat (keysInStdRpt s) := c]> (keyCodes (stdRpt s)))
                  s))).
Proof.
  intros [Hn Hlen] Hnot Hroom Hlt. unfold kbapp_stdRptProcEvtKeyDown.
  rewrite KeyDown_loop_absent by (assumption || lia). cbn [bind].
  destruct (Z.ltb_spec (keysInStdRpt s) (maxKeysInStdRpt kbAppConfig)); [|lia].
  rewrite wr_in_range by lia. reflexivity.
Qed.

Lemma KeyDown_overflow (s : tKbAppState) (f k c : Z) :
  wf_std s -> ~ In c (std_keys s) ->
  maxKeysInStdRpt kbAppConfig <= keysInStdRpt s ->
  kbapp_stdRptProcEvtKeyDown f k c s = Done (kbapp_stdRptProcOverflow s).
Proof.
  intros [Hn Hlen] Hnot Hfull. unfold kbapp_stdRptProcEvtKeyDown.
  rewrite KeyDown_loop_absent by (assumption || lia). cbn [bind].
  destruct (Z.ltb_spec (keysInStdRpt s) (maxKeysInStdRpt kbAppConfig));
    [lia | reflexivity].
Qed.

Lemma KeyUp_loop_skip (s : tKbAppState) (c : Z) (k fuel : nat) (i : Z) :
  0 <= i ->
  i + Z.of_nat k <= keysInStdRpt s ->
  keysInStdRpt s <= Z.of_nat (length (keyCodes (stdRpt s))) ->
  keysInStdRpt s < 256 ->
  no_match (keyCodes (stdRpt s)) c i k ->
  kbapp_stdRptProcEvtKeyUp_loop (k + fuel) i c s
  = kbapp_stdRptProcEvtKeyUp_loop fuel (i + Z.of_nat k) c s.
Proof.
  revert i. induction k as [|k IH]; intros i Hi Hk Hlen H8 Hno.
  - simpl. now rewrite Z.add_0_r.
  - simpl Nat.add. cbn [kbapp_stdRptProcEvtKeyUp_loop].
    destruct (Z.ltb_spec i (keysInStdRpt s)); [|lia].
    destruct (rd_in_range (keyCodes (stdRpt s)) i) as (x & Hrd & Hx); [lia|].
    rewrite Hrd. cbn [bind].
    destruct (Z.eqb_spec x c) as [->|Hne].
    + exfalso. apply (Hno (Z.to_nat i) c); [lia | exact Hx | reflexivity].
    + rewrite u8_small by lia.
      rewrite IH; [f_equal; lia | lia | lia | lia | lia |].
      now apply no_match_tail.
Qed.

Lemma KeyUp_loop_exit (s : tKbAppState) (c : Z) (fuel : nat) (i : Z) :
  keysInStdRpt s <= i ->
  kbapp_stdRptProcEvtKeyUp_loop (S fuel) i c s = Done s.
Proof.
  intros Hi. cbn [kbapp_stdRptProcEvtKeyUp_loop].
  destruct (Z.ltb_spec i (keysInStdRpt s)); [lia | reflexivity].
Qed.

Lemma no_match_std_keys (s : tKbAppState) (c : Z) :
  0 <= keysInStdRpt s ->
  ~ In c (std_keys s) ->
  no_match (keyCodes (stdRpt s)) c 0 (Z.to_nat (keysInStdRpt s)).
Proof.
  intros Hn Hnot j x Hj Hx ->. apply Hnot. unfold std_keys.
  apply list_elem_of_In, list_elem_of_lookup. exists j.
  rewrite lookup_take_lt by lia. exact Hx.
Qed.

Lemma KeyUp_absent (s : tKbAppState) (f k c : Z) :
  wf_std s -> ~ In c (std_keys s) ->
  kbapp_stdRptProcEvtKeyUp f k c s = Done s.
Proof.
  intros [Hn Hlen] Hnot. unfold kbapp_stdRptProcEvtKeyUp.
  replace 256%nat
    with (Z.to_nat (keysInStdRpt s) + S (255 - Z.to_nat (keysInStdRpt s)))%nat
    by lia.
  rewrite KeyUp_loop_skip; try lia.
  - apply KeyUp_loop_exit. lia.
  - now apply no_match_std_keys.
Qed.

(** A key-up for the code a key-down has just appended takes it out again. *)
Lemma KeyUp_after_KeyDown_room (s : tKbAppState) (f k c : Z) :
  wf_std s -> ~ In c (std_keys s) ->
  keysInStdRpt s < 255 ->
  keysInStdRpt s < Z.of_nat (length (keyCodes (stdRpt s))) ->
  kbapp_stdRptProcEvtKeyUp f k c
    (set_stdRptChanged true
       (set_keysInStdRpt (u8 (keysInStdRpt s + 1))
          (set_keyCodes
             (<[Z.to_nat (keysInStdRpt s) := c]> (keyCodes (stdRpt s))) s)))
  = Done (set_stdRptChanged true
            (set_keyCodes
               (<[Z.to_nat (keysInStdRpt s) := 0]> (keyCodes (stdRpt s))) s)).
Proof.
  intros [Hn Hlen] Hnot H255 Hlt.
  rewrite u8_small by lia.
  set (n := keysInStdRpt s) in *.
  set (kc := keyCodes (stdRpt s)) in *.
  set (s1 := set_stdRptChanged true _).
  assert (Hn1 : keysInStdRpt s1 = n + 1) by reflexivity.
  assert (Hkc1 : keyCodes (stdRpt s1) = <[Z.to_nat n := c]> kc) by reflexivity.
  unfold kbapp_stdRptProcEvtKeyUp.
  replace 256%nat with (Z.to_nat n + S (S (254 - Z.to_nat n)))%nat by lia.
  rewrite KeyUp_loop_skip; rewrite ?Hn1, ?Hkc1, ?length_insert; try lia.
  - rewrite Z2Nat.id, Z.add_0_l by lia.
    cbn [kbapp_stdRptProcEvtKeyUp_loop]. rewrite Hn1, Hkc1.
    destruct (Z.ltb_spec n (n + 1)); [|lia].
    rewrite (rd_lookup _ n c) by
      (try lia; apply list_lookup_insert_eq; fold kc; lia).
    cbn [bind]. rewrite Z.eqb_refl.
    cbn [keysInStdRpt set_keysInStdRpt stdRpt keyCodes set_stdRptChanged
         set_keyCodes set_stdRpt s1].
    replace (u8 (n + 1 - 1)) with n by (rewrite u8_small; lia).
    rewrite (rd_lookup _ n c) by
      (try lia; apply list_lookup_insert_eq; fold kc; lia).
    cbn [bind].
    rewrite wr_in_range by (rewrite length_insert; fold kc; lia).
    cbn [bind keysInStdRpt set_keysInStdRpt stdRpt keyCodes set_stdRptChanged
         set_keyCodes set_stdRpt].
    rewrite wr_in_range by (rewrite !length_insert; fold kc; lia).
    cbn [bind].
    rewrite (u8_small (n + 1)) by lia.
    destruct (Z.ltb_spec (n + 1) n); [lia|].
    rewrite !list_insert_insert_eq.
    unfold set_stdRptChanged, set_keyCodes, set_stdRpt, set_keysInStdRpt.
    cbn. subst n kc. destruct s; reflexivity.
  - intros j x Hj Hx ->.
    rewrite list_lookup_insert_ne in Hx by lia.
    apply Hnot. unfold std_keys.
    apply list_elem_of_In, list_elem_of_lookup. exists j.
    rewrite lookup_take_lt by (fold n; lia). exact Hx.
Qed.

Lemma KeyDown_room_keys (s : tKbAppState) (f k c : Z) :
  wf_std s ->
  maxKeysInStdRpt kbAppConfig <= Z.of_nat (length (keyCodes (stdRpt s))) ->
  maxKeysInStdRpt kbAppConfig <= 255 ->
  ~ In c (std_keys s) ->
  keysInStdRpt s < maxKeysInStdRpt kbAppConfig ->
  exists s1 : tKbAppState,
    kbapp_stdRptProcEvtKeyDown f k c s = Done s1 /\
    s1 = set_stdRptChanged true
           (set_keysInStdRpt (u8 (keysInStdRpt s + 1))
              (set_keyCodes
                 (<[Z.to_nat (keysInStdRpt s) := c]> (keyCodes (stdRpt s)))
                 s)) /\
    std_keys s1 = std_keys s ++ [c] /\
    keysInStdRpt s1 = keysInStdRpt s + 1.
Proof.
  intros [Hn Hlen] Hmax H255 Hnot Hroom.
  eexists. split; [apply KeyDown_room; (assumption || (split; lia) || lia)|].
  split; [reflexivity|].
  cbn [keysInStdRpt set_keysInStdRpt set_stdRptChanged].
  rewrite u8_small by lia. split; [|reflexivity].
  unfold std_keys. cbn.
  replace (Z.to_nat (keysInStdRpt s + 1))
    with (S (Z.to_nat (keysInStdRpt s))) by lia.
  erewrite take_S_r by (apply list_lookup_insert_eq; lia).
  now rewrite take_insert_ge by lia.
Qed.

Lemma stdErrResp_trace (s : tKbAppState) :
  trace (kbapp_stdErrResp s)
  = trace s ++ (if recoveryInProgress s =? 0 then [TxRolloverRpt] else []).
Proof.
  unfold kbapp_stdErrResp. cbn.
  destruct (recoveryInProgress s =? 0); cbn; [reflexivity|].
  now rewrite app_nil_r.
Qed.

Lemma stdErrResp_recoveryInProgress (s : tKbAppState) :
  recoveryInProgress (kbapp_stdErrResp s) = recoveryPollCount kbAppConfig.
Proof.
  unfold kbapp_stdErrResp. cbn.
  destruct (recoveryInProgress s =? 0); reflexivity.
Qed.

Lemma rollovers_app (t1 t2 : list IoEvent) :
  rollovers (t1 ++ t2) = (rollovers t1 + rollovers t2)%nat.
Proof.
  induction t1 as [|e t1 IH]; [reflexivity|].
  destruct e; cbn; rewrite IH; reflexivity.
Qed.

Lemma press_keys_fill (codes : list Z) (s : tKbAppState) :
  wf_std s ->
  maxKeysInStdRpt kbAppConfig <= Z.of_nat (length (keyCodes (stdRpt s))) ->
  maxKeysInStdRpt kbAppConfig <= 255 ->
  keysInStdRpt s + Z.of_nat (length codes) <= maxKeysInStdRpt kbAppConfig ->
  List.NoDup (std_keys s ++ codes) ->
  exists s' : tKbAppState,
    press_keys codes s = Done s' /\
    wf_std s' /\
    length (keyCodes (stdRpt s')) = length (keyCodes (stdRpt s)) /\
    keysInStdRpt s' = keysInStdRpt s + Z.of_nat (length codes) /\
    std_keys s' = std_keys s ++ codes /\
    recoveryInProgress s' = recoveryInProgress s /\
    trace s' = trace s.
Proof.
  revert s. induction codes as [|c codes IH]; intros s Hwf Hmax H255 Hroom Hnd.
  - exists s. cbn. rewrite Z.add_0_r, app_nil_r. repeat split; apply Hwf.
  - cbn [length] in Hroom. pose proof Hwf as [Hn Hlen].
    assert (Hnot : ~ In c (std_keys s)).
    { intros Hin. apply List.NoDup_remove_2 in Hnd. apply Hnd.
      apply in_or_app. now left. }
    destruct (KeyDown_room_keys s KEY_DOWN 0 c Hwf Hmax H255 Hnot)
      as (s1 & Hd & Hs1 & Hk1 & Hn1); [lia|].
    cbn [press_keys]. rewrite Hd. cbn [bind].
    assert (Hlen1 : length (keyCodes (stdRpt s1))
                    = length (keyCodes (stdRpt s)))
      by (rewrite Hs1; cbn; apply length_insert).
    assert (Hr1 : recoveryInProgress s1 = recoveryInProgress s)
      by (rewrite Hs1; reflexivity).
    assert (Ht1 : trace s1 = trace s) by (rewrite Hs1; reflexivity).
    destruct (IH s1) as (s' & Hp & Hwf' & Hlen' & Hn' & Hk' & Hr' & Ht').
    + split; [lia | rewrite Hlen1; lia].
    + rewrite Hlen1. exact Hmax.
    + exact H255.
    + lia.
    + rewrite Hk1, <- app_assoc. exact Hnd.
    + exists s'. split; [exact Hp|]. split; [exact Hwf'|].
      split; [congruence|]. split; [cbn [length]; lia|].
      split; [rewrite Hk', Hk1, <- app_assoc; reflexivity|].
      split; congruence.
Qed.
(** C2, amended: for a standard key whose translation code is not in the
    standard report, in a report with room for it, the key-down appends the
    code and the key-up that follows takes it out again, so that the key set
    and [keysInStdRpt] are what they were before the pair; a key-down for a
    code that is in the report changes nothing; a key-up for a code that is
    not in the report changes nothing. *)
Theorem std_key_down_up_pair (s : tKbAppState) (k c : Z) :
  wf_std s ->
  maxKeysInStdRpt kbAppConfig <= Z.of_nat (length (keyCodes (stdRpt s))) ->
  maxKeysInStdRpt kbAppConfig <= 255 ->
  (~ In c (std_keys s) ->
   keysInStdRpt s < maxKeysInStdRpt kbAppConfig ->
   exists s1 s2 : tKbAppState,
     kbapp_stdRptProcEvtKey KEY_DOWN k c s = Done s1 /\
     std_keys s1 = std_keys s ++ [c] /\
     keysInStdRpt s1 = keysInStdRpt s + 1 /\
     kbapp_stdRptProcEvtKey KEY_UP k c s1 = Done s2 /\
     std_keys s2 = std_keys s /\
     keysInStdRpt s2 = keysInStdRpt s) /\
  (In c (std_keys s) -> kbapp_stdRptProcEvtKey KEY_DOWN k c s = Done s) /\
  (~ In c (std_keys s) -> kbapp_stdRptProcEvtKey KEY_UP k c s = Done s).
Proof.
  intros Hwf Hmax H255. pose proof Hwf as [Hn Hlen].
  unfold kbapp_stdRptProcEvtKey. cbn [KEY_DOWN KEY_UP Z.eqb].
  split; [|split].
  - intros Hnot Hroom.
    destruct (KeyDown_room_keys s KEY_DOWN k c Hwf Hmax H255 Hnot Hroom)
      as (s1 & Hd & Hs1 & Hk1 & Hn1).
    exists s1. eexists. split; [exact Hd|]. split; [exact Hk1|].
    split; [exact Hn1|]. rewrite Hs1.
    split; [apply KeyUp_after_KeyDown_room; (assumption || lia)|].
    split; [|reflexivity].
    unfold std_keys. cbn. now rewrite take_insert_ge by lia.
  - intros Hin. now apply KeyDown_present.
  - intros Hnot. now apply KeyUp_absent.
Qed.

(** *** The error response *)

Lemma stdErrResp_rollovers_in_recovery (s : tKbAppState) :
  recoveryInProgress s <> 0 ->
  rollovers (trace (kbapp_stdErrResp s)) = rollovers (trace s).
Proof.
  intros H. rewrite stdErrResp_trace.
  destruct (Z.eqb_spec (recoveryInProgress s) 0); [contradiction|].
  now rewrite app_nil_r.
Qed.

Lemma stdErrResp_iter_in_recovery (n : nat) (s : tKbAppState) :
  recoveryPollCount kbAppConfig <> 0 ->
  recoveryInProgress s <> 0 ->
  rollovers (trace (Nat.iter n kbapp_stdErrResp s)) = rollovers (trace s) /\
  recoveryInProgress (Nat.iter n kbapp_stdErrResp s) <> 0.
Proof.
  intros Hc Hs. induction n as [|n [IH1 IH2]]; [now split|].
  cbn [Nat.iter nat_rect]. split.
  - now rewrite stdErrResp_rollovers_in_recovery.
  - now rewrite stdErrResp_recoveryInProgress.
Qed.

Lemma stdRptProcOverflow_eq (s : tKbAppState) :
  kbapp_stdRptProcOverflow s
  = emit KeyscanReset (wiced_hidd_event_queue_flush (kbapp_stdErrResp s)).
Proof. reflexivity. Qed.

Lemma trace_emit_flush (e : IoEvent) (s : tKbAppState) :
  trace (emit e (wiced_hidd_event_queue_flush s)) = trace s ++ [e].
Proof. reflexivity. Qed.

(** C3: [kbapp_stdErrResp] sends the rollover report exactly when
    [recoveryInProgress] is zero, and leaves [recoveryInProgress] at the
    configured recovery poll count; an error response that runs while the
    countdown is not zero sends nothing, so with a non-zero poll count any
    number of further error responses adds no rollover report to the one the
    first sent.  A key-down for one more distinct standard key than the
    report holds runs this error response through
    [kbapp_stdRptProcOverflow]. *)
Theorem rollover_once_per_recovery_window (s : tKbAppState) :
  (recoveryInProgress s = 0 ->
   trace (kbapp_stdErrResp s) = trace s ++ [TxRolloverRpt]) /\
  (recoveryInProgress s <> 0 -> trace (kbapp_stdErrResp s) = trace s) /\
  recoveryInProgress (kbapp_stdErrResp s) = recoveryPollCount kbAppConfig /\
  (recoveryPollCount kbAppConfig <> 0 ->
   recoveryInProgress s = 0 ->
   forall n : nat,
     rollovers (trace (Nat.iter (S n) kbapp_stdErrResp s))
     = S (rollovers (trace s))) /\
  (forall (codes : list Z) (c k : Z),
     wf_std s ->
     keysInStdRpt s = 0 ->
     Z.of_nat (length codes) = maxKeysInStdRpt kbAppConfig ->
     maxKeysInStdRpt kbAppConfig <= Z.of_nat (length (keyCodes (stdRpt s))) ->
     maxKeysInStdRpt kbAppConfig <= 255 ->
     List.NoDup (codes ++ [c]) ->
     exists sK : tKbAppState,
       press_keys codes s = Done sK /\
       std_keys sK = codes /\
       trace sK = trace s /\
       kbapp_stdRptProcEvtKey KEY_DOWN k c sK
       = Done (kbapp_stdRptProcOverflow sK) /\
       kbapp_stdRptProcOverflow sK
       = emit KeyscanReset
           (wiced_hidd_event_queue_flush (kbapp_stdErrResp sK)) /\
       (recoveryInProgress s = 0 ->
        rollovers (trace (kbapp_stdRptProcOverflow sK))
        = S (rollovers (trace s)))).
Proof.
  split; [|split; [|split; [|split]]].
  - intros H. rewrite stdErrResp_trace, H. reflexivity.
  - intros H. rewrite stdErrResp_trace.
    destruct (Z.eqb_spec (recoveryInProgress s) 0); [contradiction|].
    apply app_nil_r.
  - apply stdErrResp_recoveryInProgress.
  - intros Hc H0 n.
    replace (S n) with (n + 1)%nat by lia. rewrite Nat.iter_add.
    cbn [Nat.iter nat_rect].
    destruct (stdErrResp_iter_in_recovery n (kbapp_stdErrResp s) Hc) as [-> _].
    + now rewrite stdErrResp_recoveryInProgress.
    + rewrite stdErrResp_trace, H0, rollovers_app. cbn. lia.
  - intros codes c k Hwf H0 Hlen Hmax H255 Hnd.
    assert (Hk0 : std_keys s = []) by (unfold std_keys; now rewrite H0).
    destruct (press_keys_fill codes s Hwf Hmax H255)
      as (sK & Hp & HwfK & HlenK & HnK & HkK & HrK & HtK).
    + lia.
    + rewrite Hk0. cbn. now apply List.NoDup_remove_1 in Hnd;
        rewrite app_nil_r in Hnd.
    + rewrite Hk0 in HkK. cbn in HkK.
      exists sK. split; [exact Hp|]. split; [exact HkK|]. split; [exact HtK|].
      split; [|split; [apply stdRptProcOverflow_eq|]].
      * unfold kbapp_stdRptProcEvtKey. cbn [KEY_DOWN Z.eqb].
        apply KeyDown_overflow; [exact HwfK | | lia].
        rewrite HkK. intros Hin. apply List.NoDup_remove_2 in Hnd.
        apply Hnd. now rewrite app_nil_r.
      * intros Hr.
        rewrite stdRptProcOverflow_eq, trace_emit_flush, stdErrResp_trace.
        rewrite HrK, Hr, HtK, !rollovers_app. cbn. lia.
Qed.

Lemma set_recoveryInProgress_twice (a b : Z) (s : tKbAppState) :
  set_recoveryInProgress a (set_recoveryInProgress b s)
  = set_recoveryInProgress a s.
Proof. reflexivity. Qed.

Lemma txModifiedKeyReports_counters (s : tKbAppState) :
  keysInStdRpt (kbapp_txModifiedKeyReports s) = keysInStdRpt s /\
  modKeysInStdRpt (kbapp_txModifiedKeyReports s) = modKeysInStdRpt s /\
  recoveryInProgress (kbapp_txModifiedKeyReports s) = recoveryInProgress s /\
  eventQueue (kbapp_txModifiedKeyReports s) = eventQueue s.
Proof.
  unfold kbapp_txModifiedKeyReports, kbapp_stdRptSend, kbapp_bitRptSend,
    kbapp_slpRptSend, kbapp_funcLockRptSend, kbapp_scrollRptSend.
  repeat match goal with
         | |- context [if ?c then _ else _] => destruct c; cbn
         | |- context [match host_transport ?x with _ => _ end] =>
             destruct (host_transport x); cbn
         end; repeat split.
Qed.

Lemma generateAndTxReports_loop_empty (s : tKbAppState) (pool : list Z) :
  eventQueue s = [] -> pool <> [] ->
  kbapp_generateAndTxReports_loop pool s = Done s.
Proof.
  intros Hq Hpool. destruct pool as [|p pool]; [contradiction|].
  cbn [kbapp_generateAndTxReports_loop].
  unfold wiced_hidd_event_queue_get_current_element. rewrite Hq. cbn.
  now destruct (p <? 80).
Qed.

(** One call of [kbapp_generateAndTxReports] with an empty queue while more
    than one poll of the recovery is left: the countdown moves, nothing else
    does. *)
Lemma generateAndTxReports_countdown (s : tKbAppState) (pool : list Z)
  (u clk : Z) :
  pinCodeEntryInProgress s = PIN_ENTRY_MODE_NONE ->
  eventQueue s = [] ->
  1 < recoveryInProgress s < 256 ->
  pool <> [] ->
  kbapp_generateAndTxReports pool u clk s
  = Done (set_recoveryInProgress (recoveryInProgress s - 1) s).
Proof.
  intros Hpin Hq Hr Hpool. unfold kbapp_generateAndTxReports.
  rewrite Hpin, Z.eqb_refl. cbn [negb].
  destruct (Z.eqb_spec (recoveryInProgress s) 0); [lia|]. cbn [negb].
  cbn [recoveryInProgress set_recoveryInProgress].
  rewrite u8_small by lia.
  destruct (Z.eqb_spec (recoveryInProgress s - 1) 0); [lia|].
  rewrite generateAndTxReports_loop_empty by assumption.
  cbn [bind]. unfold kbapp_idleRateProc.
  cbn [recoveryInProgress set_recoveryInProgress].
  destruct (Z.eqb_spec (recoveryInProgress s - 1) 0); [lia|].
  now rewrite andb_false_r.
Qed.

(** The call that ends the recovery transmits the modified reports. *)
Lemma generateAndTxReports_recovery_ends (s : tKbAppState) (pool : list Z)
  (u clk : Z) :
  pinCodeEntryInProgress s = PIN_ENTRY_MODE_NONE ->
  eventQueue s = [] ->
  recoveryInProgress s = 1 ->
  keysInStdRpt s = 0 ->
  modKeysInStdRpt s = 0 ->
  pool <> [] ->
  kbapp_generateAndTxReports pool u clk s
  = Done (kbapp_txModifiedKeyReports (set_recoveryInProgress 0 s)).
Proof.
  intros Hpin Hq Hr Hk Hm Hpool. unfold kbapp_generateAndTxReports.
  rewrite Hpin, Z.eqb_refl, Hr. cbn [negb Z.eqb].
  cbn [recoveryInProgress set_recoveryInProgress].
  change (u8 (1 - 1)) with 0. cbn [Z.eqb].
  destruct (txModifiedKeyReports_counters (set_recoveryInProgress 0 s))
    as (Hk' & Hm' & Hr' & Hq').
  rewrite generateAndTxReports_loop_empty
    by (try assumption; rewrite Hq'; exact Hq).
  cbn [bind]. unfold kbapp_idleRateProc.
  rewrite Hk', Hm'. cbn [keysInStdRpt modKeysInStdRpt set_recoveryInProgress].
  rewrite Hk, Hm. cbn [Z.eqb negb orb]. now rewrite !andb_false_r.
Qed.

Lemma polls_countdown (env : list (list Z * Z * Z)) (s : tKbAppState) :
  pinCodeEntryInProgress s = PIN_ENTRY_MODE_NONE ->
  eventQueue s = [] ->
  keysInStdRpt s = 0 ->
  modKeysInStdRpt s = 0 ->
  0 < recoveryInProgress s < 256 ->
  Z.of_nat (length env) = recoveryInProgress s ->
  Forall (fun e => fst (fst e) <> []) env ->
  polls env s = Done (kbapp_txModifiedKeyReports (set_recoveryInProgress 0 s)).
Proof.
  revert s. induction env as [|[[pool u] clk] env IH];
    intros s Hpin Hq Hk Hm Hr Hlen Hall.
  - cbn in Hlen. lia.
  - apply Forall_cons in Hall. destruct Hall as [Hpool Hall]. cbn in Hpool.
    cbn [polls]. destruct env as [|e env].
    + cbn in Hlen.
      rewrite generateAndTxReports_recovery_ends by (assumption || lia).
      reflexivity.
    + cbn [length] in Hlen.
      rewrite generateAndTxReports_countdown by (assumption || lia).
      cbn [bind]. rewrite IH; try assumption.
      * reflexivity.
      * cbn. lia.
      * cbn [length recoveryInProgress set_recoveryInProgress]. lia.
Qed.

Lemma txModifiedKeyReports_after_error (s : tKbAppState) :
  recoveryInProgress s = 0 ->
  stdRptChanged s = true ->
  bitRptChanged s = true ->
  slpRptChanged s = true ->
  funcLockRptChanged s = false ->
  scrollRptChanged s = false ->
  trace (kbapp_txModifiedKeyReports s)
  = trace s ++ TxStdRpt (stdRpt s)
      :: (if kbapp_protocol s =? PROTOCOL_REPORT
          then [TxBitRpt (bitMappedReport s); TxSlpRpt (slpRpt s)]
          else []).
Proof.
  intros Hr Hstd Hbit Hslp Hfl Hscr. unfold kbapp_txModifiedKeyReports.
  rewrite Hr, Hstd. cbn.
  destruct (kbapp_protocol s =? PROTOCOL_REPORT); [|reflexivity].
  rewrite Hbit. cbn. rewrite Hslp. cbn. rewrite Hfl. cbn. rewrite Hscr. cbn.
  now rewrite <- !app_assoc.
Qed.

Lemma stdErrRespWithFwHwReset_fields (s : tKbAppState) :
  let s2 := kbapp_stdErrRespWithFwHwReset s in
  pinCodeEntryInProgress s2 = pinCodeEntryInProgress s /\
  eventQueue s2 = [] /\
  keysInStdRpt s2 = 0 /\
  modKeysInStdRpt s2 = 0 /\
  recoveryInProgress s2 = recoveryPollCount kbAppConfig /\
  stdRptChanged s2 = true /\
  bitRptChanged s2 = true /\
  slpRptChanged s2 = true /\
  funcLockRptChanged s2 = false /\
  scrollRptChanged s2 = false /\
  kbapp_protocol s2 = kbapp_protocol s /\
  stdRpt s2 = stdRpt (kbapp_stdErrResp s) /\
  bitMappedReport s2 = bitMappedReport (kbapp_stdErrResp s) /\
  slpRpt s2 = slpRpt (kbapp_stdErrResp s).
Proof.
  unfold kbapp_stdErrRespWithFwHwReset, kbapp_stdErrResp. cbn.
  destruct (recoveryInProgress s =? 0); cbn; repeat split.
Qed.

Lemma polls_after_error (env : list (list Z * Z * Z)) (s2 : tKbAppState) :
  pinCodeEntryInProgress s2 = PIN_ENTRY_MODE_NONE ->
  eventQueue s2 = [] ->
  keysInStdRpt s2 = 0 ->
  modKeysInStdRpt s2 = 0 ->
  0 < recoveryInProgress s2 < 256 ->
  Z.of_nat (length env) = recoveryInProgress s2 ->
  Forall (fun e => fst (fst e) <> []) env ->
  stdRptChanged s2 = true ->
  bitRptChanged s2 = true ->
  slpRptChanged s2 = true ->
  funcLockRptChanged s2 = false ->
  scrollRptChanged s2 = false ->
  exists t : tKbAppState,
    polls env s2 = Done t /\
    recoveryInProgress t = 0 /\
    trace t
    = trace s2 ++ TxStdRpt (stdRpt s2)
        :: (if kbapp_protocol s2 =? PROTOCOL_REPORT
            then [TxBitRpt (bitMappedReport s2); TxSlpRpt (slpRpt s2)]
            else []).
Proof.
  intros Hpin Hq Hk Hm Hr Hlen Hall Hstd Hbit Hslp Hfl Hscr.
  eexists. split; [now apply polls_countdown|].
  destruct (txModifiedKeyReports_counters (set_recoveryInProgress 0 s2))
    as (_ & _ & Hr' & _).
  split; [rewrite Hr'; reflexivity|].
  now rewrite txModifiedKeyReports_after_error.
Qed.

(** X25: after the error response the standard, the bit-mapped and the
    sleep report are marked as changed, and the change flags of the
    func-lock, the scroll and the pin report are cleared.  Outside pin
    entry, with a recovery count between 1 and 255 configured, when the
    countdown the response with its reset has set runs out over as many
    polls, each with a reading of the buffer pool and none with a new event
    queued, the transmissions of these polls are the standard report, then
    in report protocol the bit-mapped and the sleep report, and no func-lock
    or scroll report. *)
Theorem stdErrResp_marks_key_reports (s : tKbAppState) :
  let s' := kbapp_stdErrResp s in
  (stdRptChanged s' = true /\
   bitRptChanged s' = true /\
   slpRptChanged s' = true /\
   funcLockRptChanged s' = false /\
   scrollRptChanged s' = false /\
   pinRptChanged s' = false) /\
  (forall env : list (list Z * Z * Z),
     pinCodeEntryInProgress s = PIN_ENTRY_MODE_NONE ->
     0 < recoveryPollCount kbAppConfig < 256 ->
     Z.of_nat (length env) = recoveryPollCount kbAppConfig ->
     Forall (fun e => fst (fst e) <> []) env ->
     exists t : tKbAppState,
       polls env (kbapp_stdErrRespWithFwHwReset s) = Done t /\
       recoveryInProgress t = 0 /\
       trace t
       = trace (kbapp_stdErrRespWithFwHwReset s)
           ++ TxStdRpt (stdRpt s')
           :: (if kbapp_protocol s =? PROTOCOL_REPORT
               then [TxBitRpt (bitMappedReport s'); TxSlpRpt (slpRpt s')]
               else [])).
Proof.
  cbn zeta. split.
  - unfold kbapp_stdErrResp. cbn.
    destruct (recoveryInProgress s =? 0); cbn; repeat split.
  - intros env Hpin Hc Hlen Hall.
    destruct (stdErrRespWithFwHwReset_fields s)
      as (Hp2 & Hq2 & Hk2 & Hm2 & Hr2 & Hstd & Hbit & Hslp & Hfl & Hscr
          & Hproto & Hsr & Hbr & Hlr).
    rewrite <- Hproto, <- Hsr, <- Hbr, <- Hlr.
    apply polls_after_error; try assumption; congruence.
Qed.
(** *** The bit-mapped report *)

Lemma count_upto_le (f : nat -> bool) (n : nat) : (count_upto f n <= n)%nat.
Proof.
  induction n as [|n IH]; [reflexivity|].
  cbn [count_upto]. destruct (f n); lia.
Qed.

Lemma count_upto_bound (f : nat -> bool) (N n : nat) :
  (forall p, (N <= p)%nat -> f p = false) -> (count_upto f n <= N)%nat.
Proof.
  intros H. induction n as [|n IH]; [cbn; lia|].
  cbn [count_upto]. destruct (le_lt_dec N n) as [Hle|Hlt].
  - rewrite (H n Hle). lia.
  - pose proof (count_upto_le f n). destruct (f n); lia.
Qed.

Lemma count_upto_set (f g : nat -> bool) (p0 n : nat) :
  f p0 = false ->
  (forall p, g p = (p =? p0)%nat || f p) ->
  count_upto g n = (count_upto f n + (if (p0 <? n)%nat then 1 else 0))%nat.
Proof.
  intros Hf Hg. induction n as [|n IH]; [reflexivity|].
  cbn [count_upto]. rewrite IH, Hg.
  destruct (Nat.eqb_spec n p0) as [->|Hne].
  - rewrite Hf. cbn [orb].
    destruct (Nat.ltb_spec p0 (S p0)); [|lia].
    destruct (Nat.ltb_spec p0 p0); lia.
  - cbn [orb].
    destruct (Nat.ltb_spec p0 (S n)); destruct (Nat.ltb_spec p0 n);
      destruct (f n); lia.
Qed.

Lemma count_upto_clear (f g : nat -> bool) (p0 n : nat) :
  f p0 = true ->
  (forall p, g p = f p && negb (p =? p0)%nat) ->
  (count_upto g n + (if (p0 <? n)%nat then 1 else 0))%nat = count_upto f n.
Proof.
  intros Hf Hg. induction n as [|n IH]; [reflexivity|].
  cbn [count_upto]. rewrite <- IH, Hg.
  destruct (Nat.eqb_spec n p0) as [->|Hne].
  - rewrite Hf. cbn [andb negb].
    destruct (Nat.ltb_spec p0 (S p0)); [|lia].
    destruct (Nat.ltb_spec p0 p0); lia.
  - rewrite andb_true_r.
    destruct (Nat.ltb_spec p0 (S n)); destruct (Nat.ltb_spec p0 n);
      destruct (f n); lia.
Qed.

Lemma count_upto_hole (f : nat -> bool) (N p0 n : nat) :
  (forall p, (N <= p)%nat -> f p = false) ->
  (p0 < N)%nat -> f p0 = false ->
  (count_upto f n < N)%nat.
Proof.
  intros H Hp0 Hf.
  pose proof (count_upto_set f (fun p => (p =? p0)%nat || f p) p0 n Hf
                (fun p => eq_refl)) as Hset.
  assert (Hb : (count_upto (fun p => (p =? p0)%nat || f p) n <= N)%nat).
  { apply count_upto_bound. intros p Hp. rewrite (H p Hp).
    destruct (Nat.eqb_spec p p0); [lia | reflexivity]. }
  destruct (Nat.ltb_spec p0 n).
  - lia.
  - pose proof (count_upto_le f n). lia.
Qed.

Lemma count_upto_pos (f : nat -> bool) (p0 n : nat) :
  (p0 < n)%nat -> f p0 = true -> (0 < count_upto f n)%nat.
Proof.
  intros Hlt Hf. induction n as [|n IH]; [lia|].
  cbn [count_upto]. destruct (Nat.eq_dec n p0) as [->|Hne].
  - rewrite Hf. lia.
  - assert (p0 < n)%nat by lia. specialize (IH H). lia.
Qed.

Lemma land_pow2_eq0 (b col : Z) :
  0 <= col -> (Z.land b (2 ^ col) =? 0) = negb (Z.testbit b col).
Proof.
  intros Hc. destruct (Z.testbit b col) eqn:Hb; cbn [negb].
  - apply Z.eqb_neq. intros H0.
    assert (Ht : Z.testbit (Z.land b (2 ^ col)) col = false)
      by (rewrite H0; apply Z.bits_0).
    rewrite Z.land_spec, Hb, Z.pow2_bits_true in Ht by lia. discriminate.
  - apply Z.eqb_eq. apply Z.bits_inj'. intros i Hi.
    rewrite Z.land_spec, Z.bits_0, Z.pow2_bits_eqb by lia.
    destruct (Z.eqb_spec col i) as [->|_];
      [rewrite Hb; reflexivity | apply andb_false_r].
Qed.

Lemma bitOffsetToByteValue_pow2 (col : Z) :
  0 <= col < 8 -> rd bitOffsetToByteValue col = Done (2 ^ col).
Proof.
  intros H.
  assert (Hc : col = 0 \/ col = 1 \/ col = 2 \/ col = 3 \/ col = 4
               \/ col = 5 \/ col = 6 \/ col = 7) by lia.
  destruct Hc as [->|[->|[->|[->|[->|[->|[->| ->]]]]]]]; reflexivity.
Qed.

(** Row and column of a bit position. *)
Lemma rowCol_split (rowCol : Z) (p : nat) :
  0 <= rowCol ->
  (p =? Z.to_nat rowCol)%nat
  = (p / 8 =? Z.to_nat (Z.shiftr rowCol 3))%nat
    && (Z.land rowCol 7 =? Z.of_nat (p mod 8)).
Proof.
  intros H0.
  rewrite Z.shiftr_div_pow2 by lia.
  change 7 with (Z.ones 3). rewrite Z.land_ones by lia.
  change (2 ^ 3) with 8.
  pose proof (Nat.div_mod_eq p 8) as Hp.
  pose proof (Nat.mod_upper_bound p 8 ltac:(lia)) as Hm.
  pose proof (Z.div_mod rowCol 8 ltac:(lia)) as Hr.
  pose proof (Z.mod_pos_bound rowCol 8 ltac:(lia)) as Hrm.
  assert (Hd : 0 <= rowCol / 8) by (apply Z.div_pos; lia).
  destruct (Nat.eqb_spec p (Z.to_nat rowCol)) as [->|Hne].
  - symmetry. apply andb_true_iff. split.
    + apply Nat.eqb_eq. rewrite <- (Z2Nat.inj_div _ 8) by lia. reflexivity.
    + apply Z.eqb_eq.
      rewrite Nat2Z.inj_mod, Z2Nat.id by lia. reflexivity.
  - symmetry. apply andb_false_iff.
    destruct (Nat.eqb_spec (p / 8) (Z.to_nat (rowCol / 8))) as [Hq|Hq];
      [right | now left].
    apply Z.eqb_neq. intros Hc. apply Hne.
    rewrite Z2Nat.inj_div in Hq by lia. change (Z.to_nat 8) with 8%nat in Hq.
    pose proof (Nat.div_mod_eq (Z.to_nat rowCol) 8) as Hp'.
    assert (Hm' : Z.of_nat (Z.to_nat rowCol mod 8) = rowCol mod 8)
      by (rewrite Nat2Z.inj_mod, Z2Nat.id by lia; reflexivity).
    lia.
Qed.

Lemma bit_at_insert_set (a : list Z) (rowCol b : Z) (p : nat) :
  0 <= rowCol ->
  a !! Z.to_nat (Z.shiftr rowCol 3) = Some b ->
  bit_at (<[Z.to_nat (Z.shiftr rowCol 3)
            := Z.lor b (2 ^ Z.land rowCol 7)]> a) p
  = (p =? Z.to_nat rowCol)%nat || bit_at a p.
Proof.
  intros H0 Hb. unfold bit_at. rewrite rowCol_split by exact H0.
  rewrite !nth_lookup.
  assert (Hc : 0 <= Z.land rowCol 7) by (apply Z.land_nonneg; lia).
  destruct (Nat.eqb_spec (p / 8) (Z.to_nat (Z.shiftr rowCol 3))) as [->|Hne].
  - rewrite list_lookup_insert_eq by (eapply lookup_lt_Some; exact Hb).
    rewrite Hb. cbn [default andb from_option id].
    rewrite Z.lor_spec, Z.pow2_bits_eqb by lia. apply orb_comm.
  - rewrite list_lookup_insert_ne by congruence. reflexivity.
Qed.

Lemma bit_at_insert_clear (a : list Z) (rowCol b : Z) (p : nat) :
  0 <= rowCol ->
  a !! Z.to_nat (Z.shiftr rowCol 3) = Some b ->
  bit_at (<[Z.to_nat (Z.shiftr rowCol 3)
            := Z.land b (Z.lnot (2 ^ Z.land rowCol 7))]> a) p
  = bit_at a p && negb (p =? Z.to_nat rowCol)%nat.
Proof.
  intros H0 Hb. unfold bit_at. rewrite rowCol_split by exact H0.
  rewrite !nth_lookup.
  assert (Hc : 0 <= Z.land rowCol 7) by (apply Z.land_nonneg; lia).
  destruct (Nat.eqb_spec (p / 8) (Z.to_nat (Z.shiftr rowCol 3))) as [->|Hne].
  - rewrite list_lookup_insert_eq by (eapply lookup_lt_Some; exact Hb).
    rewrite Hb. cbn [default andb from_option id].
    rewrite Z.land_spec, Z.lnot_spec, Z.pow2_bits_eqb by lia. reflexivity.
  - rewrite list_lookup_insert_ne by congruence. cbn [andb negb].
    now rewrite andb_true_r.
Qed.

Lemma bit_at_this (a : list Z) (rowCol b : Z) :
  0 <= rowCol ->
  a !! Z.to_nat (Z.shiftr rowCol 3) = Some b ->
  bit_at a (Z.to_nat rowCol) = Z.testbit b (Z.land rowCol 7).
Proof.
  intros H0 Hb. unfold bit_at.
  pose proof (rowCol_split rowCol (Z.to_nat rowCol) H0) as Hs.
  rewrite Nat.eqb_refl in Hs. symmetry in Hs. apply andb_true_iff in Hs.
  destruct Hs as [Hq Hm]. apply Nat.eqb_eq in Hq. apply Z.eqb_eq in Hm.
  rewrite nth_lookup, Hq, Hb, <- Hm. reflexivity.
Qed.

Lemma rowCol_row_in_range (rowCol : Z) (n : nat) :
  0 <= rowCol < 8 * Z.of_nat n -> 0 <= Z.shiftr rowCol 3 < Z.of_nat n.
Proof.
  intros H. rewrite Z.shiftr_div_pow2 by lia. change (2 ^ 3) with 8.
  split; [apply Z.div_pos; lia | apply Z.div_lt_upper_bound; lia].
Qed.

Lemma rowCol_col_in_range (rowCol : Z) : 0 <= rowCol -> 0 <= Z.land rowCol 7 < 8.
Proof.
  intros H. change 7 with (Z.ones 3). rewrite Z.land_ones by lia.
  apply Z.mod_pos_bound. reflexivity.
Qed.

Lemma bit_at_replicate0 (n p : nat) : bit_at (replicate n 0) p = false.
Proof.
  unfold bit_at. rewrite nth_lookup.
  destruct (replicate n 0 !! (p / 8)%nat) as [z|] eqn:E; cbn.
  - apply lookup_replicate in E. destruct E as [-> _]. apply Z.bits_0.
  - apply Z.bits_0.
Qed.

Lemma count_upto_false (f : nat -> bool) (n : nat) :
  (forall p, f p = false) -> count_upto f n = 0%nat.
Proof.
  intros H. induction n as [|n IH]; [reflexivity|].
  cbn [count_upto]. now rewrite H, IH.
Qed.

Lemma bitRptClear_inv (s : tKbAppState) :
  bitRpt_inv (kbapp_bitRptClear s) /\
  keysInBitRpt (kbapp_bitRptClear s) = 0 /\
  bitMappedKeys (bitMappedReport (kbapp_bitRptClear s))
  = replicate (length (bitMappedKeys (bitMappedReport s))) 0.
Proof.
  unfold bitRpt_inv, kbapp_bitRptClear. cbn. repeat split.
  - unfold bits_set. rewrite count_upto_false; [reflexivity|].
    intros p. apply bit_at_replicate0.
  - intros p _. apply bit_at_replicate0.
Qed.

(** The state [kbapp_bitRptProcEvtKey] leaves when it writes the array. *)
Lemma bitRptProcEvtKey_run (s : tKbAppState) (flag keyCode rowCol : Z) :
  0 <= rowCol ->
  wf_bit s ->
  rowCol < numBitMappedKeys kbAppConfig ->
  exists b : Z,
    bitMappedKeys (bitMappedReport s) !! Z.to_nat (Z.shiftr rowCol 3) = Some b /\
    bit_at (bitMappedKeys (bitMappedReport s)) (Z.to_nat rowCol)
    = Z.testbit b (Z.land rowCol 7) /\
    kbapp_bitRptProcEvtKey flag keyCode rowCol s
    = Done
        (if flag =? KEY_DOWN then
           if Z.testbit b (Z.land rowCol 7) then s
           else set_bitRptChanged true
                  (set_keysInBitRpt (u8 (keysInBitRpt s + 1))
                     (set_bitMappedKeys
                        (<[Z.to_nat (Z.shiftr rowCol 3)
                           := Z.lor b (2 ^ Z.land rowCol 7)]>
                           (bitMappedKeys (bitMappedReport s))) s))
         else
           if Z.testbit b (Z.land rowCol 7) then
             set_bitRptChanged true
               (set_keysInBitRpt (u8 (keysInBitRpt s - 1))
                  (set_bitMappedKeys
                     (<[Z.to_nat (Z.shiftr rowCol 3)
                        := Z.land b (Z.lnot (2 ^ Z.land rowCol 7))]>
                        (bitMappedKeys (bitMappedReport s))) s))
           else s).
Proof.
  intros H0 [H255 Hfit] Hlt.
  pose proof (rowCol_row_in_range rowCol
                (length (bitMappedKeys (bitMappedReport s))) ltac:(lia))
    as Hrow.
  pose proof (rowCol_col_in_range rowCol H0) as Hcol.
  destruct (rd_in_range (bitMappedKeys (bitMappedReport s))
              (Z.shiftr rowCol 3) Hrow) as (b & Hrd & Hb).
  exists b. split; [exact Hb|]. split; [now apply bit_at_this|].
  unfold kbapp_bitRptProcEvtKey.
  destruct (Z.ltb_spec rowCol (numBitMappedKeys kbAppConfig)); [|lia].
  change 0x07 with 7.
  rewrite bitOffsetToByteValue_pow2 by exact Hcol. cbn [bind].
  rewrite Hrd. cbn [bind].
  rewrite land_pow2_eq0 by lia.
  rewrite !wr_in_range by exact Hrow.
  destruct (flag =? KEY_DOWN); destruct (Z.testbit b (Z.land rowCol 7));
    reflexivity.
Qed.
Lemma bitRptProcEvtKey_set_inv (s : tKbAppState) (rowCol b : Z) :
  0 <= rowCol ->
  wf_bit s ->
  rowCol < numBitMappedKeys kbAppConfig ->
  bitRpt_inv s ->
  bitMappedKeys (bitMappedReport s) !! Z.to_nat (Z.shiftr rowCol 3) = Some b ->
  bit_at (bitMappedKeys (bitMappedReport s)) (Z.to_nat rowCol) = false ->
  bits_set (<[Z.to_nat (Z.shiftr rowCol 3) := Z.lor b (2 ^ Z.land rowCol 7)]>
              (bitMappedKeys (bitMappedReport s)))
  = keysInBitRpt s + 1 /\
  keysInBitRpt s + 1 <= 255.
Proof.
  intros H0 [H255 Hfit] Hlt [Hcnt Hhigh] Hb Hclear.
  set (a := bitMappedKeys (bitMappedReport s)) in *.
  unfold bits_set in *. rewrite length_insert.
  rewrite (count_upto_set (bit_at a) _ (Z.to_nat rowCol)); [|exact Hclear|].
  - destruct (Nat.ltb_spec (Z.to_nat rowCol) (8 * length a)); [|lia].
    pose proof (count_upto_hole (bit_at a)
                  (Z.to_nat (numBitMappedKeys kbAppConfig))
                  (Z.to_nat rowCol) (8 * length a)) as Hh.
    assert ((count_upto (bit_at a) (8 * length a)
             < Z.to_nat (numBitMappedKeys kbAppConfig))%nat).
    { apply Hh; [|lia|exact Hclear]. intros p Hp. apply Hhigh. lia. }
    lia.
  - intros p. now apply bit_at_insert_set.
Qed.

Lemma bitRptProcEvtKey_clear_inv (s : tKbAppState) (rowCol b : Z) :
  0 <= rowCol ->
  wf_bit s ->
  rowCol < numBitMappedKeys kbAppConfig ->
  bitRpt_inv s ->
  bitMappedKeys (bitMappedReport s) !! Z.to_nat (Z.shiftr rowCol 3) = Some b ->
  bit_at (bitMappedKeys (bitMappedReport s)) (Z.to_nat rowCol) = true ->
  bits_set (<[Z.to_nat (Z.shiftr rowCol 3)
              := Z.land b (Z.lnot (2 ^ Z.land rowCol 7))]>
              (bitMappedKeys (bitMappedReport s)))
  = keysInBitRpt s - 1 /\
  0 <= keysInBitRpt s - 1 <= 255.
Proof.
  intros H0 [H255 Hfit] Hlt [Hcnt Hhigh] Hb Hset.
  set (a := bitMappedKeys (bitMappedReport s)) in *.
  unfold bits_set in *. rewrite length_insert.
  pose proof (count_upto_clear (bit_at a)
                (bit_at (<[Z.to_nat (Z.shiftr rowCol 3)
                           := Z.land b (Z.lnot (2 ^ Z.land rowCol 7))]> a))
                (Z.to_nat rowCol) (8 * length a) Hset) as Hc.
  rewrite <- Hc in Hcnt by (intros p; now apply bit_at_insert_clear).
  destruct (Nat.ltb_spec (Z.to_nat rowCol) (8 * length a)); [|lia].
  pose proof (count_upto_bound (bit_at a)
                (Z.to_nat (numBitMappedKeys kbAppConfig)) (8 * length a))
    as Hbd.
  assert ((count_upto (bit_at a) (8 * length a)
           <= Z.to_nat (numBitMappedKeys kbAppConfig))%nat).
  { apply Hbd. intros p Hp. apply Hhigh. lia. }
  rewrite <- Hc in H1 by (intros p; now apply bit_at_insert_clear).
  lia.
Qed.

(** C9: [keysInBitRpt] is the number of set bits of [bitMappedKeys] after
    [kbapp_bitRptClear], which zeroes both, and [kbapp_bitRptProcEvtKey]
    keeps it so: a row/col value at or beyond the number of configured keys
    changes nothing; a key-down adds one to the counter exactly when it sets
    a bit that was clear, a key-up takes one off exactly when it clears a bit
    that was set, and no other bit moves. *)
Theorem bitRpt_counter_matches_bits (s : tKbAppState) :
  (bitRpt_inv (kbapp_bitRptClear s) /\
   keysInBitRpt (kbapp_bitRptClear s) = 0 /\
   bitMappedKeys (bitMappedReport (kbapp_bitRptClear s))
   = replicate (length (bitMappedKeys (bitMappedReport s))) 0) /\
  (forall upDownFlag keyCode rowCol : Z,
     0 <= rowCol ->
     wf_bit s ->
     bitRpt_inv s ->
     exists s' : tKbAppState,
       kbapp_bitRptProcEvtKey upDownFlag keyCode rowCol s = Done s' /\
       bitRpt_inv s' /\
       keysInBitRpt s' = bits_set (bitMappedKeys (bitMappedReport s')) /\
       (numBitMappedKeys kbAppConfig <= rowCol -> s' = s) /\
       (rowCol < numBitMappedKeys kbAppConfig ->
        let a := bitMappedKeys (bitMappedReport s) in
        let a' := bitMappedKeys (bitMappedReport s') in
        let p0 := Z.to_nat rowCol in
        (forall p : nat, p <> p0 -> bit_at a' p = bit_at a p) /\
        bit_at a' p0 = (upDownFlag =? KEY_DOWN) /\
        keysInBitRpt s'
        = keysInBitRpt s
          + (if upDownFlag =? KEY_DOWN
             then if bit_at a p0 then 0 else 1
             else if bit_at a p0 then -1 else 0) /\
        (bit_at a p0 = (upDownFlag =? KEY_DOWN) -> s' = s))).
Proof.
  split; [apply bitRptClear_inv|].
  intros flag keyCode rowCol H0 Hwf Hinv.
  destruct (Z.lt_ge_cases rowCol (numBitMappedKeys kbAppConfig)) as [Hlt|Hge].
  - destruct (bitRptProcEvtKey_run s flag keyCode rowCol H0 Hwf Hlt)
      as (b & Hb & Hbit & Hrun).
    rewrite Hrun. eexists. split; [reflexivity|].
    pose proof Hinv as [Hcnt Hhigh].
    destruct (flag =? KEY_DOWN);
      destruct (Z.testbit b (Z.land rowCol 7)) eqn:Ht.
    + (* down, already set *)
      split; [exact Hinv|]. split; [exact Hcnt|]. split; [reflexivity|].
      intros _. cbn zeta. rewrite Hbit. repeat split; lia.
    + (* down, was clear *)
      destruct (bitRptProcEvtKey_set_inv s rowCol b H0 Hwf Hlt Hinv Hb Hbit)
        as [Hset Hle].
      assert (Hk : keysInBitRpt
                     (set_bitRptChanged true
                        (set_keysInBitRpt (u8 (keysInBitRpt s + 1))
                           (set_bitMappedKeys
                              (<[Z.to_nat (Z.shiftr rowCol 3)
                                 := Z.lor b (2 ^ Z.land rowCol 7)]>
                                 (bitMappedKeys (bitMappedReport s))) s)))
                   = keysInBitRpt s + 1).
      { cbn. apply u8_small. unfold bits_set in Hcnt. lia. }
      assert (Hinv' : bitRpt_inv
                        (set_bitRptChanged true
                           (set_keysInBitRpt (u8 (keysInBitRpt s + 1))
                              (set_bitMappedKeys
                                 (<[Z.to_nat (Z.shiftr rowCol 3)
                                    := Z.lor b (2 ^ Z.land rowCol 7)]>
                                    (bitMappedKeys (bitMappedReport s))) s)))).
      { split; [rewrite Hk; cbn; now rewrite Hset|].
        intros p Hp. cbn. rewrite bit_at_insert_set by assumption.
        rewrite (Hhigh p Hp).
        destruct (Nat.eqb_spec p (Z.to_nat rowCol)); [lia | reflexivity]. }
      split; [exact Hinv'|]. split; [apply Hinv'|].
      split; [intros; lia|]. intros _. cbn zeta. rewrite Hbit.
      split; [|split; [|split]].
      * intros p Hp. cbn. rewrite bit_at_insert_set by assumption.
        destruct (Nat.eqb_spec p (Z.to_nat rowCol)); [contradiction|].
        reflexivity.
      * cbn. rewrite bit_at_insert_set by assumption.
        now rewrite Nat.eqb_refl.
      * exact Hk.
      * discriminate.
    + (* up, was set *)
      destruct (bitRptProcEvtKey_clear_inv s rowCol b H0 Hwf Hlt Hinv Hb Hbit)
        as [Hclr Hle].
      assert (Hk : keysInBitRpt
                     (set_bitRptChanged true
                        (set_keysInBitRpt (u8 (keysInBitRpt s - 1))
                           (set_bitMappedKeys
                              (<[Z.to_nat (Z.shiftr rowCol 3)
                                 := Z.land b (Z.lnot (2 ^ Z.land rowCol 7))]>
                                 (bitMappedKeys (bitMappedReport s))) s)))
                   = keysInBitRpt s - 1).
      { cbn. apply u8_small. lia. }
      assert (Hinv' : bitRpt_inv
                        (set_bitRptChanged true
                           (set_keysInBitRpt (u8 (keysInBitRpt s - 1))
                              (set_bitMappedKeys
                                 (<[Z.to_nat (Z.shiftr rowCol 3)
                                    := Z.land b
                                         (Z.lnot (2 ^ Z.land rowCol 7))]>
                                    (bitMappedKeys (bitMappedReport s))) s)))).
      { split; [rewrite Hk; cbn; now rewrite Hclr|].
        intros p Hp. cbn. rewrite bit_at_insert_clear by assumption.
        now rewrite (Hhigh p Hp). }
      split; [exact Hinv'|]. split; [apply Hinv'|].
      split; [intros; lia|]. intros _. cbn zeta. rewrite Hbit.
      split; [|split; [|split]].
      * intros p Hp. cbn. rewrite bit_at_insert_clear by assumption.
        destruct (Nat.eqb_spec p (Z.to_nat rowCol)); [contradiction|].
        apply andb_true_r.
      * cbn. rewrite bit_at_insert_clear by assumption.
        rewrite Nat.eqb_refl. apply andb_false_r.
      * rewrite Hk. lia.
      * discriminate.
    + (* up, already clear *)
      split; [exact Hinv|]. split; [exact Hcnt|]. split; [reflexivity|].
      intros _. cbn zeta. rewrite Hbit. repeat split; lia.
  - exists s. unfold kbapp_bitRptProcEvtKey.
    destruct (Z.ltb_spec rowCol (numBitMappedKeys kbAppConfig)); [lia|].
    split; [reflexivity|]. split; [exact Hinv|]. split; [apply Hinv|].
    split; [reflexivity|]. intros; lia.
Qed.
(** *** Scroll scaling *)

Lemma int16_small (z : Z) : INT16_MIN <= z <= INT16_MAX -> int16 z = z.
Proof.
  unfold int16, INT16_MIN, INT16_MAX. intros H.
  rewrite Z.mod_small by lia. lia.
Qed.

Lemma shiftr_le_self (a s : Z) : 0 <= a -> 0 <= s -> 0 <= Z.shiftr a s <= a.
Proof.
  intros Ha Hs. rewrite Z.shiftr_div_pow2 by lia.
  pose proof (Z.pow_pos_nonneg 2 s ltac:(lia) Hs) as Hp.
  split; [apply Z.div_pos; lia|].
  apply Z.div_le_upper_bound; [lia|]. nia.
Qed.

Lemma shiftr_shiftl_le (a s : Z) :
  0 <= a -> 0 <= s -> 0 <= a - Z.shiftl (Z.shiftr a s) s <= a.
Proof.
  intros Ha Hs.
  rewrite Z.shiftr_div_pow2, Z.shiftl_mul_pow2 by lia.
  pose proof (Z.pow_pos_nonneg 2 s ltac:(lia) Hs) as Hp.
  pose proof (Z.div_mod a (2 ^ s) ltac:(lia)) as Hdm.
  pose proof (Z.mod_pos_bound a (2 ^ s) Hp) as Hm.
  assert (0 <= a / 2 ^ s) by (apply Z.div_pos; lia).
  nia.
Qed.

(** What [kbapp_scaleValue] computes away from [INT16_MIN]. *)
Lemma scaleValue_nonneg (v s : Z) :
  0 <= v <= INT16_MAX -> 0 <= s ->
  kbapp_scaleValue v s = (Z.shiftr v s, v - Z.shiftl (Z.shiftr v s) s).
Proof.
  intros Hv Hs. unfold kbapp_scaleValue, INT16_MAX in *.
  destruct (Z.ltb_spec v 0); [lia|].
  pose proof (shiftr_le_self v s ltac:(lia) Hs) as Hq.
  pose proof (shiftr_shiftl_le v s ltac:(lia) Hs) as Hr.
  rewrite (int16_small (Z.shiftr v s)) by (unfold INT16_MIN, INT16_MAX; lia).
  destruct (Z.eqb_spec (Z.shiftr v s) 0) as [E|E]; cbn [negb].
  - rewrite E. rewrite Z.shiftl_0_l. f_equal. lia.
  - rewrite int16_small by (unfold INT16_MIN, INT16_MAX; lia). reflexivity.
Qed.

Lemma scaleValue_neg (v s : Z) :
  - INT16_MAX <= v < 0 -> 0 <= s ->
  kbapp_scaleValue v s
  = (- Z.shiftr (- v) s, v - Z.shiftl (- Z.shiftr (- v) s) s).
Proof.
  intros Hv Hs. unfold kbapp_scaleValue, INT16_MAX in *.
  destruct (Z.ltb_spec v 0); [|lia].
  rewrite (int16_small (- v)) by (unfold INT16_MIN, INT16_MAX; lia).
  pose proof (shiftr_le_self (- v) s ltac:(lia) Hs) as Hq.
  pose proof (shiftr_shiftl_le (- v) s ltac:(lia) Hs) as Hr.
  rewrite (int16_small (Z.shiftr (- v) s))
    by (unfold INT16_MIN, INT16_MAX; lia).
  rewrite Z.shiftl_mul_pow2 in * by lia.
  destruct (Z.eqb_spec (Z.shiftr (- v) s) 0) as [E|E]; cbn [negb].
  - rewrite E. change (- 0) with 0. rewrite Z.shiftl_0_l. f_equal. lia.
  - rewrite (int16_small (- Z.shiftr (- v) s))
      by (unfold INT16_MIN, INT16_MAX; lia).
    rewrite Z.shiftl_mul_pow2 by lia.
    rewrite int16_small by (unfold INT16_MIN, INT16_MAX; lia). reflexivity.
Qed.
Lemma pollActivityScroll_scaled (s : tKbAppState) (d : Z) :
  d <> 0 ->
  negateScroll kbAppConfig = false ->
  scrollScale kbAppConfig <> 0 ->
  Z.of_nat (length (eventQueue s)) + 1 < maxEventNum kbAppConfig ->
  kbapp_pollActivityScroll d s
  = set_eventQueue
      (eventQueue s
         ++ [HID_EVENT_MOTION_AXIS_0
               (fst (kbapp_scaleValue (int16 (scrollFractional s + d))
                       (scrollScale kbAppConfig)))])
      (set_pollsSinceScroll 0
         (set_scrollFractional
            (snd (kbapp_scaleValue (int16 (scrollFractional s + d))
                    (scrollScale kbAppConfig))) s)).
Proof.
  intros Hd Hneg Hscale Hroom. unfold kbapp_pollActivityScroll.
  destruct (Z.eqb_spec d 0); [contradiction|]. cbn [negb].
  rewrite Hneg.
  destruct (Z.eqb_spec (scrollScale kbAppConfig) 0); [contradiction|].
  cbn [negb scrollFractional set_scrollFractional].
  destruct (kbapp_scaleValue (int16 (scrollFractional s + d))
              (scrollScale kbAppConfig)) as [q r].
  cbn [fst snd]. unfold wiced_hidd_event_queue_add_event_with_overflow.
  cbn [eventQueue set_pollsSinceScroll set_scrollFractional].
  destruct (Z.ltb_spec (Z.of_nat (length (eventQueue s)) + 1)
              (maxEventNum kbAppConfig)); [|lia].
  destruct s; reflexivity.
Qed.

(** The scroll events at the end of the queue after a run of four scroll
    counts, and the fraction the run leaves. *)
Lemma scroll_run_four (s : tKbAppState) (d1 d2 d3 d4 q1 q2 q3 q4 r1 r2 r3 r4 : Z) :
  negateScroll kbAppConfig = false ->
  scrollScale kbAppConfig <> 0 ->
  Z.of_nat (length (eventQueue s)) + 4 < maxEventNum kbAppConfig ->
  d1 <> 0 -> d2 <> 0 -> d3 <> 0 -> d4 <> 0 ->
  kbapp_scaleValue (int16 (scrollFractional s + d1)) (scrollScale kbAppConfig)
  = (q1, r1) ->
  kbapp_scaleValue (int16 (r1 + d2)) (scrollScale kbAppConfig) = (q2, r2) ->
  kbapp_scaleValue (int16 (r2 + d3)) (scrollScale kbAppConfig) = (q3, r3) ->
  kbapp_scaleValue (int16 (r3 + d4)) (scrollScale kbAppConfig) = (q4, r4) ->
  eventQueue (scroll_run [d1; d2; d3; d4] s)
  = eventQueue s
      ++ [HID_EVENT_MOTION_AXIS_0 q1; HID_EVENT_MOTION_AXIS_0 q2;
          HID_EVENT_MOTION_AXIS_0 q3; HID_EVENT_MOTION_AXIS_0 q4] /\
  scrollFractional (scroll_run [d1; d2; d3; d4] s) = r4.
Proof.
  intros Hneg Hscale Hroom Hd1 Hd2 Hd3 Hd4 H1 H2 H3 H4.
  unfold scroll_run. cbn [fold_left].
  rewrite (pollActivityScroll_scaled s d1) by (assumption || lia).
  rewrite H1. cbn [fst snd].
  rewrite (pollActivityScroll_scaled _ d2)
    by (try assumption; cbn [eventQueue set_eventQueue];
        rewrite ?length_app; cbn [length]; lia).
  cbn [scrollFractional set_eventQueue set_pollsSinceScroll
       set_scrollFractional eventQueue].
  rewrite H2. cbn [fst snd].
  rewrite (pollActivityScroll_scaled _ d3)
    by (try assumption; cbn [eventQueue set_eventQueue];
        rewrite ?length_app; cbn [length]; lia).
  cbn [scrollFractional set_eventQueue set_pollsSinceScroll
       set_scrollFractional eventQueue].
  rewrite H3. cbn [fst snd].
  rewrite (pollActivityScroll_scaled _ d4)
    by (try assumption; cbn [eventQueue set_eventQueue];
        rewrite ?length_app; cbn [length]; lia).
  cbn [scrollFractional set_eventQueue set_pollsSinceScroll
       set_scrollFractional eventQueue].
  rewrite H4. cbn [fst snd]. split; [|reflexivity].
  rewrite <- !app_assoc. reflexivity.
Qed.

(** C5, amended: for every accumulator value [v] of an [int16_t] other than
    -32768 and every shift amount [s], [kbapp_scaleValue] returns a quotient
    [q] of magnitude [|v| >> s] with the sign of [v] and leaves the
    accumulator at [v - (q << s)]; applied to [-v] it returns [-q] and leaves
    [-(v - (q << s))].  With a scale factor of 2 and an empty fraction, the
    scroll counts 3, 3, 3, 3 queue the whole numbers 0, 1, 1, 1 and leave the
    fraction 0, and the counts -3, -3, -3, -3 queue 0, -1, -1, -1 and leave
    0. *)
Theorem scaleValue_sign_symmetric (v s : Z) :
  - INT16_MAX <= v <= INT16_MAX ->
  0 <= s ->
  (let '(q, r) := kbapp_scaleValue v s in
   Z.abs q = Z.shiftr (Z.abs v) s /\
   (q <> 0 -> Z.sgn q = Z.sgn v) /\
   r = v - Z.shiftl q s /\
   kbapp_scaleValue (- v) s = (- q, - r)) /\
  (forall st : tKbAppState,
     negateScroll kbAppConfig = false ->
     scrollScale kbAppConfig = 2 ->
     scrollFractional st = 0 ->
     Z.of_nat (length (eventQueue st)) + 4 < maxEventNum kbAppConfig ->
     (eventQueue (scroll_run [3; 3; 3; 3] st)
      = eventQueue st
          ++ [HID_EVENT_MOTION_AXIS_0 0; HID_EVENT_MOTION_AXIS_0 1;
              HID_EVENT_MOTION_AXIS_0 1; HID_EVENT_MOTION_AXIS_0 1] /\
      scrollFractional (scroll_run [3; 3; 3; 3] st) = 0) /\
     (eventQueue (scroll_run [-3; -3; -3; -3] st)
      = eventQueue st
          ++ [HID_EVENT_MOTION_AXIS_0 0; HID_EVENT_MOTION_AXIS_0 (-1);
              HID_EVENT_MOTION_AXIS_0 (-1); HID_EVENT_MOTION_AXIS_0 (-1)] /\
      scrollFractional (scroll_run [-3; -3; -3; -3] st) = 0)).
Proof.
  intros Hv Hs. split.
  - destruct (Z.lt_ge_cases v 0) as [Hneg|Hpos].
    + rewrite (scaleValue_neg v s) by lia.
      rewrite (scaleValue_nonneg (- v) s) by lia.
      pose proof (shiftr_le_self (- v) s ltac:(lia) Hs) as Hq.
      rewrite Z.abs_opp, (Z.abs_neq v), Z.abs_eq by lia.
      split; [reflexivity|]. split.
      * intros Hq0. rewrite Z.sgn_neg, (Z.sgn_neg v) by lia. reflexivity.
      * split; [reflexivity|]. f_equal; [lia|].
        rewrite !Z.shiftl_mul_pow2 by lia. lia.
    + destruct (Z.eq_dec v 0) as [->|Hnz].
      * change (- 0) with 0.
        rewrite (scaleValue_nonneg 0 s) by (unfold INT16_MAX; lia).
        rewrite Z.shiftr_0_l, Z.shiftl_0_l. change (Z.abs 0) with 0.
        rewrite Z.shiftr_0_l. change (0 - 0) with 0. change (- 0) with 0.
        split; [reflexivity|]. split; [intros H; now contradiction H|].
        split; reflexivity.
      * rewrite (scaleValue_nonneg v s) by lia.
        rewrite (scaleValue_neg (- v) s) by lia.
        pose proof (shiftr_le_self v s ltac:(lia) Hs) as Hq.
        rewrite Z.opp_involutive, Z.abs_eq, (Z.abs_eq v) by lia.
        split; [reflexivity|]. split.
        -- intros Hq0. rewrite Z.sgn_pos, (Z.sgn_pos v) by lia. reflexivity.
        -- split; [reflexivity|]. f_equal.
           rewrite !Z.shiftl_mul_pow2 by lia. lia.
  - intros st Hng Hsc Hfr Hroom. split.
    + apply (scroll_run_four st 3 3 3 3 0 1 1 1 3 2 1 0);
        rewrite ?Hsc, ?Hfr; try (assumption || lia || reflexivity).
    + apply (scroll_run_four st (-3) (-3) (-3) (-3) 0 (-1) (-1) (-1)
               (-3) (-2) (-1) 0);
        rewrite ?Hsc, ?Hfr; try (assumption || lia || reflexivity).
Qed.
(** *** Func-lock *)

Lemma same_funcLock_context_refl (s : tKbAppState) :
  same_funcLock_context s s.
Proof. repeat split. Qed.

Lemma same_funcLock_context_trans (s1 s2 s3 : tKbAppState) :
  same_funcLock_context s1 s2 -> same_funcLock_context s2 s3 ->
  same_funcLock_context s1 s3.
Proof.
  intros (H1 & H2 & H3) (H4 & H5 & H6). repeat split; congruence.
Qed.

Lemma KeyUp_loop_frame (c : Z) (fuel : nat) (i : Z) (s : tKbAppState) :
  0 <= i <= 255 ->
  256 <= Z.of_nat fuel + i ->
  wf_std s ->
  exists s' : tKbAppState,
    kbapp_stdRptProcEvtKeyUp_loop fuel i c s = Done s' /\
    same_funcLock_context s s' /\
    bitMappedReport s' = bitMappedReport s /\
    keysInBitRpt s' = keysInBitRpt s /\
    trace s' = trace s.
Proof.
  revert i s. induction fuel as [|fuel IH]; intros i s Hi Hf [Hn Hlen]; [lia|].
  cbn [kbapp_stdRptProcEvtKeyUp_loop].
  destruct (Z.ltb_spec i (keysInStdRpt s)) as [Hlt|Hge].
  - destruct (rd_in_range (keyCodes (stdRpt s)) i) as (x & Hrd & Hx); [lia|].
    rewrite Hrd. cbn [bind].
    destruct (x =? c).
    + cbn [keysInStdRpt set_keysInStdRpt stdRpt keyCodes].
      rewrite (u8_small (keysInStdRpt s - 1)) by lia.
      destruct (rd_in_range (keyCodes (stdRpt s)) (keysInStdRpt s - 1))
        as (y & Hrd' & Hy); [lia|].
      rewrite Hrd'. cbn [bind].
      rewrite wr_in_range by lia.
      cbn [bind keysInStdRpt set_keysInStdRpt stdRpt keyCodes set_keyCodes
           set_stdRpt].
      rewrite wr_in_range by (rewrite length_insert; lia).
      cbn [bind].
      rewrite (u8_small (i + 1)) by lia.
      match goal with
      | |- exists s', kbapp_stdRptProcEvtKeyUp_loop _ _ _ ?t = _ /\ _ =>
          destruct (IH (i + 1) t) as (s' & Hrun & Hctx & Hbit & Hcnt & Htr)
      end.
      * lia.
      * lia.
      * split; cbn; rewrite ?length_insert; lia.
      * exists s'. split; [exact Hrun|].
        split; [apply (same_funcLock_context_trans _ _ _ ltac:(repeat split)
                         Hctx)|].
        split; [rewrite Hbit; reflexivity|].
        split; [rewrite Hcnt; reflexivity | rewrite Htr; reflexivity].
    + rewrite (u8_small (i + 1)) by lia.
      apply IH; [lia | lia | split; assumption].
  - exists s. split; [reflexivity|]. split; [apply same_funcLock_context_refl|].
    repeat split.
Qed.

Lemma KeyUp_frame (s : tKbAppState) (f k c : Z) :
  wf_std s ->
  exists s' : tKbAppState,
    kbapp_stdRptProcEvtKeyUp f k c s = Done s' /\
    same_funcLock_context s s' /\
    bitMappedReport s' = bitMappedReport s /\
    keysInBitRpt s' = keysInBitRpt s /\
    trace s' = trace s.
Proof.
  intros Hwf. unfold kbapp_stdRptProcEvtKeyUp.
  apply KeyUp_loop_frame; [lia | lia | exact Hwf].
Qed.

Lemma KeyDown_no_overflow_frame (s : tKbAppState) (f k c : Z) :
  wf_std s ->
  maxKeysInStdRpt kbAppConfig <= Z.of_nat (length (keyCodes (stdRpt s))) ->
  maxKeysInStdRpt kbAppConfig <= 255 ->
  In c (std_keys s) \/ keysInStdRpt s < maxKeysInStdRpt kbAppConfig ->
  exists s' : tKbAppState,
    kbapp_stdRptProcEvtKeyDown f k c s = Done s' /\
    same_funcLock_context s s' /\
    wf_std s' /\
    bitMappedReport s' = bitMappedReport s /\
    keysInBitRpt s' = keysInBitRpt s /\
    trace s' = trace s.
Proof.
  intros Hwf Hmax H255 Hno.
  destruct (In_dec Z.eq_dec c (std_keys s)) as [Hin|Hnot].
  - exists s. split; [now apply KeyDown_present|].
    split; [apply same_funcLock_context_refl|]. repeat split; apply Hwf.
  - destruct Hno as [Hin|Hroom]; [contradiction|].
    destruct (KeyDown_room_keys s f k c Hwf Hmax H255 Hnot Hroom)
      as (s1 & Hd & Hs1 & Hk1 & Hn1).
    exists s1. split; [exact Hd|]. destruct Hwf as [Hn Hlen].
    rewrite Hs1. split; [repeat split|].
    split; [split; cbn; rewrite ?length_insert, ?u8_small; lia|].
    repeat split.
Qed.

Lemma bitRptProcEvtKey_frame (s : tKbAppState) (f k rowCol : Z) :
  0 <= rowCol ->
  wf_bit s ->
  exists s' : tKbAppState,
    kbapp_bitRptProcEvtKey f k rowCol s = Done s' /\
    same_funcLock_context s s' /\
    stdRpt s' = stdRpt s /\
    keysInStdRpt s' = keysInStdRpt s /\
    length (bitMappedKeys (bitMappedReport s'))
    = length (bitMappedKeys (bitMappedReport s)) /\
    trace s' = trace s.
Proof.
  intros H0 Hwf.
  destruct (Z.lt_ge_cases rowCol (numBitMappedKeys kbAppConfig)) as [Hlt|Hge].
  - destruct (bitRptProcEvtKey_run s f k rowCol H0 Hwf Hlt)
      as (b & Hb & Hbit & Hrun).
    rewrite Hrun. eexists. split; [reflexivity|].
    destruct (f =? KEY_DOWN); destruct (Z.testbit b (Z.land rowCol 7));
      cbn; rewrite ?length_insert; repeat split.
  - exists s. unfold kbapp_bitRptProcEvtKey.
    destruct (Z.ltb_spec rowCol (numBitMappedKeys kbAppConfig)); [lia|].
    repeat split.
Qed.

Lemma kbFuncLockDepKeyTransTab_entry (idx : Z) :
  0 <= idx < 13 ->
  exists e : KbFuncLockDepKeyTransTab,
    rd kbFuncLockDepKeyTransTab idx = Done e /\ 0 <= bitRptCode e.
Proof.
  intros H.
  destruct (rd_in_range kbFuncLockDepKeyTransTab idx) as (e & Hrd & He);
    [cbn; lia|].
  exists e. split; [exact Hrd|].
  assert (Hall : Forall (fun e => 0 <= bitRptCode e) kbFuncLockDepKeyTransTab)
    by (repeat constructor; cbn; lia).
  rewrite Forall_lookup in Hall. exact (Hall _ _ He).
Qed.

(** The func-lock key goes down while it is tracked as up. *)
Lemma funcLockProcEvtKey_down (s : tKbAppState) (k t : Z) :
  recoveryInProgress s = 0 ->
  kbapp_protocol s = PROTOCOL_REPORT ->
  kepPosition (funcLockInfo s) = FUNC_LOCK_KEY_UP ->
  let s1 := kbapp_funcLockProcEvtKey KEY_DOWN k t s in
  funcLockInfo s1
  = mkFuncLockInfo (toggled (state (funcLockInfo s))) FUNC_LOCK_KEY_DOWN false /\
  recoveryInProgress s1 = 0 /\
  kbapp_protocol s1 = PROTOCOL_REPORT /\
  stdRpt s1 = stdRpt s /\
  keysInStdRpt s1 = keysInStdRpt s /\
  bitMappedReport s1 = bitMappedReport s /\
  trace s1 = trace s.
Proof.
  intros Hr Hp Hpos. cbn zeta. unfold kbapp_funcLockProcEvtKey.
  rewrite Hr, Hp, Hpos. cbn. repeat split; assumption.
Qed.

(** The func-lock key goes up while it is tracked as down. *)
Lemma funcLockProcEvtKey_up (s : tKbAppState) (k t : Z) :
  recoveryInProgress s = 0 ->
  kbapp_protocol s = PROTOCOL_REPORT ->
  kepPosition (funcLockInfo s) = FUNC_LOCK_KEY_DOWN ->
  let s1 := kbapp_funcLockProcEvtKey KEY_UP k t s in
  kepPosition (funcLockInfo s1) = FUNC_LOCK_KEY_UP /\
  state (funcLockInfo s1)
  = if toggleStateOnKeyUp (funcLockInfo s)
    then toggled (state (funcLockInfo s))
    else state (funcLockInfo s).
Proof.
  intros Hr Hp Hpos. cbn zeta. unfold kbapp_funcLockProcEvtKey.
  rewrite Hr, Hp, Hpos. cbn.
  destruct (toggleStateOnKeyUp (funcLockInfo s)); cbn; repeat split.
Qed.

Lemma wf_std_transfer (s s' : tKbAppState) :
  stdRpt s' = stdRpt s -> keysInStdRpt s' = keysInStdRpt s ->
  wf_std s -> wf_std s'.
Proof. unfold wf_std. intros -> ->. trivial. Qed.

Lemma wf_bit_transfer (s s' : tKbAppState) :
  length (bitMappedKeys (bitMappedReport s'))
  = length (bitMappedKeys (bitMappedReport s)) ->
  wf_bit s -> wf_bit s'.
Proof. unfold wf_bit. intros ->. trivial. Qed.

Lemma funcLockProcEvtDepKey_down (s : tKbAppState) (k idx : Z) :
  wf_std s ->
  maxKeysInStdRpt kbAppConfig <= Z.of_nat (length (keyCodes (stdRpt s))) ->
  maxKeysInStdRpt kbAppConfig <= 255 ->
  wf_bit s ->
  0 <= idx < 13 ->
  kbapp_protocol s = PROTOCOL_REPORT ->
  (forall e : KbFuncLockDepKeyTransTab,
     rd kbFuncLockDepKeyTransTab idx = Done e ->
     state (funcLockInfo s) = FUNC_LOCK_STATE_ON ->
     In (stdRptCode e) (std_keys s)
     \/ keysInStdRpt s < maxKeysInStdRpt kbAppConfig) ->
  exists s2 : tKbAppState,
    kbapp_funcLockProcEvtDepKey KEY_DOWN k idx s = Done s2 /\
    funcLockInfo s2
    = mkFuncLockInfo (state (funcLockInfo s)) (kepPosition (funcLockInfo s))
        true /\
    recoveryInProgress s2 = recoveryInProgress s /\
    kbapp_protocol s2 = kbapp_protocol s /\
    wf_std s2 /\
    wf_bit s2.
Proof.
  intros Hwf Hmax H255 Hwb Hidx Hp Hno.
  destruct (kbFuncLockDepKeyTransTab_entry idx Hidx) as (e & Hrd & He).
  unfold kbapp_funcLockProcEvtDepKey. cbn [KEY_DOWN Z.eqb].
  rewrite Hp. cbn [PROTOCOL_REPORT PROTOCOL_BOOT Z.eqb orb].
  rewrite orb_false_r, Hrd. cbn [bind].
  destruct (state (funcLockInfo s)) eqn:Hst; cbn [is_FUNC_LOCK_STATE_ON].
  - (* lock off: the bit-mapped report *)
    destruct (bitRptProcEvtKey_frame s KEY_DOWN k (bitRptCode e) He Hwb)
      as (s' & Hrun & (Hfl & Hr & Hpr) & Hstd & Hn & Hlen & _).
    rewrite Hrun. cbn [bind].
    exists (set_toggleStateOnKeyUp true s'). split; [reflexivity|].
    split; [cbn; rewrite Hfl, Hst; reflexivity|].
    split; [exact Hr|]. split; [cbn; rewrite Hpr; exact Hp|].
    split.
    + apply (wf_std_transfer s); [exact Hstd | exact Hn | exact Hwf].
    + apply (wf_bit_transfer s); [exact Hlen | exact Hwb].
  - (* lock on: the standard report *)
    unfold kbapp_stdRptProcEvtKey. cbn [Z.eqb].
    destruct (KeyDown_no_overflow_frame s KEY_DOWN k (stdRptCode e) Hwf Hmax
                H255 (Hno e Hrd eq_refl))
      as (s' & Hrun & (Hfl & Hr & Hpr) & Hwf' & Hbit & _).
    rewrite Hrun. cbn [bind].
    exists (set_toggleStateOnKeyUp true s'). split; [reflexivity|].
    split; [cbn; rewrite Hfl, Hst; reflexivity|].
    split; [exact Hr|]. split; [cbn; rewrite Hpr; exact Hp|].
    split.
    + exact Hwf'.
    + apply (wf_bit_transfer s); [now rewrite <- Hbit | exact Hwb].
Qed.

Lemma funcLockProcEvtDepKey_up (s : tKbAppState) (k idx : Z) :
  wf_std s ->
  wf_bit s ->
  0 <= idx < 13 ->
  exists s3 : tKbAppState,
    kbapp_funcLockProcEvtDepKey KEY_UP k idx s = Done s3 /\
    same_funcLock_context s s3.
Proof.
  intros Hwf Hwb Hidx.
  destruct (kbFuncLockDepKeyTransTab_entry idx Hidx) as (e & Hrd & He).
  unfold kbapp_funcLockProcEvtDepKey.
  change (KEY_UP =? KEY_DOWN) with false. cbv iota.
  rewrite Hrd. cbn [bind].
  unfold kbapp_stdRptProcEvtKey.
  change (KEY_UP =? KEY_DOWN) with false. cbv iota.
  destruct (KeyUp_frame s KEY_UP k (stdRptCode e) Hwf)
    as (s' & Hrun & Hctx & Hbit & _).
  rewrite Hrun. cbn [bind].
  assert (Hwb' : wf_bit s') by (apply (wf_bit_transfer s);
                                [now rewrite Hbit | exact Hwb]).
  destruct (bitRptProcEvtKey_frame s' KEY_UP k (bitRptCode e) He Hwb')
    as (s3 & Hrun3 & Hctx3 & _).
  rewrite Hrun3. exists s3. split; [reflexivity|].
  exact (same_funcLock_context_trans _ _ _ Hctx Hctx3).
Qed.

(** *** Polling the keyscan driver *)

Lemma add_event_with_overflow_frame (e : HidEvent) (s : tKbAppState) :
  trace (wiced_hidd_event_queue_add_event_with_overflow e s) = trace s /\
  recoveryInProgress (wiced_hidd_event_queue_add_event_with_overflow e s)
  = recoveryInProgress s.
Proof.
  unfold wiced_hidd_event_queue_add_event_with_overflow.
  destruct (_ <? _); [split; reflexivity|].
  destruct (_ <? _); split; reflexivity.
Qed.

Lemma connectButtonHandler_frame (p : ConnectButtonPosition) (s : tKbAppState) :
  trace (kbapp_connectButtonHandler p s)
  = trace s ++ match p with
               | CONNECT_BUTTON_DOWN => [VirtualCableUnplug; EnterPairing]
               | CONNECT_BUTTON_UP => []
               end /\
  recoveryInProgress (kbapp_connectButtonHandler p s) = recoveryInProgress s /\
  eventQueue (kbapp_connectButtonHandler p s) = eventQueue s.
Proof.
  destruct p; cbn.
  - now rewrite app_nil_r.
  - now rewrite <- app_assoc.
Qed.

Lemma pollActivityKey_loop_trace (evs : list (Z * Z)) (b : bool)
  (s : tKbAppState) :
  trace (kbapp_pollActivityKey_loop evs b s)
  = trace s ++ (if recoveryInProgress s =? 0 then connect_button_actions evs
                else []) /\
  recoveryInProgress (kbapp_pollActivityKey_loop evs b s)
  = recoveryInProgress s.
Proof.
  revert b s. induction evs as [|[k f] evs IH]; intros b s.
  - cbn. destruct (_ =? 0); now rewrite app_nil_r.
  - cbn [kbapp_pollActivityKey_loop connect_button_actions flat_map fst snd].
    destruct (k =? connectButtonScanIndex kbAppConfig) eqn:Ek.
    + destruct (recoveryInProgress s =? 0) eqn:Er.
      * destruct (IH b (kbapp_connectButtonHandler
                          (if f =? KEY_DOWN then CONNECT_BUTTON_DOWN
                           else CONNECT_BUTTON_UP) s)) as [Ht Hr].
        destruct (connectButtonHandler_frame
                    (if f =? KEY_DOWN then CONNECT_BUTTON_DOWN
                     else CONNECT_BUTTON_UP) s) as (Ht' & Hr' & _).
        rewrite Ht, Hr, Ht', Hr', Er. split; [|reflexivity].
        rewrite <- app_assoc. cbn [andb]. now destruct (f =? KEY_DOWN).
      * destruct (IH b s) as [Ht Hr]. now rewrite Ht, Hr, Er.
    + cbn [andb app].
      destruct (k =? END_OF_SCAN_CYCLE).
      * destruct b; cbn [negb].
        -- apply IH.
        -- destruct (IH true (wiced_hidd_event_queue_add_event_with_overflow
                                (HID_EVENT_KEY_STATE_CHANGE k f) s))
             as [Ht Hr].
           destruct (add_event_with_overflow_frame
                       (HID_EVENT_KEY_STATE_CHANGE k f) s) as [Ht' Hr'].
           now rewrite Ht, Hr, Ht', Hr'.
      * destruct (IH false (wiced_hidd_event_queue_add_event_with_overflow
                              (HID_EVENT_KEY_STATE_CHANGE k f) s))
          as [Ht Hr].
        destruct (add_event_with_overflow_frame
                    (HID_EVENT_KEY_STATE_CHANGE k f) s) as [Ht' Hr'].
        now rewrite Ht, Hr, Ht', Hr'.
Qed.

Lemma pollActivityKey_loop_suppressed (evs : list (Z * Z)) (s : tKbAppState) :
  Forall connect_or_end_of_scan evs ->
  eventQueue (kbapp_pollActivityKey_loop evs true s) = eventQueue s.
Proof.
  intros H. revert s. induction H as [|[k f] evs Hk _ IH]; intros s.
  - reflexivity.
  - cbn [kbapp_pollActivityKey_loop].
    destruct (Z.eqb_spec k (connectButtonScanIndex kbAppConfig)) as [Ek|Ek].
    + rewrite IH. destruct (recoveryInProgress s =? 0); [|reflexivity].
      apply connectButtonHandler_frame.
    + destruct Hk as [Hk|Hk]; cbn in Hk; [contradiction|].
      rewrite Hk, Z.eqb_refl. cbn [negb]. apply IH.
Qed.

Lemma add_event_with_overflow_queue (e : HidEvent) (s t : tKbAppState) :
  eventQueue s = eventQueue t ->
  eventQueue (wiced_hidd_event_queue_add_event_with_overflow e s)
  = eventQueue (wiced_hidd_event_queue_add_event_with_overflow e t).
Proof.
  intros H. unfold wiced_hidd_event_queue_add_event_with_overflow.
  rewrite H. destruct (_ <? _); [reflexivity|].
  destruct (_ <? _); [reflexivity|exact H].
Qed.

Lemma add_event_with_overflow_added (e : HidEvent) (s : tKbAppState) :
  not_of_connect_button e ->
  exists added : list HidEvent,
    eventQueue (wiced_hidd_event_queue_add_event_with_overflow e s)
    = eventQueue s ++ added /\
    Forall not_of_connect_button added.
Proof.
  intros He. unfold wiced_hidd_event_queue_add_event_with_overflow.
  destruct (_ <? _).
  - exists [e]. split; [reflexivity|]. now constructor.
  - destruct (_ <? _).
    + exists [HID_EVENT_EVENT_FIFO_OVERFLOW]. split; [reflexivity|].
      constructor; [exact I|constructor].
    + exists []. split; [now rewrite app_nil_r|constructor].
Qed.

Lemma pollActivityKey_loop_queue_filter (evs : list (Z * Z)) (b : bool)
  (s t : tKbAppState) :
  eventQueue s = eventQueue t ->
  eventQueue (kbapp_pollActivityKey_loop evs b s)
  = eventQueue
      (kbapp_pollActivityKey_loop (List.filter not_connect_button evs) b t).
Proof.
  revert b s t. induction evs as [|[k f] evs IH]; intros b s t H.
  - exact H.
  - cbn [kbapp_pollActivityKey_loop List.filter].
    unfold not_connect_button at 1. cbn [fst].
    destruct (k =? connectButtonScanIndex kbAppConfig) eqn:Ek; cbn [negb].
    + apply IH. rewrite <- H.
      destruct (recoveryInProgress s =? 0); [|reflexivity].
      apply connectButtonHandler_frame.
    + cbn [kbapp_pollActivityKey_loop]. rewrite Ek.
      destruct (k =? END_OF_SCAN_CYCLE).
      * apply IH. destruct b; cbn [negb]; [exact H|].
        now apply add_event_with_overflow_queue.
      * apply IH. now apply add_event_with_overflow_queue.
Qed.

Lemma pollActivityKey_loop_queue_added (evs : list (Z * Z)) (b : bool)
  (s : tKbAppState) :
  exists added : list HidEvent,
    eventQueue (kbapp_pollActivityKey_loop evs b s) = eventQueue s ++ added /\
    Forall not_of_connect_button added.
Proof.
  revert b s. induction evs as [|[k f] evs IH]; intros b s.
  - exists []. split; [now rewrite app_nil_r|constructor].
  - cbn [kbapp_pollActivityKey_loop].
    destruct (Z.eqb_spec k (connectButtonScanIndex kbAppConfig)) as [Ek|Ek].
    + match goal with
      | |- context [kbapp_pollActivityKey_loop evs b ?u] =>
          destruct (IH b u) as (added & Hq & Hf);
          assert (Hu : eventQueue u = eventQueue s)
      end.
      { destruct (recoveryInProgress s =? 0); [|reflexivity].
        apply connectButtonHandler_frame. }
      exists added. split; [now rewrite Hq, Hu|exact Hf].
    + destruct (add_event_with_overflow_added
                  (HID_EVENT_KEY_STATE_CHANGE k f) s Ek)
        as (one & Hone & Fone).
      destruct (k =? END_OF_SCAN_CYCLE).
      * destruct b; cbn [negb]; [apply IH|].
        destruct (IH true (wiced_hidd_event_queue_add_event_with_overflow
                             (HID_EVENT_KEY_STATE_CHANGE k f) s))
          as (added & Hq & Hf).
        exists (one ++ added). split; [now rewrite Hq, Hone, app_assoc|].
        now apply Forall_app.
      * destruct (IH false (wiced_hidd_event_queue_add_event_with_overflow
                              (HID_EVENT_KEY_STATE_CHANGE k f) s))
          as (added & Hq & Hf).
        exists (one ++ added). split; [now rewrite Hq, Hone, app_assoc|].
        now apply Forall_app.
Qed.

(** X1: the connect button never goes through the event queue.  Whatever
    the keyscan driver delivers in a poll, no key event of the connect
    button is among the events the poll adds to the queue, and the queue is
    the one the poll leaves when the connect-button events are taken out of
    what the driver delivers.  Every connect-button-down event met outside a
    recovery makes the keyboard unplug the virtual cable and enter pairing,
    in a recovery the button is ignored; the recovery count is left alone;
    and a poll that finds only connect-button events and end-of-scan-cycle
    markers queues nothing. *)
Theorem pollActivityKey_connect_button (evs : list (Z * Z)) (s : tKbAppState) :
  trace (kbapp_pollActivityKey evs s)
  = trace s ++ (if recoveryInProgress s =? 0 then connect_button_actions evs
                else []) /\
  recoveryInProgress (kbapp_pollActivityKey evs s) = recoveryInProgress s /\
  (Forall connect_or_end_of_scan evs ->
   eventQueue (kbapp_pollActivityKey evs s) = eventQueue s) /\
  (exists added : list HidEvent,
     eventQueue (kbapp_pollActivityKey evs s) = eventQueue s ++ added /\
     Forall not_of_connect_button added) /\
  eventQueue (kbapp_pollActivityKey evs s)
  = eventQueue (kbapp_pollActivityKey (List.filter not_connect_button evs) s).
Proof.
  unfold kbapp_pollActivityKey.
  destruct (pollActivityKey_loop_trace evs true s) as [Ht Hr].
  split; [exact Ht|]. split; [exact Hr|].
  split; [apply pollActivityKey_loop_suppressed|].
  split; [apply pollActivityKey_loop_queue_added|].
  now apply pollActivityKey_loop_queue_filter.
Qed.

(** *** Report generation *)

Lemma idleRateProc_frame (u clk : Z) (s : tKbAppState) :
  eventQueue (kbapp_idleRateProc u clk s) = eventQueue s /\
  recoveryInProgress (kbapp_idleRateProc u clk s) = recoveryInProgress s /\
  pinCodeEntryInProgress (kbapp_idleRateProc u clk s)
  = pinCodeEntryInProgress s.
Proof.
  unfold kbapp_idleRateProc. destruct (_ && _); repeat split.
Qed.

(** The state [kbapp_generateAndTxReports] enters its loop with. *)
Lemma generateAndTxReports_countdown_frame (s : tKbAppState) :
  let s0 :=
    if negb (recoveryInProgress s =? 0) then
      let s1 := set_recoveryInProgress (u8 (recoveryInProgress s - 1)) s in
      if recoveryInProgress s1 =? 0 then kbapp_txModifiedKeyReports s1 else s1
    else s in
  eventQueue s0 = eventQueue s /\
  recoveryInProgress s0
  = (if recoveryInProgress s =? 0 then 0 else u8 (recoveryInProgress s - 1)).
Proof.
  cbn zeta. destruct (Z.eqb_spec (recoveryInProgress s) 0) as [E|E]; cbn [negb].
  - split; [reflexivity|exact E].
  - cbn [recoveryInProgress set_recoveryInProgress].
    destruct (u8 (recoveryInProgress s - 1) =? 0).
    + destruct (txModifiedKeyReports_counters
                  (set_recoveryInProgress (u8 (recoveryInProgress s - 1)) s))
        as (_ & _ & Hr & Hq).
      rewrite Hr, Hq. split; reflexivity.
    + split; reflexivity.
Qed.

Lemma generateAndTxReports_loop_user_event (pool : list Z) (s : tKbAppState)
  (t : Z) (q : list HidEvent) :
  eventQueue s = HID_EVENT_OTHER t :: q ->
  Forall (fun p => p < 80) pool ->
  kbapp_generateAndTxReports_loop pool s = OutOfFuel /\
  forall (p : Z) (pool' : list Z),
    80 <= p -> kbapp_generateAndTxReports_loop (pool ++ p :: pool') s = Done s.
Proof.
  intros Hq H. induction H as [|p0 pool Hp _ IH].
  - split; [reflexivity|]. intros p pool' Hp. cbn.
    destruct (Z.ltb_spec p 80); [lia|reflexivity].
  - cbn [kbapp_generateAndTxReports_loop app].
    destruct (Z.ltb_spec p0 80); [|lia].
    unfold wiced_hidd_event_queue_get_current_element. rewrite Hq.
    cbn [head bind kbapp_procEvtUserDefined]. exact IH.
Qed.

(** X2: while a pin or pass code is being entered, report generation is
    suspended: no event is taken from the queue and the recovery count stands
    still, whatever the buffer pool says; the only report that may go out is
    the pin report, once, when it has changed. *)
Theorem generateAndTxReports_pin_entry_suspends (pool : list Z) (u clk : Z)
  (s : tKbAppState) :
  pinCodeEntryInProgress s <> PIN_ENTRY_MODE_NONE ->
  exists s' : tKbAppState,
    kbapp_generateAndTxReports pool u clk s = Done s' /\
    eventQueue s' = eventQueue s /\
    recoveryInProgress s' = recoveryInProgress s /\
    pinRptChanged s' = false /\
    trace s'
    = trace s ++ (if pinRptChanged s then [TxPinRpt (pinReport s)] else []).
Proof.
  intros Hpin. unfold kbapp_generateAndTxReports.
  destruct (Z.eqb_spec (pinCodeEntryInProgress s) PIN_ENTRY_MODE_NONE)
    as [E|_]; [contradiction|].
  cbn [negb]. eexists. split; [reflexivity|].
  destruct (pinRptChanged s) eqn:Ec.
  - repeat split.
  - rewrite app_nil_r. repeat split. exact Ec.
Qed.

(** X3: outside pin entry, an event at the head of the queue that is
    neither a key, a scroll nor an overflow event stops the loop of
    [kbapp_generateAndTxReports] from getting on: [kbapp_procEvtUserDefined]
    does not remove it, so the loop is still running after any number of
    readings of the buffer pool below 80; it ends only at the first reading
    of 80 or more, and the event is still at the head of the queue then. *)
Theorem generateAndTxReports_user_event_stalls (pool : list Z) (u clk t : Z)
  (q : list HidEvent) (s : tKbAppState) :
  pinCodeEntryInProgress s = PIN_ENTRY_MODE_NONE ->
  eventQueue s = HID_EVENT_OTHER t :: q ->
  Forall (fun p => p < 80) pool ->
  kbapp_generateAndTxReports pool u clk s = OutOfFuel /\
  forall (p : Z) (pool' : list Z),
    80 <= p ->
    exists s' : tKbAppState,
      kbapp_generateAndTxReports (pool ++ p :: pool') u clk s = Done s' /\
      eventQueue s' = HID_EVENT_OTHER t :: q.
Proof.
  intros Hpin Hq Hpool. unfold kbapp_generateAndTxReports.
  rewrite Hpin, Z.eqb_refl. cbn [negb].
  destruct (generateAndTxReports_countdown_frame s) as [Hq0 _].
  cbn zeta in Hq0. rewrite Hq in Hq0.
  destruct (generateAndTxReports_loop_user_event pool _ t q Hq0 Hpool)
    as [Hstall Hend].
  split.
  - rewrite Hstall. reflexivity.
  - intros p pool' Hp. rewrite (Hend p pool' Hp). cbn [bind].
    eexists. split; [reflexivity|].
    rewrite (proj1 (idleRateProc_frame u clk _)). exact Hq0.
Qed.

(** X4: when the buffer pool is at 80 or more at the first reading, a poll
    processes no event, but a recovery in progress still counts down. *)
Theorem generateAndTxReports_congested (p : Z) (pool : list Z) (u clk : Z)
  (s : tKbAppState) :
  pinCodeEntryInProgress s = PIN_ENTRY_MODE_NONE ->
  80 <= p ->
  exists s' : tKbAppState,
    kbapp_generateAndTxReports (p :: pool) u clk s = Done s' /\
    eventQueue s' = eventQueue s /\
    recoveryInProgress s'
    = (if recoveryInProgress s =? 0 then 0 else u8 (recoveryInProgress s - 1)).
Proof.
  intros Hpin Hp. unfold kbapp_generateAndTxReports.
  rewrite Hpin, Z.eqb_refl. cbn [negb].
  destruct (generateAndTxReports_countdown_frame s) as [Hq0 Hr0].
  cbn zeta in Hq0, Hr0.
  cbn [kbapp_generateAndTxReports_loop].
  destruct (Z.ltb_spec p 80); [lia|]. cbn [bind].
  eexists. split; [reflexivity|].
  destruct (idleRateProc_frame u clk
              (if negb (recoveryInProgress s =? 0)
               then
                 if recoveryInProgress
                      (set_recoveryInProgress (u8 (recoveryInProgress s - 1)) s)
                    =? 0
                 then kbapp_txModifiedKeyReports
                        (set_recoveryInProgress
                           (u8 (recoveryInProgress s - 1)) s)
                 else set_recoveryInProgress (u8 (recoveryInProgress s - 1)) s
               else s)) as (Hq1 & Hr1 & _).
  rewrite Hq1, Hr1. split; [exact Hq0|exact Hr0].
Qed.

(** *** Flushing and transmitting *)

Lemma clearAllReports_fields (s : tKbAppState) :
  let s' := kbapp_clearAllReports s in
  keysInStdRpt s' = 0 /\
  modKeysInStdRpt s' = 0 /\
  keysInBitRpt s' = 0 /\
  sleepVal (slpRpt s') = 0 /\
  stdRptChanged s' = false /\
  bitRptChanged s' = false /\
  slpRptChanged s' = false /\
  funcLockRptChanged s' = false /\
  scrollRptChanged s' = false /\
  pinRptChanged s' = false /\
  eventQueue s' = eventQueue s /\
  recoveryInProgress s' = recoveryInProgress s /\
  scrollFractional s' = scrollFractional s /\
  funcLockInfo s' = funcLockInfo s /\
  funcLockRpt s' = funcLockRpt s /\
  pinCodeEntryInProgress s' = pinCodeEntryInProgress s /\
  kbapp_protocol s' = kbapp_protocol s /\
  trace s' = trace s.
Proof. cbn. repeat split. Qed.

Lemma flushUserInput_fields (s : tKbAppState) :
  let s' := kbapp_flushUserInput s in
  keysInStdRpt s' = 0 /\
  modKeysInStdRpt s' = 0 /\
  keysInBitRpt s' = 0 /\
  sleepVal (slpRpt s') = 0 /\
  stdRptChanged s' = false /\
  bitRptChanged s' = false /\
  slpRptChanged s' = false /\
  funcLockRptChanged s' = false /\
  scrollRptChanged s' = false /\
  pinRptChanged s' = false /\
  eventQueue s' = [] /\
  recoveryInProgress s' = 0 /\
  scrollFractional s' = 0 /\
  funcLockInfo s' = funcLockInfo s /\
  funcLockRpt s' = funcLockRpt s /\
  pinCodeEntryInProgress s' = pinCodeEntryInProgress s /\
  kbapp_protocol s' = kbapp_protocol s /\
  trace s' = trace s.
Proof. cbn. repeat split. Qed.

(** Nothing is marked as changed: nothing is sent. *)
Lemma txModifiedKeyReports_clean (s : tKbAppState) :
  stdRptChanged s = false ->
  (kbapp_protocol s = PROTOCOL_REPORT ->
   bitRptChanged s = false /\
   slpRptChanged s = false /\
   funcLockRptChanged s = false /\
   scrollRptChanged s = false) ->
  kbapp_txModifiedKeyReports s = s.
Proof.
  intros Hstd Hrest. unfold kbapp_txModifiedKeyReports.
  destruct (recoveryInProgress s =? 0); [|reflexivity].
  rewrite Hstd.
  destruct (Z.eqb_spec (kbapp_protocol s) PROTOCOL_REPORT) as [E|E];
    [|reflexivity].
  destruct (Hrest E) as (-> & -> & -> & ->). reflexivity.
Qed.

(** X5: flushing the user input leaves nothing to report.  The event queue
    is empty, the recovery is over, the scroll remainder is gone, no report
    is marked as changed, so that the transmit function sends nothing, and a
    poll that finds no new hardware activity reports no activity; the
    func-lock state and its report are kept. *)
Theorem flushUserInput_leaves_nothing_to_report (s : tKbAppState) :
  let s' := kbapp_flushUserInput s in
  eventQueue s' = [] /\
  recoveryInProgress s' = 0 /\
  scrollFractional s' = 0 /\
  kbapp_txModifiedKeyReports s' = s' /\
  trace s' = trace s /\
  funcLockInfo s' = funcLockInfo s /\
  funcLockRpt s' = funcLockRpt s /\
  (pinCodeEntryInProgress s = PIN_ENTRY_MODE_NONE ->
   exists s'' : tKbAppState,
     kbapp_pollActivityUser [] 0 s' = Done (BTHIDLINK_ACTIVITY_NONE, s'') /\
     eventQueue s'' = [] /\
     trace s'' = trace s).
Proof.
  cbn zeta.
  destruct (flushUserInput_fields s)
    as (Hk & Hm & Hb & Hsl & Hc1 & Hc2 & Hc3 & Hc4 & Hc5 & _ & Hq & Hr & Hf
        & Hfl & Hfr & Hpin & _ & Ht).
  cbn zeta in *.
  split; [exact Hq|]. split; [exact Hr|]. split; [exact Hf|].
  split; [apply txModifiedKeyReports_clean; [exact Hc1|repeat split; assumption]|].
  split; [exact Ht|]. split; [exact Hfl|]. split; [exact Hfr|].
  intros Hnone. unfold kbapp_pollActivityUser, kbapp_pollActivityKey.
  cbn [kbapp_pollActivityKey_loop].
  generalize dependent (kbapp_flushUserInput s). intros s' Hk Hm Hb Hsl _ _ _ _ _ Hq Hr Hf _ _ Hpin Ht.
  assert (Hs : let s1 := kbapp_pollActivityScroll 0 s' in
               eventQueue s1 = eventQueue s' /\
               keysInStdRpt s1 = keysInStdRpt s' /\
               modKeysInStdRpt s1 = modKeysInStdRpt s' /\
               keysInBitRpt s1 = keysInBitRpt s' /\
               slpRpt s1 = slpRpt s' /\
               pinCodeEntryInProgress s1 = pinCodeEntryInProgress s' /\
               trace s1 = trace s').
  { unfold kbapp_pollActivityScroll. cbn [Z.eqb negb].
    destruct (negb _); [|repeat split].
    cbn. destruct (_ <=? _); repeat split. }
  cbn zeta in Hs. destruct Hs as (Hq1 & Hk1 & Hm1 & Hb1 & Hsl1 & Hp1 & Ht1).
  exists (kbapp_pollActivityScroll 0 s').
  split; [|rewrite Hq1, Ht1; split; assumption].
  rewrite Hp1, Hpin, Hnone, Z.eqb_refl. cbn [negb].
  unfold wiced_hidd_event_queue_get_num_elements.
  rewrite Hq1, Hq, Hm1, Hm, Hk1, Hk, Hb1, Hb, Hsl1, Hsl. reflexivity.
Qed.

Lemma txModifiedKeyReports_flags (s : tKbAppState) :
  recoveryInProgress s = 0 ->
  let s' := kbapp_txModifiedKeyReports s in
  stdRptChanged s' = false /\
  kbapp_protocol s' = kbapp_protocol s /\
  (kbapp_protocol s = PROTOCOL_REPORT ->
   bitRptChanged s' = false /\
   slpRptChanged s' = false /\
   funcLockRptChanged s' = false /\
   scrollRptChanged s' = false).
Proof.
  intros Hr. cbn zeta. unfold kbapp_txModifiedKeyReports. rewrite Hr.
  cbn [Z.eqb].
  destruct (stdRptChanged s) eqn:E1; cbn;
    (destruct (Z.eqb_spec (kbapp_protocol s) PROTOCOL_REPORT) as [Ep|Ep];
     [|split; [assumption || reflexivity|split; [reflexivity|contradiction]]]);
    destruct (bitRptChanged s) eqn:E2; cbn;
    destruct (slpRptChanged s) eqn:E3; cbn;
    destruct (funcLockRptChanged s) eqn:E4; cbn;
    destruct (scrollRptChanged s) eqn:E5; cbn;
    unfold kbapp_scrollRptSend, kbapp_funcLockRptSend, kbapp_slpRptSend,
      kbapp_bitRptSend, kbapp_stdRptSend, emit; cbn;
    try destruct (host_transport s); cbn;
    repeat split; assumption.
Qed.

(** X6: a changed report is sent once.  After [kbapp_txModifiedKeyReports]
    ran outside a recovery the standard report is not marked as changed any
    more, nor is, in report protocol, any of the bit-mapped, sleep, func-lock
    and scroll reports; a second call does nothing. *)
Theorem txModifiedKeyReports_sends_once (s : tKbAppState) :
  kbapp_txModifiedKeyReports (kbapp_txModifiedKeyReports s)
  = kbapp_txModifiedKeyReports s /\
  (recoveryInProgress s = 0 ->
   stdRptChanged (kbapp_txModifiedKeyReports s) = false /\
   (kbapp_protocol s = PROTOCOL_REPORT ->
    bitRptChanged (kbapp_txModifiedKeyReports s) = false /\
    slpRptChanged (kbapp_txModifiedKeyReports s) = false /\
    funcLockRptChanged (kbapp_txModifiedKeyReports s) = false /\
    scrollRptChanged (kbapp_txModifiedKeyReports s) = false)).
Proof.
  destruct (Z.eq_dec (recoveryInProgress s) 0) as [Hr|Hr].
  - destruct (txModifiedKeyReports_flags s Hr) as (Hstd & Hp & Hrest).
    cbn zeta in *. split.
    + apply txModifiedKeyReports_clean; [exact Hstd|].
      intros E. apply Hrest. now rewrite <- Hp.
    + intros _. split; [exact Hstd|exact Hrest].
  - split; [|contradiction].
    now rewrite !(txModifiedKeyReports_recovery s Hr).
Qed.

(** X7: the switch from boot to report protocol made by
    [kbapp_setProtocol], followed by a transmission.  The standard and
    func-lock reports that wait to be sent go out as they are; a bit-mapped
    or sleep report that was modified in boot protocol goes out cleared; a
    scroll report that waited is dropped. *)
Theorem boot_to_report_switch_sends_cleared_reports (s : tKbAppState) :
  kbapp_protocol s = PROTOCOL_BOOT ->
  recoveryInProgress s = 0 ->
  trace (kbapp_txModifiedKeyReports
           (kbapp_setProtocol HID_PAR_PROTOCOL_REPORT s))
  = trace s
      ++ (if stdRptChanged s then [TxStdRpt (stdRpt s)] else [])
      ++ (if bitRptChanged s
          then [TxBitRpt
                  (mkBitRpt (bitReportID kbAppConfig)
                     (replicate (length (bitMappedKeys (bitMappedReport s)))
                        0))]
          else [])
      ++ (if slpRptChanged s
          then [TxSlpRpt (mkSlpRpt (sleepReportID kbAppConfig) 0)]
          else [])
      ++ (if funcLockRptChanged s then [TxFuncLockRpt (funcLockRpt s)]
          else []).
Proof.
  intros Hp Hr. unfold kbapp_setProtocol. rewrite Hp.
  change (negb (PROTOCOL_BOOT =? HID_PAR_PROTOCOL_REPORT)
          && (HID_PAR_PROTOCOL_REPORT =? HID_PAR_PROTOCOL_REPORT)) with true.
  cbv iota. unfold kbapp_txModifiedKeyReports. cbn. rewrite Hr. cbn.
  destruct (stdRptChanged s) eqn:E1; cbn;
    destruct (bitRptChanged s) eqn:E2; cbn;
    destruct (slpRptChanged s) eqn:E3; cbn;
    destruct (funcLockRptChanged s) eqn:E4; cbn;
    rewrite <- ?app_assoc; cbn; rewrite ?app_nil_r; reflexivity.
Qed.

(** *** Polls without scroll activity *)

Lemma scroll_run_cons (d : Z) (ds : list Z) (s : tKbAppState) :
  scroll_run (d :: ds) s = scroll_run ds (kbapp_pollActivityScroll d s).
Proof. reflexivity. Qed.

Lemma pollActivityScroll_idle (s : tKbAppState) :
  kbapp_pollActivityScroll 0 s
  = if negb (pollsToKeepFracScrollData kbAppConfig =? 0) then
      if pollsToKeepFracScrollData kbAppConfig <=? u8 (pollsSinceScroll s + 1)
      then set_pollsSinceScroll 0
             (set_scrollFractional 0
                (set_pollsSinceScroll (u8 (pollsSinceScroll s + 1)) s))
      else set_pollsSinceScroll (u8 (pollsSinceScroll s + 1)) s
    else s.
Proof. reflexivity. Qed.

Lemma pollActivityScroll_idle_queue (s : tKbAppState) :
  eventQueue (kbapp_pollActivityScroll 0 s) = eventQueue s /\
  trace (kbapp_pollActivityScroll 0 s) = trace s.
Proof.
  rewrite pollActivityScroll_idle.
  destruct (negb _); [|split; reflexivity].
  destruct (_ <=? _); split; reflexivity.
Qed.

Lemma scroll_run_idle_keeps (k : nat) (s : tKbAppState) :
  0 <= pollsSinceScroll s ->
  pollsSinceScroll s + Z.of_nat k < pollsToKeepFracScrollData kbAppConfig ->
  pollsToKeepFracScrollData kbAppConfig <= 256 ->
  scrollFractional (scroll_run (replicate k 0) s) = scrollFractional s /\
  pollsSinceScroll (scroll_run (replicate k 0) s)
  = pollsSinceScroll s + Z.of_nat k.
Proof.
  revert s. induction k as [|k IH]; intros s H0 Hk HN.
  - cbn. split; [reflexivity|lia].
  - cbn [replicate]. rewrite scroll_run_cons, pollActivityScroll_idle.
    destruct (Z.eqb_spec (pollsToKeepFracScrollData kbAppConfig) 0); [lia|].
    cbn [negb]. rewrite (u8_small (pollsSinceScroll s + 1)) by lia.
    destruct (Z.leb_spec (pollsToKeepFracScrollData kbAppConfig)
                (pollsSinceScroll s + 1)); [lia|].
    assert (H1 : 0 <= pollsSinceScroll
                       (set_pollsSinceScroll (pollsSinceScroll s + 1) s))
      by (cbn [pollsSinceScroll set_pollsSinceScroll]; lia).
    assert (H2 : pollsSinceScroll
                   (set_pollsSinceScroll (pollsSinceScroll s + 1) s)
                 + Z.of_nat k < pollsToKeepFracScrollData kbAppConfig)
      by (cbn [pollsSinceScroll set_pollsSinceScroll]; lia).
    destruct (IH _ H1 H2 HN) as [Hf Hp].
    rewrite Hf, Hp. cbn [pollsSinceScroll set_pollsSinceScroll scrollFractional].
    split; [reflexivity|lia].
Qed.

(** X8: the remainder of the scroll scaling is forgotten after the
    configured number of polls without scroll activity, and not before; a
    configured number of zero keeps it for ever.  Polls without scroll
    activity queue no event. *)
Theorem scroll_remainder_discarded_after_idle_polls (s : tKbAppState) :
  (pollsToKeepFracScrollData kbAppConfig = 0 ->
   forall n : nat, scroll_run (replicate n 0) s = s) /\
  (0 < pollsToKeepFracScrollData kbAppConfig < 256 ->
   pollsSinceScroll s = 0 ->
   (forall k : nat,
      Z.of_nat k < pollsToKeepFracScrollData kbAppConfig ->
      scrollFractional (scroll_run (replicate k 0) s) = scrollFractional s /\
      pollsSinceScroll (scroll_run (replicate k 0) s) = Z.of_nat k) /\
   scrollFractional
     (scroll_run
        (replicate (Z.to_nat (pollsToKeepFracScrollData kbAppConfig)) 0) s)
   = 0 /\
   pollsSinceScroll
     (scroll_run
        (replicate (Z.to_nat (pollsToKeepFracScrollData kbAppConfig)) 0) s)
   = 0) /\
  (forall n : nat,
     eventQueue (scroll_run (replicate n 0) s) = eventQueue s).
Proof.
  split; [|split].
  - intros HN n. revert s. induction n as [|n IH]; intros s; [reflexivity|].
    cbn [replicate]. rewrite scroll_run_cons, pollActivityScroll_idle, HN.
    cbn [Z.eqb negb]. apply IH.
  - intros HN Hp. split.
    + intros k Hk.
      destruct (scroll_run_idle_keeps k s) as [Hf Hc]; lia.
    + assert (Hn : Z.to_nat (pollsToKeepFracScrollData kbAppConfig)
                   = (Z.to_nat (pollsToKeepFracScrollData kbAppConfig - 1)
                      + 1)%nat) by lia.
      rewrite Hn, replicate_add. unfold scroll_run at 1 2.
      rewrite !fold_left_app. fold (scroll_run
        (replicate (Z.to_nat (pollsToKeepFracScrollData kbAppConfig - 1)) 0) s).
      destruct (scroll_run_idle_keeps
                  (Z.to_nat (pollsToKeepFracScrollData kbAppConfig - 1)) s
                  ltac:(lia) ltac:(lia) ltac:(lia))
        as [Hf Hc].
      cbn [replicate fold_left]. rewrite pollActivityScroll_idle.
      destruct (Z.eqb_spec (pollsToKeepFracScrollData kbAppConfig) 0); [lia|].
      cbn [negb]. rewrite Hc, Hp.
      rewrite u8_small by lia.
      destruct (Z.leb_spec (pollsToKeepFracScrollData kbAppConfig)
                  (0 + Z.of_nat
                         (Z.to_nat
                            (pollsToKeepFracScrollData kbAppConfig - 1)) + 1));
        [|lia].
      split; reflexivity.
  - intros n. revert s. induction n as [|n IH]; intros s; [reflexivity|].
    cbn [replicate]. rewrite scroll_run_cons, IH.
    apply pollActivityScroll_idle_queue.
Qed.

(** *** Modifier keys and sleep keys *)

Lemma testbit_pow2_nat (j : Z) (p : nat) :
  0 <= j -> Z.testbit (2 ^ j) (Z.of_nat p) = (p =? Z.to_nat j)%nat.
Proof.
  intros Hj. rewrite Z.pow2_bits_eqb by exact Hj.
  destruct (Z.eqb_spec j (Z.of_nat p)) as [E|E];
    destruct (Nat.eqb_spec p (Z.to_nat j)) as [E'|E']; try reflexivity; lia.
Qed.

Lemma mod_bits_set (m j : Z) :
  0 <= j < 8 -> Z.testbit m j = false ->
  mod_bits (Z.lor m (2 ^ j)) = mod_bits m + 1.
Proof.
  intros Hj Hb. unfold mod_bits.
  rewrite (count_upto_set (fun i : nat => Z.testbit m (Z.of_nat i))
             (fun i : nat => Z.testbit (Z.lor m (2 ^ j)) (Z.of_nat i))
             (Z.to_nat j) 8).
  - destruct (Nat.ltb_spec (Z.to_nat j) 8); lia.
  - cbv beta. rewrite Z2Nat.id by lia. exact Hb.
  - intros p. cbv beta. rewrite Z.lor_spec, testbit_pow2_nat by lia.
    apply orb_comm.
Qed.

Lemma mod_bits_clear (m j : Z) :
  0 <= j < 8 -> Z.testbit m j = true ->
  mod_bits (Z.land m (Z.lnot (2 ^ j))) = mod_bits m - 1 /\ 1 <= mod_bits m.
Proof.
  intros Hj Hb. unfold mod_bits.
  pose proof (count_upto_clear (fun i : nat => Z.testbit m (Z.of_nat i))
             (fun i : nat => Z.testbit (Z.land m (Z.lnot (2 ^ j))) (Z.of_nat i))
             (Z.to_nat j) 8) as H.
  cbv beta in H. rewrite Z2Nat.id in H by lia.
  specialize (H Hb).
  assert (Hg : forall p : nat,
             Z.testbit (Z.land m (Z.lnot (2 ^ j))) (Z.of_nat p)
             = Z.testbit m (Z.of_nat p) && negb (p =? Z.to_nat j)%nat).
  { intros p. rewrite Z.land_spec, Z.lnot_spec, testbit_pow2_nat by lia.
    reflexivity. }
  specialize (H Hg).
  destruct (Nat.ltb_spec (Z.to_nat j) 8); lia.
Qed.

Lemma mod_bits_le (m : Z) : 0 <= mod_bits m <= 8.
Proof.
  unfold mod_bits.
  pose proof (count_upto_le (fun i : nat => Z.testbit m (Z.of_nat i)) 8).
  lia.
Qed.

(** X9: the count of modifier keys held down is the number of bits set in
    the modifier byte, as long as every modifier key has a mask of one bit.
    A modifier event sets or clears the bit of its key and no other, leaves
    the key codes alone, and marks the standard report as changed exactly
    when the bit changes; a repeated event changes nothing. *)
Theorem modKeys_counter_matches_bits (s : tKbAppState) (f k j : Z) :
  0 <= j < 8 ->
  modKeysInStdRpt s = mod_bits (modifierKeys (stdRpt s)) ->
  let s' := kbapp_stdRptProcEvtModKey f k (2 ^ j) s in
  modKeysInStdRpt s' = mod_bits (modifierKeys (stdRpt s')) /\
  Z.testbit (modifierKeys (stdRpt s')) j = (f =? KEY_DOWN) /\
  (forall i : Z,
     i <> j ->
     Z.testbit (modifierKeys (stdRpt s')) i
     = Z.testbit (modifierKeys (stdRpt s)) i) /\
  keyCodes (stdRpt s') = keyCodes (stdRpt s) /\
  (Z.testbit (modifierKeys (stdRpt s)) j = (f =? KEY_DOWN) -> s' = s) /\
  (Z.testbit (modifierKeys (stdRpt s)) j <> (f =? KEY_DOWN) ->
   stdRptChanged s' = true).
Proof.
  intros Hj Hinv. cbn zeta. unfold kbapp_stdRptProcEvtModKey.
  rewrite land_pow2_eq0 by lia.
  pose proof (mod_bits_le (modifierKeys (stdRpt s))) as Hle.
  destruct (f =? KEY_DOWN);
    destruct (Z.testbit (modifierKeys (stdRpt s)) j) eqn:Eb; cbn [negb].
  - repeat split; try assumption; try reflexivity. intros H; now elim H.
  - cbn. rewrite Hinv, mod_bits_set by assumption.
    rewrite u8_small by lia. split; [reflexivity|].
    split; [rewrite Z.lor_spec, Z.pow2_bits_eqb, Z.eqb_refl by lia;
            apply orb_true_r|].
    split.
    { intros i Hi. rewrite Z.lor_spec.
      destruct (Z.neg_nonneg_cases i) as [Hn|Hn].
      - now rewrite !Z.testbit_neg_r by exact Hn.
      - rewrite Z.pow2_bits_eqb by lia.
        destruct (Z.eqb_spec j i); [congruence|apply orb_false_r]. }
    split; [reflexivity|]. split; [discriminate|reflexivity].
  - destruct (mod_bits_clear (modifierKeys (stdRpt s)) j Hj Eb) as [Hc H1].
    cbn. rewrite Hinv, Hc. rewrite u8_small by lia.
    split; [reflexivity|].
    split; [rewrite Z.land_spec, Z.lnot_spec, Z.pow2_bits_eqb, Z.eqb_refl
              by lia; apply andb_false_r|].
    split.
    { intros i Hi. rewrite Z.land_spec.
      destruct (Z.neg_nonneg_cases i) as [Hn|Hn].
      - now rewrite !Z.testbit_neg_r by exact Hn.
      - rewrite Z.lnot_spec, Z.pow2_bits_eqb by lia.
        destruct (Z.eqb_spec j i); [congruence|apply andb_true_r]. }
    split; [reflexivity|]. split; [discriminate|reflexivity].
  - repeat split; try assumption; try reflexivity. intros H; now elim H.
Qed.

Lemma land_lor_same (v m : Z) : Z.land v m = 0 -> Z.land (Z.lor v m) m = m.
Proof.
  intros H. rewrite Z.land_lor_distr_l, H, Z.land_diag. apply Z.lor_0_l.
Qed.

Lemma land_lor_lnot (v m : Z) :
  Z.land v m = 0 -> Z.land (Z.lor v m) (Z.lnot m) = v.
Proof.
  intros H. apply Z.bits_inj'. intros n Hn.
  rewrite Z.land_spec, Z.lor_spec, Z.lnot_spec by exact Hn.
  assert (Hb : Z.testbit v n && Z.testbit m n = false).
  { rewrite <- Z.land_spec, H. apply Z.bits_0. }
  destruct (Z.testbit v n), (Z.testbit m n); try reflexivity; discriminate.
Qed.

(** X10: a sleep key that goes down and up again leaves the sleep value as
    it was.  The key-down sets the bits of its mask and marks the sleep
    report as changed, the key-up clears them and marks it again; an event
    that repeats the state the key is in changes nothing. *)
Theorem slpRpt_key_down_up_round_trip (s : tKbAppState) (k m : Z) :
  m <> 0 ->
  Z.land (sleepVal (slpRpt s)) m = 0 ->
  let s1 := kbapp_slpRptProcEvtKey KEY_DOWN k m s in
  let s2 := kbapp_slpRptProcEvtKey KEY_UP k m s1 in
  sleepVal (slpRpt s1) = Z.lor (sleepVal (slpRpt s)) m /\
  slpRptChanged s1 = true /\
  kbapp_slpRptProcEvtKey KEY_DOWN k m s1 = s1 /\
  sleepVal (slpRpt s2) = sleepVal (slpRpt s) /\
  slpRptChanged s2 = true /\
  kbapp_slpRptProcEvtKey KEY_UP k m s2 = s2 /\
  kbapp_slpRptProcEvtKey KEY_UP k m s = s.
Proof.
  intros Hm H0. cbn zeta.
  assert (E1 : kbapp_slpRptProcEvtKey KEY_DOWN k m s
               = set_slpRptChanged true
                   (set_sleepVal (Z.lor (sleepVal (slpRpt s)) m) s)).
  { unfold kbapp_slpRptProcEvtKey. cbn [KEY_DOWN Z.eqb]. now rewrite H0. }
  rewrite E1.
  assert (E2 : kbapp_slpRptProcEvtKey KEY_UP k m
                 (set_slpRptChanged true
                    (set_sleepVal (Z.lor (sleepVal (slpRpt s)) m) s))
               = set_slpRptChanged true
                   (set_sleepVal (sleepVal (slpRpt s))
                      (set_slpRptChanged true
                         (set_sleepVal (Z.lor (sleepVal (slpRpt s)) m) s)))).
  { unfold kbapp_slpRptProcEvtKey. cbn [KEY_UP KEY_DOWN Z.eqb].
    cbn [slpRpt set_slpRptChanged set_sleepVal set_slpRpt sleepVal].
    rewrite land_lor_same, land_lor_lnot by exact H0.
    destruct (Z.eqb_spec m 0); [contradiction|]. reflexivity. }
  rewrite E2.
  split; [reflexivity|]. split; [reflexivity|].
  split.
  { unfold kbapp_slpRptProcEvtKey. cbn [KEY_DOWN Z.eqb].
    cbn [slpRpt set_slpRptChanged set_sleepVal set_slpRpt sleepVal].
    rewrite land_lor_same by exact H0.
    destruct (Z.eqb_spec m 0); [contradiction|]. reflexivity. }
  split; [reflexivity|]. split; [reflexivity|].
  split.
  - unfold kbapp_slpRptProcEvtKey. cbn [KEY_UP KEY_DOWN Z.eqb].
    cbn [slpRpt set_slpRptChanged set_sleepVal set_slpRpt sleepVal].
    now rewrite H0.
  - unfold kbapp_slpRptProcEvtKey. cbn [KEY_UP KEY_DOWN Z.eqb].
    now rewrite H0.
Qed.

(** *** The key dispatcher *)


Lemma stdErrRespWithFwHwReset_reports (s : tKbAppState) :
  let s' := kbapp_stdErrRespWithFwHwReset s in
  keysInBitRpt s' = 0 /\
  sleepVal (slpRpt s') = 0 /\
  keyCodes (stdRpt s') = replicate (length (keyCodes (stdRpt s))) 0 /\
  modifierKeys (stdRpt s') = 0 /\
  bitMappedKeys (bitMappedReport s')
  = replicate (length (bitMappedKeys (bitMappedReport s))) 0 /\
  kepPosition (funcLockInfo s') = FUNC_LOCK_KEY_UP /\
  state (funcLockInfo s') = state (funcLockInfo s) /\
  toggleStateOnKeyUp (funcLockInfo s') = toggleStateOnKeyUp (funcLockInfo s) /\
  scrollFractional s' = scrollFractional s.
Proof.
  unfold kbapp_stdErrRespWithFwHwReset, kbapp_stdErrResp. cbn.
  destruct (recoveryInProgress s =? 0); cbn; repeat split.
Qed.




(** X12: the end-of-scan-cycle marker closes one scan cycle.  With the
    marker at the head of the queue, [kbapp_procEvtKey] transmits the
    modified reports, tells the link layer about the activity, removes the
    marker and returns: the events behind it stay queued for the next
    call. *)
Theorem procEvtKey_end_of_scan_cycle (s : tKbAppState) (f : Z)
  (q : list HidEvent) :
  eventQueue s = HID_EVENT_KEY_STATE_CHANGE END_OF_SCAN_CYCLE f :: q ->
  kbKeyConfig_size <= END_OF_SCAN_CYCLE ->
  KB_MAX_KEYS <= END_OF_SCAN_CYCLE ->
  exists s' : tKbAppState,
    kbapp_procEvtKey s = Done s' /\
    eventQueue s' = q /\
    trace s' = trace (kbapp_txModifiedKeyReports s) ++ [ActivityDetected] /\
    stdRpt s' = stdRpt s /\
    keysInStdRpt s' = keysInStdRpt s /\
    modKeysInStdRpt s' = modKeysInStdRpt s /\
    recoveryInProgress s' = recoveryInProgress s.
Proof.
  intros Hq Hsize Hmax. unfold kbapp_procEvtKey. cbn [kbapp_procEvtKey_loop].
  unfold wiced_hidd_event_queue_get_current_element at 1.
  rewrite Hq. cbn [head].
  destruct (Z.ltb_spec END_OF_SCAN_CYCLE kbKeyConfig_size); [lia|].
  rewrite Z.eqb_refl.
  destruct (Z.ltb_spec END_OF_SCAN_CYCLE KB_MAX_KEYS); [lia|].
  eexists. split; [reflexivity|].
  destruct (txModifiedKeyReports_counters s) as (Hk & Hm & Hr & Hq').
  cbn. rewrite Hq', Hq, Hk, Hm, Hr. cbn [tail].
  repeat split.
  unfold kbapp_txModifiedKeyReports.
  destruct (recoveryInProgress s =? 0); [|reflexivity].
  destruct (stdRptChanged s); cbn;
    (destruct (kbapp_protocol s =? PROTOCOL_REPORT); [|reflexivity]);
    destruct (bitRptChanged s); cbn;
    destruct (slpRptChanged s); cbn;
    destruct (funcLockRptChanged s); cbn;
    destruct (scrollRptChanged s); cbn;
    unfold kbapp_scrollRptSend; cbn;
    try destruct (host_transport s); reflexivity.
Qed.

(** *** Pin and pass code entry *)

Lemma wf_pin_same (s s' : tKbAppState) :
  same_pin_entry s s' -> wf_pin s -> wf_pin s'.
Proof.
  unfold wf_pin. intros (-> & -> & -> & -> & _ & _). trivial.
Qed.

Lemma land_1_cases (x : Z) : Z.land x 1 = 0 \/ Z.land x 1 = 1.
Proof.
  assert (E : Z.land x 1 = x mod 2) by (apply (Z.land_ones x 1); lia).
  rewrite E. pose proof (Z.mod_pos_bound x 2). lia.
Qed.

Lemma pinEntryEvent_same (keyEntry : Z) (s : tKbAppState) :
  0 <= keyEntry < KEY_ENTRY_EVENT_MAX ->
  exists s' : tKbAppState,
    kbapp_pinEntryEvent keyEntry s = Done s' /\ same_pin_entry s s'.
Proof.
  intros Hk. unfold kbapp_pinEntryEvent.
  destruct (negb _ && _); [|exists s; repeat split].
  assert (Hrow : exists row : list Z,
             rd pinCodeEventTransTab (Z.land (pinCodeEntryInProgress s) 1)
             = Done row /\ length row = 5%nat).
  { destruct (land_1_cases (pinCodeEntryInProgress s)) as [-> | ->];
      eexists; split; reflexivity. }
  destruct Hrow as (row & -> & Hlen). cbn [bind].
  destruct (rd_in_range row keyEntry) as (c & -> & _).
  { rewrite Hlen. unfold KEY_ENTRY_EVENT_MAX in Hk. lia. }
  cbn [bind].
  destruct (_ =? LEGACY_PIN_ENTRY_IN_PROGRESS).
  - destruct (negb _); eexists; (split; [reflexivity|repeat split]).
  - destruct (_ =? PASS_KEY_ENTRY_IN_PROGRESS);
      eexists; (split; [reflexivity|repeat split]).
Qed.

Lemma handlePinEntry_switch_safe (usbUsageCode : Z) (s : tKbAppState) :
  wf_pin s ->
  exists s' : tKbAppState,
    kbapp_handlePinEntry_switch usbUsageCode s = Done s' /\
    wf_pin s' /\
    eventQueue s' = eventQueue s /\
    pinCodeEntryInProgress s' = pinCodeEntryInProgress s /\
    maxPinCodeSize s' = maxPinCodeSize s /\
    length (pinCodeBuffer s') = length (pinCodeBuffer s).
Proof.
  intros Hwf. pose proof Hwf as (Hsz & Hmax & H255 & Hterm).
  unfold kbapp_handlePinEntry_switch.
  destruct (_ || _).
  { (* backspace, delete *)
    destruct (Z.eqb_spec (pinCodeSize s) 0) as [E|E]; cbn [negb].
    - exists s. split; [reflexivity|]. split; [exact Hwf|]. repeat split.
    - destruct (pinEntryEvent_same KEY_ENTRY_EVENT_BACKSPACE
                  (set_pinCodeSize (u8 (pinCodeSize s - 1)) s))
        as (s' & -> & Hsame); [cbv; split; congruence|].
      exists s'. split; [reflexivity|].
      pose proof Hsame as (Hs & Hm & Hb & Hp & _ & Hq).
      cbn in Hs, Hm, Hb, Hp, Hq.
      rewrite u8_small in Hs by lia.
      split.
      + unfold wf_pin. rewrite Hs, Hm, Hb, Hp.
        repeat split; try assumption; lia.
      + rewrite Hq, Hp, Hm, Hb. repeat split. }
  destruct (_ =? USB_USAGE_ESCAPE).
  { destruct (pinEntryEvent_same KEY_ENTRY_EVENT_RESTART
                (set_pinCodeSize 0 s))
      as (s' & -> & Hsame); [cbv; split; congruence|].
    exists s'. split; [reflexivity|].
    pose proof Hsame as (Hs & Hm & Hb & Hp & _ & Hq).
    cbn in Hs, Hm, Hb, Hp, Hq.
    split.
    - unfold wf_pin. rewrite Hs, Hm, Hb, Hp.
      repeat split; try assumption; lia.
    - rewrite Hq, Hp, Hm, Hb. repeat split. }
  destruct (_ || _).
  { eexists. split; [reflexivity|]. split; [exact Hwf|]. repeat split. }
  destruct (negb _);
    [|exists s; split; [reflexivity|]; split; [exact Hwf|]; repeat split].
  destruct (Z.ltb_spec (pinCodeSize s) (maxPinCodeSize s)) as [Hlt|Hge];
    [|exists s; split; [reflexivity|]; split; [exact Hwf|]; repeat split].
  rewrite wr_in_range by lia. cbn [bind].
  match goal with
  | |- exists s', kbapp_pinEntryEvent _ ?t = _ /\ _ =>
      destruct (pinEntryEvent_same KEY_ENTRY_EVENT_CHAR t)
        as (s' & -> & Hsame); [cbv; split; congruence|]
  end.
  exists s'. split; [reflexivity|].
  pose proof Hsame as (Hs & Hm & Hb & Hp & _ & Hq).
  cbn in Hs, Hm, Hb, Hp, Hq.
  rewrite u8_small in Hs by lia.
  split.
  - unfold wf_pin. rewrite Hs, Hm, Hb, Hp, length_insert.
    repeat split; try assumption; lia.
  - rewrite Hq, Hp, Hm, Hb, length_insert. repeat split.
Qed.

Lemma handlePinEntry_complete_safe (s : tKbAppState) :
  wf_pin s ->
  exists s' : tKbAppState,
    kbapp_handlePinEntry_complete s = Done s' /\
    eventQueue s' = [] /\
    pinCodeEntryInProgress s' = PIN_ENTRY_MODE_NONE /\
    pinCodeSize s' = pinCodeSize s /\
    maxPinCodeSize s' = maxPinCodeSize s /\
    length (pinCodeBuffer s') = length (pinCodeBuffer s).
Proof.
  intros (Hsz & Hmax & H255 & Hterm). unfold kbapp_handlePinEntry_complete.
  destruct (Z.eqb_spec (pinCodeEntryInProgress s) LEGACY_PIN_ENTRY_IN_PROGRESS)
    as [E|E].
  - cbn [bind]. eexists. split; [reflexivity|]. cbn. repeat split.
  - destruct (pinEntryEvent_same KEY_ENTRY_EVENT_STOP s)
      as (s1 & -> & Hs & Hm & Hb & Hp & _ & Hq); [cbv; split; congruence|].
    cbn [bind]. rewrite Hb, Hs.
    specialize (Hterm E).
    rewrite wr_in_range by lia. cbn [bind].
    eexists. split; [reflexivity|]. cbn.
    rewrite Hs, Hm, length_insert. repeat split.
Qed.

Lemma handlePinEntry_loop_safe (fuel : nat) (s : tKbAppState) :
  (length (eventQueue s) < fuel)%nat ->
  wf_pin s ->
  key_codes_in_table (eventQueue s) ->
  exists s' : tKbAppState,
    kbapp_handlePinEntry_loop fuel s = Done s' /\
    eventQueue s' = [] /\
    0 <= pinCodeSize s' <= maxPinCodeSize s' /\
    maxPinCodeSize s' = maxPinCodeSize s /\
    length (pinCodeBuffer s') = length (pinCodeBuffer s) /\
    (pinCodeEntryInProgress s' = pinCodeEntryInProgress s \/
     pinCodeEntryInProgress s' = PIN_ENTRY_MODE_NONE).
Proof.
  revert s. induction fuel as [|fuel IH]; intros s Hf Hwf Hq; [lia|].
  cbn [kbapp_handlePinEntry_loop].
  unfold wiced_hidd_event_queue_get_current_element.
  destruct (eventQueue s) as [|e q] eqn:Eq; cbn [head].
  { exists s. split; [reflexivity|]. split; [exact Eq|].
    destruct Hwf as (Hsz & _). repeat split; try lia; auto. }
  assert (Hnext : forall s1 : tKbAppState,
             wf_pin s1 ->
             eventQueue s1 = e :: q ->
             maxPinCodeSize s1 = maxPinCodeSize s ->
             length (pinCodeBuffer s1) = length (pinCodeBuffer s) ->
             pinCodeEntryInProgress s1 = pinCodeEntryInProgress s ->
             exists s' : tKbAppState,
               kbapp_handlePinEntry_loop fuel
                 (wiced_hidd_event_queue_remove_current_element s1) = Done s' /\
               eventQueue s' = [] /\
               0 <= pinCodeSize s' <= maxPinCodeSize s' /\
               maxPinCodeSize s' = maxPinCodeSize s /\
               length (pinCodeBuffer s') = length (pinCodeBuffer s) /\
               (pinCodeEntryInProgress s' = pinCodeEntryInProgress s \/
                pinCodeEntryInProgress s' = PIN_ENTRY_MODE_NONE)).
  { intros s1 Hwf1 Hq1 Hm1 Hl1 Hp1.
    destruct (IH (wiced_hidd_event_queue_remove_current_element s1))
      as (s' & Hrun & He & Hs & Hm & Hl & Hp).
    - cbn. rewrite Hq1. cbn in Hf |- *. lia.
    - exact Hwf1.
    - cbn. rewrite Hq1. cbn [tail]. now inversion Hq.
    - exists s'. split; [exact Hrun|]. split; [exact He|].
      split; [exact Hs|]. cbn in Hm, Hl, Hp.
      split; [congruence|]. split; [congruence|].
      destruct Hp as [Hp|Hp]; [left; congruence|right; exact Hp]. }
  unfold kbapp_handlePinEntry_body.
  destruct e as [k f|m| |t];
    try (cbn [bind fst snd]; apply Hnext; auto).
  assert (Hk : 0 <= k < kbKeyConfig_size) by now inversion Hq.
  destruct (rd_in_range kbKeyConfig k Hk) as (kc & Hrd & _).
  destruct ((f =? KEY_DOWN) && (enterKeyPressed s =? 0)).
  - rewrite Hrd. cbn [bind].
    destruct (type kc); try (cbn [bind fst snd]; apply Hnext; auto).
    destruct (handlePinEntry_switch_safe (translationValue kc) s Hwf)
      as (s1 & -> & Hwf1 & Hq1 & Hp1 & Hm1 & Hl1).
    cbn [bind fst snd]. apply Hnext; auto. congruence.
  - destruct (negb (enterKeyPressed s =? 0));
      [|cbn [bind fst snd]; apply Hnext; auto].
    rewrite Hrd. cbn [bind].
    destruct (translationValue kc =? enterKeyPressed s);
      [|cbn [bind fst snd]; apply Hnext; auto].
    destruct (handlePinEntry_complete_safe s Hwf)
      as (s1 & -> & Hq1 & Hp1 & Hs1 & Hm1 & Hl1).
    cbn [bind fst snd]. exists s1. split; [reflexivity|].
    destruct Hwf as (Hsz & _).
    repeat split; try assumption; lia.
Qed.

(** X13: pin entry stays inside its buffers and uses up the queue.  When the
    pin code typed so far fits the size allowed and the buffer, and every key
    event queued carries a scan code of the key table,
    [kbapp_handlePinEntry] returns without any access outside an array; the
    queue is empty afterwards, the code still fits, and the entry mode is
    either unchanged or left. *)
Theorem handlePinEntry_stays_in_bounds (s : tKbAppState) :
  wf_pin s ->
  key_codes_in_table (eventQueue s) ->
  exists s' : tKbAppState,
    kbapp_handlePinEntry s = Done s' /\
    eventQueue s' = [] /\
    0 <= pinCodeSize s' <= maxPinCodeSize s' /\
    maxPinCodeSize s' = maxPinCodeSize s /\
    length (pinCodeBuffer s') = length (pinCodeBuffer s) /\
    (pinCodeEntryInProgress s' = pinCodeEntryInProgress s \/
     pinCodeEntryInProgress s' = PIN_ENTRY_MODE_NONE).
Proof.
  intros Hwf Hq. unfold kbapp_handlePinEntry.
  apply handlePinEntry_loop_safe; [lia|exact Hwf|exact Hq].
Qed.

Lemma enterPinCodeEntryMode_run (s : tKbAppState) :
  pinCodeEntryInProgress s = PIN_ENTRY_MODE_NONE ->
  0 <= MAX_PIN_SIZE <= Z.of_nat (length (pinCodeBuffer s)) ->
  kbapp_enterPinCodeEntryMode s
  = Done (set_pinCodeEntryInProgress LEGACY_PIN_ENTRY_IN_PROGRESS
            (set_pinCodeBuffer
               (replicate (Z.to_nat MAX_PIN_SIZE) 0
                  ++ drop (Z.to_nat MAX_PIN_SIZE) (pinCodeBuffer s))
               (set_maxPinCodeSize MAX_PIN_SIZE
                  (set_pinCodeSize 0
                     (kbapp_flushUserInput (set_enterKeyPressed 0 s)))))).
Proof.
  intros Hnone Hmax. unfold kbapp_enterPinCodeEntryMode.
  rewrite Hnone, Z.eqb_refl.
  assert (Hb : pinCodeBuffer
                 (set_maxPinCodeSize MAX_PIN_SIZE
                    (set_pinCodeSize 0
                       (kbapp_flushUserInput (set_enterKeyPressed 0 s))))
               = pinCodeBuffer s) by reflexivity.
  rewrite Hb. unfold memset0.
  destruct (Z.leb_spec 0 MAX_PIN_SIZE); [|lia].
  destruct (Z.leb_spec MAX_PIN_SIZE (Z.of_nat (length (pinCodeBuffer s))));
    [|lia].
  reflexivity.
Qed.

Lemma flushUserInput_pin (s : tKbAppState) :
  pinCodeSize (kbapp_flushUserInput s) = pinCodeSize s /\
  maxPinCodeSize (kbapp_flushUserInput s) = maxPinCodeSize s /\
  pinCodeBuffer (kbapp_flushUserInput s) = pinCodeBuffer s /\
  pinCodeEntryInProgress (kbapp_flushUserInput s) = pinCodeEntryInProgress s /\
  enterKeyPressed (kbapp_flushUserInput s) = enterKeyPressed s /\
  eventQueue (kbapp_flushUserInput s) = [] /\
  trace (kbapp_flushUserInput s) = trace s.
Proof. cbn. repeat split. Qed.


Lemma pin_setup_fields (L M : Z) (B : list Z) (s0 : tKbAppState) :
  let R := set_pinCodeEntryInProgress L
             (set_pinCodeBuffer B
                (set_maxPinCodeSize M (set_pinCodeSize 0 s0))) in
  pinCodeEntryInProgress R = L /\
  pinCodeSize R = 0 /\
  maxPinCodeSize R = M /\
  pinCodeBuffer R = B /\
  enterKeyPressed R = enterKeyPressed s0 /\
  eventQueue R = eventQueue s0 /\
  trace R = trace s0.
Proof. repeat split. Qed.

Lemma pin_setup_buffer (M : Z) (s0 : tKbAppState) :
  pinCodeBuffer (set_maxPinCodeSize M (set_pinCodeSize 0 s0))
  = pinCodeBuffer s0.
Proof. reflexivity. Qed.

(** X14: entering pin or pass code entry.  A request that arrives while an
    entry is in progress is answered by a disconnect and leaves the entry
    alone.  Otherwise the pending input is flushed, the code typed so far is
    emptied and the buffer cleared, and the entry state is one from which
    [kbapp_handlePinEntry] stays inside the buffer: the size allowed fits the
    buffer, with room for the terminating zero in pass code entry. *)
Theorem entering_pin_entry_prepares_the_buffer (s : tKbAppState) :
  (pinCodeEntryInProgress s <> PIN_ENTRY_MODE_NONE ->
   kbapp_enterPinCodeEntryMode s = Done (emit Disconnect s) /\
   kbapp_enterPassCodeEntryMode s = Done (emit Disconnect s)) /\
  (pinCodeEntryInProgress s = PIN_ENTRY_MODE_NONE ->
   0 <= MAX_PIN_SIZE <= Z.of_nat (length (pinCodeBuffer s)) ->
   MAX_PIN_SIZE <= 255 ->
   exists s' : tKbAppState,
     kbapp_enterPinCodeEntryMode s = Done s' /\
     pinCodeEntryInProgress s' = LEGACY_PIN_ENTRY_IN_PROGRESS /\
     wf_pin s' /\
     pinCodeSize s' = 0 /\
     enterKeyPressed s' = 0 /\
     eventQueue s' = [] /\
     take (Z.to_nat MAX_PIN_SIZE) (pinCodeBuffer s')
     = replicate (Z.to_nat MAX_PIN_SIZE) 0 /\
     length (pinCodeBuffer s') = length (pinCodeBuffer s) /\
     trace s' = trace s) /\
  (pinCodeEntryInProgress s = PIN_ENTRY_MODE_NONE ->
   0 <= MAX_PASS_SIZE < Z.of_nat (length (pinCodeBuffer s)) ->
   MAX_PASS_SIZE <= 255 ->
   exists s' : tKbAppState,
     kbapp_enterPassCodeEntryMode s = Done s' /\
     pinCodeEntryInProgress s' = PASS_KEY_ENTRY_IN_PROGRESS /\
     wf_pin s' /\
     pinCodeSize s' = 0 /\
     enterKeyPressed s' = 0 /\
     eventQueue s' = [] /\
     pinCodeBuffer s' = replicate (length (pinCodeBuffer s)) 0).
Proof.
  split; [|split].
  - intros Hbusy. unfold kbapp_enterPinCodeEntryMode,
      kbapp_enterPassCodeEntryMode.
    destruct (Z.eqb_spec (pinCodeEntryInProgress s) PIN_ENTRY_MODE_NONE);
      [contradiction|]. split; reflexivity.
  - intros Hnone Hmax H255.
    rewrite enterPinCodeEntryMode_run by assumption.
    eexists. split; [reflexivity|].
    destruct (flushUserInput_pin (set_enterKeyPressed 0 s))
      as (_ & _ & _ & _ & He & Hq & Ht).
    destruct (pin_setup_fields LEGACY_PIN_ENTRY_IN_PROGRESS MAX_PIN_SIZE
                (replicate (Z.to_nat MAX_PIN_SIZE) 0
                   ++ drop (Z.to_nat MAX_PIN_SIZE) (pinCodeBuffer s))
                (kbapp_flushUserInput (set_enterKeyPressed 0 s)))
      as (Fp & Fs & Fm & Fb & Fe & Fq & Ft).
    cbn zeta in Fp, Fs, Fm, Fb, Fe, Fq, Ft.
    assert (Hlen : length (replicate (Z.to_nat MAX_PIN_SIZE) 0
                           ++ drop (Z.to_nat MAX_PIN_SIZE) (pinCodeBuffer s))
                   = length (pinCodeBuffer s))
      by (rewrite length_app, length_replicate, length_drop; lia).
    unfold wf_pin.
    rewrite Fp, Fs, Fm, Fb, Fe, Fq, Ft, He, Hq, Ht, Hlen.
    split; [reflexivity|]. split; [repeat split; lia|].
    split; [reflexivity|]. split; [reflexivity|]. split; [reflexivity|].
    split; [|split; reflexivity].
    rewrite take_app_le by (rewrite length_replicate; lia).
    apply take_ge. rewrite length_replicate. lia.
  - intros Hnone Hmax H255. unfold kbapp_enterPassCodeEntryMode.
    rewrite Hnone, Z.eqb_refl. cbv zeta.
    rewrite pin_setup_buffer.
    destruct (flushUserInput_pin (set_enterKeyPressed 0 s))
      as (_ & _ & Hb0 & _ & He & Hq & Ht).
    rewrite Hb0.
    change (pinCodeBuffer (set_enterKeyPressed 0 s)) with (pinCodeBuffer s).
    destruct (pin_setup_fields PASS_KEY_ENTRY_IN_PROGRESS MAX_PASS_SIZE
                (replicate (length (pinCodeBuffer s)) 0)
                (kbapp_flushUserInput (set_enterKeyPressed 0 s)))
      as (Fp & Fs & Fm & Fb & Fe & Fq & Ft).
    cbn zeta in Fp, Fs, Fm, Fb, Fe, Fq, Ft.
    match goal with
    | |- exists s', kbapp_pinEntryEvent _ ?t = _ /\ _ =>
        destruct (pinEntryEvent_same KEY_ENTRY_EVENT_START t)
          as (s' & -> & Hs & Hm & Hb & Hp & He' & Hq');
          [cbv; split; congruence|]
    end.
    exists s'. split; [reflexivity|].
    unfold wf_pin.
    rewrite Hs, Hm, Hb, Hp, He', Hq', Fp, Fs, Fm, Fb, Fe, Fq, He, Hq,
      length_replicate.
    split; [reflexivity|]. split; [repeat split; lia|].
    repeat split.
Qed.

(** *** Releasing a key of the standard report *)

Lemma swap_remove_perm (l : list Z) (N j : nat) (c y : Z) :
  (0 < N)%nat ->
  (j < N)%nat ->
  l !! j = Some c ->
  l !! (N - 1)%nat = Some y ->
  take N l ≡ₚ c :: take (N - 1) (<[j := y]> l).
Proof.
  intros HN Hj Hc Hy. destruct N as [|M]; [lia|].
  replace (S M - 1)%nat with M in * by lia.
  rewrite (take_S_r l M y Hy).
  destruct (Nat.eq_dec j M) as [->|Hne].
  - assert (c = y) by congruence. subst y.
    rewrite take_insert_ge by lia.
    symmetry. apply Permutation_cons_append.
  - rewrite take_insert_lt by lia.
    assert (Hc' : take M l !! j = Some c)
      by (rewrite lookup_take_lt by lia; exact Hc).
    rewrite insert_take_drop by (eapply lookup_lt_Some; exact Hc').
    rewrite <- (take_drop_middle (take M l) j c Hc') at 1.
    rewrite <- app_assoc. cbn [app].
    rewrite <- Permutation_middle. constructor.
    apply Permutation_app_head.
    symmetry. apply Permutation_cons_append.
Qed.

(** The key-up handler on a report that holds the code [c] at index [j] and
    nowhere else: the last key takes its place and the last slot is
    zeroed. *)
Lemma KeyUp_present (s : tKbAppState) (f k c : Z) (j : nat) :
  wf_std s ->
  NoDup (std_keys s) ->
  (j < Z.to_nat (keysInStdRpt s))%nat ->
  keyCodes (stdRpt s) !! j = Some c ->
  exists (s' : tKbAppState) (y : Z),
    kbapp_stdRptProcEvtKeyUp f k c s = Done s' /\
    keyCodes (stdRpt s) !! Z.to_nat (keysInStdRpt s - 1) = Some y /\
    keyCodes (stdRpt s')
    = <[Z.to_nat (keysInStdRpt s - 1) := 0]>
        (<[j := y]> (keyCodes (stdRpt s))) /\
    keysInStdRpt s' = keysInStdRpt s - 1 /\
    stdRptChanged s' = true /\
    bitMappedReport s' = bitMappedReport s /\
    eventQueue s' = eventQueue s /\
    trace s' = trace s.
Proof.
  intros [Hn Hlen] Hnd Hj Hc.
  assert (Huniq : forall (i : nat) (x : Z),
             (i < Z.to_nat (keysInStdRpt s))%nat -> i <> j ->
             keyCodes (stdRpt s) !! i = Some x -> x <> c).
  { intros i x Hi Hij Hx ->. apply Hij.
    apply (NoDup_lookup (std_keys s) i j c Hnd); unfold std_keys;
      rewrite lookup_take_lt by lia; assumption. }
  unfold kbapp_stdRptProcEvtKeyUp.
  replace 256%nat with (j + S (255 - j))%nat by lia.
  rewrite KeyUp_loop_skip; try lia.
  2:{ intros i x Hi Hx. apply (Huniq i x); [lia|lia|exact Hx]. }
  rewrite Z.add_0_l.
  cbn [kbapp_stdRptProcEvtKeyUp_loop].
  destruct (Z.ltb_spec (Z.of_nat j) (keysInStdRpt s)); [|lia].
  rewrite (rd_lookup (keyCodes (stdRpt s)) (Z.of_nat j) c)
    by (try lia; rewrite Nat2Z.id; exact Hc).
  cbn [bind]. rewrite Z.eqb_refl.
  cbn [keysInStdRpt set_keysInStdRpt stdRpt keyCodes].
  rewrite (u8_small (keysInStdRpt s - 1)) by lia.
  destruct (rd_in_range (keyCodes (stdRpt s)) (keysInStdRpt s - 1))
    as (y & Hrd & Hy); [lia|].
  rewrite Hrd. cbn [bind].
  rewrite wr_in_range by lia.
  cbn [bind keysInStdRpt set_keysInStdRpt stdRpt keyCodes set_keyCodes
       set_stdRpt].
  rewrite wr_in_range by (rewrite length_insert; lia).
  cbn [bind]. rewrite Nat2Z.id.
  rewrite (u8_small (Z.of_nat j + 1)) by lia.
  match goal with
  | |- context [kbapp_stdRptProcEvtKeyUp_loop _ _ _ ?t] =>
      remember t as s2 eqn:Es2
  end.
  assert (Hkc2 : keyCodes (stdRpt s2)
                 = <[Z.to_nat (keysInStdRpt s - 1) := 0]>
                     (<[j := y]> (keyCodes (stdRpt s))))
    by (subst s2; reflexivity).
  assert (Hn2 : keysInStdRpt s2 = keysInStdRpt s - 1)
    by (subst s2; reflexivity).
  assert (Hch2 : stdRptChanged s2 = true) by (subst s2; reflexivity).
  assert (Hb2 : bitMappedReport s2 = bitMappedReport s)
    by (subst s2; reflexivity).
  assert (Hq2 : eventQueue s2 = eventQueue s) by (subst s2; reflexivity).
  assert (Ht2 : trace s2 = trace s) by (subst s2; reflexivity).
  clear Es2.
  exists s2, y. split; [|repeat split; assumption].
  destruct (Nat.eq_dec j (Z.to_nat (keysInStdRpt s) - 1)%nat) as [Ej|Ej].
  - replace (255 - j)%nat with (S (254 - j)) by lia.
    apply KeyUp_loop_exit. lia.
  - replace (255 - j)%nat
      with ((Z.to_nat (keysInStdRpt s) - 1 - (j + 1))
            + S (256 - Z.to_nat (keysInStdRpt s)))%nat by lia.
    rewrite KeyUp_loop_skip; try lia.
    + apply KeyUp_loop_exit. lia.
    + rewrite Hkc2, !length_insert. lia.
    + rewrite Hkc2. intros i x Hi Hx.
      rewrite list_lookup_insert_ne in Hx by lia.
      rewrite list_lookup_insert_ne in Hx by lia.
      apply (Huniq i x); [lia|lia|exact Hx].
Qed.

Lemma std_keys_after_KeyUp (s s' : tKbAppState) (c y : Z) (j : nat) :
  wf_std s ->
  NoDup (std_keys s) ->
  (j < Z.to_nat (keysInStdRpt s))%nat ->
  keyCodes (stdRpt s) !! j = Some c ->
  keyCodes (stdRpt s) !! Z.to_nat (keysInStdRpt s - 1) = Some y ->
  keyCodes (stdRpt s')
  = <[Z.to_nat (keysInStdRpt s - 1) := 0]> (<[j := y]> (keyCodes (stdRpt s))) ->
  keysInStdRpt s' = keysInStdRpt s - 1 ->
  std_keys s ≡ₚ c :: std_keys s'.
Proof.
  intros [Hn Hlen] Hnd Hj Hc Hy Hkc Hk. unfold std_keys.
  rewrite Hkc, Hk, take_insert_ge by lia.
  replace (Z.to_nat (keysInStdRpt s - 1))
    with (Z.to_nat (keysInStdRpt s) - 1)%nat in * by lia.
  apply swap_remove_perm; try assumption; lia.
Qed.

(** X15: releasing a key takes it out of the standard report, wherever it
    stands in it.  When the report lists no key twice and holds the code,
    the key-up handler returns with one key less, the code gone, every other
    key still there, still no key twice, the slot freed set to zero and the
    report marked as changed. *)
Theorem stdRpt_key_up_removes_key (s : tKbAppState) (k c : Z) :
  wf_std s ->
  NoDup (std_keys s) ->
  In c (std_keys s) ->
  exists s' : tKbAppState,
    kbapp_stdRptProcEvtKey KEY_UP k c s = Done s' /\
    keysInStdRpt s' = keysInStdRpt s - 1 /\
    (forall x : Z, In x (std_keys s') <-> In x (std_keys s) /\ x <> c) /\
    NoDup (std_keys s') /\
    keyCodes (stdRpt s') !! Z.to_nat (keysInStdRpt s') = Some 0 /\
    length (keyCodes (stdRpt s')) = length (keyCodes (stdRpt s)) /\
    stdRptChanged s' = true.
Proof.
  intros Hwf Hnd Hin.
  destruct (In_std_keys_lookup s c Hin) as (j & Hj & Hc).
  destruct (KeyUp_present s KEY_UP k c j Hwf Hnd Hj Hc)
    as (s' & y & Hrun & Hy & Hkc & Hk & Hch & _).
  pose proof (std_keys_after_KeyUp s s' c y j Hwf Hnd Hj Hc Hy Hkc Hk) as Hperm.
  exists s'. split; [exact Hrun|]. split; [exact Hk|].
  assert (Hnd' : NoDup (c :: std_keys s')) by now rewrite <- Hperm.
  apply NoDup_cons in Hnd'. destruct Hnd' as [Hnot Hnd'].
  split.
  { intros x. rewrite <- !list_elem_of_In. rewrite Hperm.
    rewrite elem_of_cons. split.
    - intros Hx. split; [now right|]. intros ->. contradiction.
    - intros [[->|Hx] Hne]; [contradiction|exact Hx]. }
  split; [exact Hnd'|].
  destruct Hwf as [Hn Hlen].
  split.
  { rewrite Hkc, Hk. apply list_lookup_insert_eq.
    rewrite length_insert. lia. }
  split; [rewrite Hkc, !length_insert; reflexivity|exact Hch].
Qed.

Lemma stdRptProcEvtKey_distinct (s s' : tKbAppState) (f k c : Z) :
  wf_reports s ->
  NoDup (std_keys s) ->
  kbapp_stdRptProcEvtKey f k c s = Done s' ->
  NoDup (std_keys s').
Proof.
  intros Hwf Hnd Hrun. pose proof Hwf as (Hstd & Hbit & Hmax & H255).
  unfold kbapp_stdRptProcEvtKey in Hrun.
  destruct (In_dec Z.eq_dec c (std_keys s)) as [Hin|Hnot];
    destruct (f =? KEY_DOWN).
  - rewrite KeyDown_present in Hrun by assumption.
    injection Hrun as <-. exact Hnd.
  - destruct (In_std_keys_lookup s c Hin) as (j & Hj & Hc).
    destruct (KeyUp_present s f k c j Hstd Hnd Hj Hc)
      as (s1 & y & Hrun1 & Hy & Hkc & Hk & _).
    rewrite Hrun1 in Hrun. injection Hrun as <-.
    pose proof (std_keys_after_KeyUp s s1 c y j Hstd Hnd Hj Hc Hy Hkc Hk)
      as Hperm.
    rewrite Hperm in Hnd. now apply NoDup_cons in Hnd.
  - destruct (Z.lt_ge_cases (keysInStdRpt s) (maxKeysInStdRpt kbAppConfig))
      as [Hroom|Hfull].
    + destruct (KeyDown_room_keys s f k c Hstd Hmax H255 Hnot Hroom)
        as (s1 & Hrun1 & _ & Hkeys & _).
      rewrite Hrun1 in Hrun. injection Hrun as <-.
      rewrite Hkeys. apply NoDup_app. split; [exact Hnd|].
      split; [|apply NoDup_singleton].
      intros x Hx Hx'. apply list_elem_of_singleton in Hx'. subst x.
      apply Hnot. now apply list_elem_of_In.
    + rewrite KeyDown_overflow in Hrun by assumption. injection Hrun as <-.
      unfold std_keys.
      destruct (stdErrRespWithFwHwReset_fields s) as (_ & _ & Hk0 & _).
      cbn zeta in Hk0. unfold kbapp_stdRptProcOverflow. rewrite Hk0.
      constructor.
  - rewrite KeyUp_absent in Hrun by assumption.
    injection Hrun as <-. exact Hnd.
Qed.

(** *** The dispatcher stays inside the arrays *)

Lemma wf_reports_same (s s' : tKbAppState) :
  keyCodes (stdRpt s') = keyCodes (stdRpt s) ->
  keysInStdRpt s' = keysInStdRpt s ->
  bitMappedKeys (bitMappedReport s') = bitMappedKeys (bitMappedReport s) ->
  wf_reports s -> wf_reports s'.
Proof.
  unfold wf_reports, wf_std, wf_bit. intros -> -> ->. trivial.
Qed.

Lemma std_keys_same (s s' : tKbAppState) :
  keyCodes (stdRpt s') = keyCodes (stdRpt s) ->
  keysInStdRpt s' = keysInStdRpt s ->
  std_keys s' = std_keys s.
Proof. unfold std_keys. now intros -> ->. Qed.

Lemma handled_same (s s' : tKbAppState) :
  keyCodes (stdRpt s') = keyCodes (stdRpt s) ->
  keysInStdRpt s' = keysInStdRpt s ->
  bitMappedKeys (bitMappedReport s') = bitMappedKeys (bitMappedReport s) ->
  eventQueue s' = eventQueue s ->
  wf_reports s -> handled s s'.
Proof.
  intros H1 H2 H3 H4 Hwf. split; [now apply (wf_reports_same s)|].
  split; [now rewrite (std_keys_same s s')|now left].
Qed.

Lemma handled_refl (s : tKbAppState) : wf_reports s -> handled s s.
Proof. intros H. now apply handled_same. Qed.

Lemma handled_trans (s1 s2 s3 : tKbAppState) :
  handled s1 s2 -> handled s2 s3 -> handled s1 s3.
Proof.
  intros (_ & Hn1 & H1) (Hwf & Hn2 & H2). split; [exact Hwf|].
  split; [auto|].
  destruct H2 as [H2|H2]; [|now right].
  destruct H1 as [H1|H1]; [left|right]; congruence.
Qed.

Lemma stdErrRespWithFwHwReset_handled (s : tKbAppState) :
  wf_reports s -> handled s (kbapp_stdErrRespWithFwHwReset s).
Proof.
  intros ((Hn & Hlen) & (Hb1 & Hb2) & Hmax & H255).
  destruct (stdErrRespWithFwHwReset_fields s) as (_ & Hq & Hk & _).
  destruct (stdErrRespWithFwHwReset_reports s) as (_ & _ & Hkc & _ & Hbk & _).
  cbn zeta in *. split; [|split; [|now right]].
  - unfold wf_reports, wf_std, wf_bit.
    rewrite Hk, Hkc, Hbk, !length_replicate.
    repeat split; try assumption; lia.
  - intros _. unfold std_keys. rewrite Hk. constructor.
Qed.

Lemma KeyUp_loop_handled (c : Z) (fuel : nat) (i : Z) (s : tKbAppState) :
  0 <= i <= 255 ->
  256 <= Z.of_nat fuel + i ->
  wf_reports s ->
  exists s' : tKbAppState,
    kbapp_stdRptProcEvtKeyUp_loop fuel i c s = Done s' /\
    wf_reports s' /\
    eventQueue s' = eventQueue s.
Proof.
  revert i s. induction fuel as [|fuel IH]; intros i s Hi Hf Hwf; [lia|].
  pose proof Hwf as ((Hn & Hlen) & Hbit & Hmax & H255).
  cbn [kbapp_stdRptProcEvtKeyUp_loop].
  destruct (Z.ltb_spec i (keysInStdRpt s)) as [Hlt|Hge].
  - destruct (rd_in_range (keyCodes (stdRpt s)) i) as (x & Hrd & Hx); [lia|].
    rewrite Hrd. cbn [bind].
    destruct (x =? c).
    + cbn [keysInStdRpt set_keysInStdRpt stdRpt keyCodes].
      rewrite (u8_small (keysInStdRpt s - 1)) by lia.
      destruct (rd_in_range (keyCodes (stdRpt s)) (keysInStdRpt s - 1))
        as (y & Hrd' & Hy); [lia|].
      rewrite Hrd'. cbn [bind].
      rewrite wr_in_range by lia.
      cbn [bind keysInStdRpt set_keysInStdRpt stdRpt keyCodes set_keyCodes
           set_stdRpt].
      rewrite wr_in_range by (rewrite length_insert; lia).
      cbn [bind].
      rewrite (u8_small (i + 1)) by lia.
      match goal with
      | |- exists s', kbapp_stdRptProcEvtKeyUp_loop _ _ _ ?t = _ /\ _ =>
          destruct (IH (i + 1) t) as (s' & Hrun & Hwf' & Hq')
      end.
      * lia.
      * lia.
      * unfold wf_reports, wf_std, wf_bit. cbn. rewrite !length_insert.
        repeat split; try apply Hbit; lia.
      * exists s'. split; [exact Hrun|]. split; [exact Hwf'|].
        rewrite Hq'. reflexivity.
    + rewrite (u8_small (i + 1)) by lia.
      apply IH; [lia | lia | exact Hwf].
  - exists s. split; [reflexivity|]. split; [exact Hwf|reflexivity].
Qed.

Lemma KeyDown_run (s : tKbAppState) (f k c : Z) :
  wf_reports s ->
  exists s' : tKbAppState,
    kbapp_stdRptProcEvtKeyDown f k c s = Done s' /\
    wf_reports s' /\
    (eventQueue s' = eventQueue s \/ eventQueue s' = []).
Proof.
  intros Hwf. pose proof Hwf as (Hstd & Hbit & Hmax & H255).
  destruct (In_dec Z.eq_dec c (std_keys s)) as [Hin|Hnot].
  - exists s. split; [now apply KeyDown_present|]. split; [exact Hwf|now left].
  - destruct (Z.lt_ge_cases (keysInStdRpt s) (maxKeysInStdRpt kbAppConfig))
      as [Hroom|Hfull].
    + destruct Hstd as [Hn Hlen].
      rewrite KeyDown_room; [|split; assumption|assumption|assumption|lia].
      eexists. split; [reflexivity|]. split; [|now left].
      unfold wf_reports, wf_std, wf_bit. cbn.
      rewrite length_insert, u8_small by lia.
      repeat split; try apply Hbit; lia.
    + rewrite KeyDown_overflow by assumption.
      eexists. split; [reflexivity|].
      destruct (stdErrRespWithFwHwReset_handled s Hwf) as (H1 & _ & H2).
      split; assumption.
Qed.

Lemma stdRptProcEvtKey_handled (s : tKbAppState) (f k c : Z) :
  wf_reports s ->
  exists s' : tKbAppState,
    kbapp_stdRptProcEvtKey f k c s = Done s' /\ handled s s'.
Proof.
  intros Hwf.
  assert (H : exists s' : tKbAppState,
             kbapp_stdRptProcEvtKey f k c s = Done s' /\
             wf_reports s' /\
             (eventQueue s' = eventQueue s \/ eventQueue s' = [])).
  { unfold kbapp_stdRptProcEvtKey. destruct (f =? KEY_DOWN).
    - now apply KeyDown_run.
    - unfold kbapp_stdRptProcEvtKeyUp.
      destruct (KeyUp_loop_handled c 256 0 s) as (s' & Hrun & Hwf' & Hq);
        [lia|lia|exact Hwf|].
      exists s'. split; [exact Hrun|]. split; [exact Hwf'|now left]. }
  destruct H as (s' & Hrun & Hwf' & Hq).
  exists s'. split; [exact Hrun|]. split; [exact Hwf'|]. split; [|exact Hq].
  intros Hnd. exact (stdRptProcEvtKey_distinct s s' f k c Hwf Hnd Hrun).
Qed.

Lemma bitRptProcEvtKey_handled (s : tKbAppState) (f k rowCol : Z) :
  0 <= rowCol ->
  wf_reports s ->
  exists s' : tKbAppState,
    kbapp_bitRptProcEvtKey f k rowCol s = Done s' /\ handled s s'.
Proof.
  intros H0 Hwf. pose proof Hwf as (Hstd & Hbit & Hmax & H255).
  destruct (Z.lt_ge_cases rowCol (numBitMappedKeys kbAppConfig)) as [Hlt|Hge].
  - destruct (bitRptProcEvtKey_run s f k rowCol H0 Hbit Hlt)
      as (b & Hb & _ & Hrun).
    rewrite Hrun. eexists. split; [reflexivity|].
    destruct (f =? KEY_DOWN); destruct (Z.testbit b (Z.land rowCol 7));
      try (now apply handled_refl);
      (split; [|split; [intros Hnd; exact Hnd|now left]]);
      unfold wf_reports, wf_std, wf_bit; cbn; rewrite length_insert;
      repeat split; try apply Hstd; try apply Hbit; assumption.
  - exists s. unfold kbapp_bitRptProcEvtKey.
    destruct (Z.ltb_spec rowCol (numBitMappedKeys kbAppConfig)); [lia|].
    split; [reflexivity|now apply handled_refl].
Qed.

Lemma funcLockProcEvtDepKey_handled (s : tKbAppState) (f k idx : Z) :
  0 <= idx < 13 ->
  wf_reports s ->
  exists s' : tKbAppState,
    kbapp_funcLockProcEvtDepKey f k idx s = Done s' /\ handled s s'.
Proof.
  intros Hidx Hwf.
  destruct (kbFuncLockDepKeyTransTab_entry idx Hidx) as (e & Hrd & He).
  unfold kbapp_funcLockProcEvtDepKey. rewrite Hrd. cbn [bind].
  destruct (f =? KEY_DOWN) eqn:Ef.
  - assert (H : exists s1 : tKbAppState,
               (if is_FUNC_LOCK_STATE_ON (state (funcLockInfo s))
                   || (kbapp_protocol s =? PROTOCOL_BOOT)
                then kbapp_stdRptProcEvtKey f k (stdRptCode e) s
                else kbapp_bitRptProcEvtKey f k (bitRptCode e) s) = Done s1 /\
               handled s s1).
    { destruct (_ || _).
      - now apply stdRptProcEvtKey_handled.
      - now apply bitRptProcEvtKey_handled. }
    destruct H as (s1 & -> & H1). cbn [bind].
    eexists. split; [reflexivity|].
    apply (handled_trans _ _ _ H1).
    now apply handled_same; [| | | |apply H1].
  - destruct (stdRptProcEvtKey_handled s f k (stdRptCode e) Hwf)
      as (s1 & -> & H1).
    cbn [bind].
    destruct (bitRptProcEvtKey_handled s1 f k (bitRptCode e) He (proj1 H1))
      as (s2 & -> & H2).
    exists s2. split; [reflexivity|]. exact (handled_trans _ _ _ H1 H2).
Qed.

Lemma stdRptProcEvtModKey_same (s : tKbAppState) (f k t : Z) :
  let s' := kbapp_stdRptProcEvtModKey f k t s in
  keyCodes (stdRpt s') = keyCodes (stdRpt s) /\
  keysInStdRpt s' = keysInStdRpt s /\
  bitMappedKeys (bitMappedReport s') = bitMappedKeys (bitMappedReport s) /\
  eventQueue s' = eventQueue s.
Proof.
  unfold kbapp_stdRptProcEvtModKey.
  destruct (f =? KEY_DOWN); destruct (_ =? 0); cbn; repeat split.
Qed.

Lemma slpRptProcEvtKey_same (s : tKbAppState) (f k t : Z) :
  let s' := kbapp_slpRptProcEvtKey f k t s in
  keyCodes (stdRpt s') = keyCodes (stdRpt s) /\
  keysInStdRpt s' = keysInStdRpt s /\
  bitMappedKeys (bitMappedReport s') = bitMappedKeys (bitMappedReport s) /\
  eventQueue s' = eventQueue s.
Proof.
  unfold kbapp_slpRptProcEvtKey.
  destruct (f =? KEY_DOWN); destruct (_ =? 0); cbn; repeat split.
Qed.

Lemma funcLockProcEvtKey_same (s : tKbAppState) (f k t : Z) :
  let s' := kbapp_funcLockProcEvtKey f k t s in
  keyCodes (stdRpt s') = keyCodes (stdRpt s) /\
  keysInStdRpt s' = keysInStdRpt s /\
  bitMappedKeys (bitMappedReport s') = bitMappedKeys (bitMappedReport s) /\
  eventQueue s' = eventQueue s.
Proof.
  unfold kbapp_funcLockProcEvtKey, kbapp_funcLockToggle.
  destruct (_ && _); [|repeat split].
  destruct (f =? KEY_DOWN); destruct (kepPosition (funcLockInfo s));
    cbn; try (repeat split; fail);
    destruct (toggleStateOnKeyUp (funcLockInfo s)); cbn; repeat split.
Qed.

Lemma procEvtKey_switch_handled (kc : KbKeyConfig) (f k : Z)
  (s : tKbAppState) :
  0 <= translationValue kc ->
  (type kc = KEY_TYPE_FUNC_LOCK_DEP -> translationValue kc < 13) ->
  wf_reports s ->
  exists s' : tKbAppState,
    kbapp_procEvtKey_switch (type kc) f k (translationValue kc) s = Done s' /\
    handled s s'.
Proof.
  intros H0 Hdep Hwf. unfold kbapp_procEvtKey_switch.
  destruct (type kc) eqn:Et.
  - exists s. split; [reflexivity|now apply handled_refl].
  - now apply stdRptProcEvtKey_handled.
  - eexists. split; [reflexivity|].
    destruct (stdRptProcEvtModKey_same s f k (translationValue kc))
      as (H1 & H2 & H3 & H4).
    now apply handled_same.
  - now apply bitRptProcEvtKey_handled.
  - eexists. split; [reflexivity|].
    destruct (slpRptProcEvtKey_same s f k (translationValue kc))
      as (H1 & H2 & H3 & H4).
    now apply handled_same.
  - eexists. split; [reflexivity|].
    destruct (funcLockProcEvtKey_same s f k (translationValue kc))
      as (H1 & H2 & H3 & H4).
    now apply handled_same.
  - apply funcLockProcEvtDepKey_handled; [|exact Hwf].
    split; [exact H0|now apply Hdep].
  - exists s. split; [reflexivity|now apply handled_refl].
Qed.

Lemma txModifiedKeyReports_same (s : tKbAppState) :
  let s' := kbapp_txModifiedKeyReports s in
  keyCodes (stdRpt s') = keyCodes (stdRpt s) /\
  keysInStdRpt s' = keysInStdRpt s /\
  bitMappedKeys (bitMappedReport s') = bitMappedKeys (bitMappedReport s) /\
  eventQueue s' = eventQueue s.
Proof.
  cbn zeta. unfold kbapp_txModifiedKeyReports.
  destruct (recoveryInProgress s =? 0); [|repeat split].
  destruct (stdRptChanged s); cbn;
    (destruct (kbapp_protocol s =? PROTOCOL_REPORT); [|repeat split]);
    destruct (bitRptChanged s); cbn;
    destruct (slpRptChanged s); cbn;
    destruct (funcLockRptChanged s); cbn;
    destruct (scrollRptChanged s); cbn;
    unfold kbapp_scrollRptSend; cbn;
    try destruct (host_transport s); repeat split.
Qed.

Lemma consumed_nil (q : list HidEvent) : consumed q [].
Proof.
  exists (length q). symmetry. apply drop_ge. lia.
Qed.

Lemma consumed_tail (e : HidEvent) (q : list HidEvent) : consumed (e :: q) q.
Proof. exists 0%nat. reflexivity. Qed.

Lemma consumed_cons (e : HidEvent) (q q' : list HidEvent) :
  consumed q q' -> consumed (e :: q) q'.
Proof. intros [n ->]. exists (S n). reflexivity. Qed.

Lemma consumed_length (q q' : list HidEvent) :
  consumed q q' -> (length q' <= length (tail q))%nat.
Proof.
  intros [n ->]. rewrite length_drop. destruct q; cbn; lia.
Qed.

Lemma consumed_Forall (P : HidEvent -> Prop) (q q' : list HidEvent) :
  consumed q q' -> Forall P q -> Forall P q'.
Proof. intros [n ->]. apply Forall_drop. Qed.

Lemma procEvtKey_loop_handled (fuel : nat) (s : tKbAppState) :
  wf_keyConfig ->
  (length (eventQueue s) < fuel)%nat ->
  wf_reports s ->
  key_codes_nonneg (eventQueue s) ->
  exists s' : tKbAppState,
    kbapp_procEvtKey_loop fuel s = Done s' /\
    wf_reports s' /\
    (NoDup (std_keys s) -> NoDup (std_keys s')) /\
    consumed (eventQueue s) (eventQueue s').
Proof.
  intros Hcfg. revert s. induction fuel as [|fuel IH]; intros s Hf Hwf Hq;
    [lia|].
  cbn [kbapp_procEvtKey_loop].
  unfold wiced_hidd_event_queue_get_current_element.
  assert (Herr : exists s' : tKbAppState,
             Done (kbapp_stdErrRespWithFwHwReset s) = Done s' /\
             wf_reports s' /\
             (NoDup (std_keys s) -> NoDup (std_keys s')) /\
             consumed (eventQueue s) (eventQueue s')).
  { eexists. split; [reflexivity|].
    destruct (stdErrRespWithFwHwReset_handled s Hwf) as (Hwf' & Hnd' & _).
    split; [exact Hwf'|]. split; [exact Hnd'|].
    destruct (stdErrRespWithFwHwReset_fields s) as (_ & Hq' & _).
    cbn zeta in Hq'. rewrite Hq'. apply consumed_nil. }
  destruct (eventQueue s) as [|e q] eqn:Eq; cbn [head]; [exact Herr|].
  assert (Hrem : forall s1 : tKbAppState,
             handled s s1 ->
             wf_reports (wiced_hidd_event_queue_remove_current_element s1) /\
             (NoDup (std_keys s) ->
              NoDup (std_keys
                       (wiced_hidd_event_queue_remove_current_element s1))) /\
             (eventQueue (wiced_hidd_event_queue_remove_current_element s1) = q
              \/ eventQueue
                   (wiced_hidd_event_queue_remove_current_element s1) = [])).
  { intros s1 (Hwf1 & Hnd1 & Hq1).
    split; [now apply (wf_reports_same s1)|]. split; [exact Hnd1|].
    cbn. destruct Hq1 as [-> | ->]; rewrite ?Eq; cbn; auto. }
  assert (Hstop : forall s1 : tKbAppState,
             handled s s1 ->
             exists s' : tKbAppState,
               Done (wiced_hidd_event_queue_remove_current_element s1)
               = Done s' /\
               wf_reports s' /\
               (NoDup (std_keys s) -> NoDup (std_keys s')) /\
               consumed (e :: q) (eventQueue s')).
  { intros s1 H1. destruct (Hrem s1 H1) as (Hwf2 & Hnd2 & Hq2).
    eexists. split; [reflexivity|]. split; [exact Hwf2|].
    split; [exact Hnd2|].
    destruct Hq2 as [-> | ->]; [apply consumed_tail|apply consumed_nil]. }
  assert (Hnext : forall s1 : tKbAppState,
             handled s s1 ->
             exists s' : tKbAppState,
               kbapp_procEvtKey_loop fuel
                 (wiced_hidd_event_queue_remove_current_element s1) = Done s' /\
               wf_reports s' /\
               (NoDup (std_keys s) -> NoDup (std_keys s')) /\
               consumed (e :: q) (eventQueue s')).
  { intros s1 H1. destruct (Hrem s1 H1) as (Hwf2 & Hnd2 & Hq2).
    destruct (IH (wiced_hidd_event_queue_remove_current_element s1))
      as (s' & Hrun & Hwf' & Hnd' & Hc).
    - destruct Hq2 as [-> | ->]; cbn in Hf |- *; lia.
    - exact Hwf2.
    - destruct Hq2 as [-> | ->]; [now inversion Hq|constructor].
    - exists s'. split; [exact Hrun|]. split; [exact Hwf'|].
      split; [auto|].
      destruct Hq2 as [E | E]; rewrite E in Hc.
      + now apply consumed_cons.
      + destruct Hc as [n ->]. rewrite drop_nil. apply consumed_nil. }
  destruct e as [k f|m| |t]; try exact Herr.
  assert (Hk : 0 <= k) by now inversion Hq.
  destruct (Z.ltb_spec k kbKeyConfig_size) as [Hlt|Hge].
  - destruct (rd_in_range kbKeyConfig k) as (kc & Hrd & Hkc);
      [unfold kbKeyConfig_size in Hlt; lia|].
    rewrite Hrd. cbn [bind].
    unfold wf_keyConfig in Hcfg. rewrite Forall_lookup in Hcfg.
    destruct (Hcfg _ _ Hkc) as [H0 Hdep].
    destruct (procEvtKey_switch_handled kc f k s H0 Hdep Hwf)
      as (s1 & -> & H1).
    cbn [bind].
    destruct (k <? KB_MAX_KEYS); [now apply Hnext|now apply Hstop].
  - destruct (k =? END_OF_SCAN_CYCLE); [|exact Herr].
    destruct (txModifiedKeyReports_same s) as (H1 & H2 & H3 & H4).
    cbn zeta in *.
    assert (Hh : handled s (emit ActivityDetected
                              (kbapp_txModifiedKeyReports s)))
      by (apply handled_same; assumption).
    destruct (k <? KB_MAX_KEYS); [now apply Hnext|now apply Hstop].
Qed.

(** X16: the key dispatcher stays inside the arrays and terminates.  When
    the key table indexes the dependent-key table within its bounds and the
    reports have the sizes the configuration assumes, [kbapp_procEvtKey]
    returns, on any queue, without an access outside an array; it leaves the
    reports well-formed and never lengthens the queue. *)
Theorem procEvtKey_stays_in_bounds (s : tKbAppState) :
  wf_keyConfig ->
  wf_reports s ->
  key_codes_nonneg (eventQueue s) ->
  exists s' : tKbAppState,
    kbapp_procEvtKey s = Done s' /\
    wf_reports s' /\
    (length (eventQueue s') <= length (eventQueue s))%nat.
Proof.
  intros Hcfg Hwf Hq. unfold kbapp_procEvtKey.
  destruct (procEvtKey_loop_handled (S (length (eventQueue s))) s Hcfg
              ltac:(lia) Hwf Hq) as (s' & Hrun & Hwf' & _ & Hc).
  exists s'. split; [exact Hrun|]. split; [exact Hwf'|].
  apply consumed_length in Hc. destruct (eventQueue s); cbn in *; lia.
Qed.

(** X17: the standard report never lists a key twice.  A report without a
    repeated key is still one after any key event handled by
    [kbapp_stdRptProcEvtKey], and after [kbapp_procEvtKey] has worked through
    any queue of events. *)
Theorem stdRpt_keys_stay_distinct (s : tKbAppState) :
  wf_reports s ->
  NoDup (std_keys s) ->
  (forall f k c : Z,
     exists s' : tKbAppState,
       kbapp_stdRptProcEvtKey f k c s = Done s' /\
       wf_reports s' /\
       NoDup (std_keys s')) /\
  (wf_keyConfig ->
   key_codes_nonneg (eventQueue s) ->
   exists s' : tKbAppState,
     kbapp_procEvtKey s = Done s' /\
     wf_reports s' /\
     NoDup (std_keys s')).
Proof.
  intros Hwf Hnd. split.
  - intros f k c.
    destruct (stdRptProcEvtKey_handled s f k c Hwf) as (s' & Hrun & Hwf' & Hnd' & _).
    exists s'. split; [exact Hrun|]. split; [exact Hwf'|auto].
  - intros Hcfg Hq. unfold kbapp_procEvtKey.
    destruct (procEvtKey_loop_handled (S (length (eventQueue s))) s Hcfg
                ltac:(lia) Hwf Hq) as (s' & Hrun & Hwf' & Hnd' & _).
    exists s'. split; [exact Hrun|]. split; [exact Hwf'|auto].
Qed.

(** *** A poll works through the whole queue *)

Lemma procEvtScroll_loop_drop (q : list HidEvent) (acc : Z) :
  exists n : nat, snd (kbapp_procEvtScroll_loop q acc) = drop n q.
Proof.
  revert acc. induction q as [|e q IH]; intros acc.
  - exists 0%nat. reflexivity.
  - destruct e as [k f|m| |t]; try (exists 0%nat; reflexivity).
    cbn [kbapp_procEvtScroll_loop].
    destruct (scrollCombining kbAppConfig).
    + destruct (IH (acc + m)) as [n Hn]. exists (S n). exact Hn.
    + exists 1%nat. reflexivity.
Qed.

Lemma procEvtScroll_loop_consumed (m : Z) (q : list HidEvent) (acc : Z) :
  consumed (HID_EVENT_MOTION_AXIS_0 m :: q)
    (snd (kbapp_procEvtScroll_loop (HID_EVENT_MOTION_AXIS_0 m :: q) acc)).
Proof.
  cbn [kbapp_procEvtScroll_loop].
  destruct (scrollCombining kbAppConfig).
  - destruct (procEvtScroll_loop_drop q (acc + m)) as [n ->].
    exists n. reflexivity.
  - apply consumed_tail.
Qed.

Lemma procEvtScroll_handled (s : tKbAppState) (m : Z) (q : list HidEvent) :
  eventQueue s = HID_EVENT_MOTION_AXIS_0 m :: q ->
  wf_reports s ->
  wf_reports (kbapp_procEvtScroll s) /\
  consumed (eventQueue s) (eventQueue (kbapp_procEvtScroll s)) /\
  pinCodeEntryInProgress (kbapp_procEvtScroll s) = pinCodeEntryInProgress s.
Proof.
  intros Hq Hwf. unfold kbapp_procEvtScroll.
  cbn [eventQueue set_motionAxis0 set_scrollReport scrollReport motionAxis0].
  pose proof (procEvtScroll_loop_consumed m q 0) as Hc.
  rewrite Hq.
  destruct (kbapp_procEvtScroll_loop (HID_EVENT_MOTION_AXIS_0 m :: q) 0)
    as [m' q'] eqn:E.
  cbn [snd] in Hc.
  match goal with
  | |- wf_reports (kbapp_txModifiedKeyReports ?t) /\ _ =>
      destruct (txModifiedKeyReports_same t) as (H1 & H2 & H3 & H4);
      assert (Hp : pinCodeEntryInProgress (kbapp_txModifiedKeyReports t)
                   = pinCodeEntryInProgress t)
  end.
  { unfold kbapp_txModifiedKeyReports.
    destruct (recoveryInProgress _ =? 0); [|reflexivity].
    destruct (stdRptChanged _); cbn;
      (destruct (kbapp_protocol _ =? PROTOCOL_REPORT); [|reflexivity]);
      destruct (bitRptChanged _); cbn;
      destruct (slpRptChanged _); cbn;
      destruct (funcLockRptChanged _); cbn;
      unfold kbapp_scrollRptSend; cbn;
      destruct (scrollRptChanged _); cbn;
      try destruct (host_transport _); reflexivity. }
  cbn zeta in H1, H2, H3, H4.
  split; [|split].
  - unfold wf_reports, wf_std, wf_bit. rewrite H1, H2, H3.
    destruct (negb _); exact Hwf.
  - rewrite H4. destruct (negb _); exact Hc.
  - rewrite Hp. destruct (negb _); reflexivity.
Qed.

Lemma generateAndTxReports_loop_drains (pool : list Z) (s : tKbAppState) :
  wf_keyConfig ->
  wf_reports s ->
  key_codes_nonneg (eventQueue s) ->
  no_user_events (eventQueue s) ->
  Forall (fun p => p < 80) pool ->
  (length (eventQueue s) < length pool)%nat ->
  exists s' : tKbAppState,
    kbapp_generateAndTxReports_loop pool s = Done s' /\
    eventQueue s' = [] /\
    wf_reports s'.
Proof.
  intros Hcfg Hwf Hk Hu Hpool. revert s Hwf Hk Hu.
  induction Hpool as [|p pool Hp _ IH]; intros s Hwf Hk Hu Hlen;
    [cbn in Hlen; lia|].
  cbn [kbapp_generateAndTxReports_loop].
  destruct (Z.ltb_spec p 80); [|lia].
  unfold wiced_hidd_event_queue_get_current_element.
  destruct (eventQueue s) as [|e q] eqn:Eq; cbn [head].
  { exists s. split; [reflexivity|]. split; [exact Eq|exact Hwf]. }
  assert (Hnext : forall s1 : tKbAppState,
             wf_reports s1 ->
             consumed (e :: q) (eventQueue s1) ->
             exists s' : tKbAppState,
               kbapp_generateAndTxReports_loop pool s1 = Done s' /\
               eventQueue s' = [] /\ wf_reports s').
  { intros s1 Hwf1 Hc. apply IH.
    - exact Hwf1.
    - exact (consumed_Forall _ _ _ Hc Hk).
    - exact (consumed_Forall _ _ _ Hc Hu).
    - apply consumed_length in Hc. cbn in Hc, Hlen. lia. }
  destruct e as [k f|m| |t].
  - destruct (procEvtKey_loop_handled (S (length (eventQueue s))) s Hcfg
                ltac:(lia) Hwf ltac:(rewrite Eq; exact Hk))
      as (s1 & Hrun & Hwf1 & _ & Hc).
    unfold kbapp_procEvtKey. rewrite Hrun. cbn [bind].
    rewrite Eq in Hc. now apply Hnext.
  - cbn [bind].
    destruct (procEvtScroll_handled s m q Eq Hwf) as (Hwf1 & Hc & _).
    rewrite Eq in Hc. now apply Hnext.
  - cbn [bind]. unfold kbapp_procErrEvtQueue.
    destruct (stdErrRespWithFwHwReset_handled s Hwf) as (Hwf1 & _ & _).
    destruct (stdErrRespWithFwHwReset_fields s) as (_ & Hq' & _).
    cbn zeta in Hq'.
    apply Hnext; [exact Hwf1|]. rewrite Hq'. apply consumed_nil.
  - exfalso. now inversion Hu.
Qed.

(** X18: a poll works through the whole queue.  Outside pin entry, with the
    buffer pool below 80 at every reading, a well-formed configuration and
    state, and a queue of key, scroll and overflow events,
    [kbapp_generateAndTxReports] returns after at most one reading more than
    there are events queued; the queue is empty then and the reports are
    well-formed. *)
Theorem generateAndTxReports_drains_queue (pool : list Z) (u clk : Z)
  (s : tKbAppState) :
  wf_keyConfig ->
  wf_reports s ->
  key_codes_nonneg (eventQueue s) ->
  no_user_events (eventQueue s) ->
  pinCodeEntryInProgress s = PIN_ENTRY_MODE_NONE ->
  Forall (fun p => p < 80) pool ->
  (length (eventQueue s) < length pool)%nat ->
  exists s' : tKbAppState,
    kbapp_generateAndTxReports pool u clk s = Done s' /\
    eventQueue s' = [] /\
    wf_reports s'.
Proof.
  intros Hcfg Hwf Hk Hu Hpin Hpool Hlen. unfold kbapp_generateAndTxReports.
  rewrite Hpin, Z.eqb_refl. cbn [negb].
  destruct (generateAndTxReports_countdown_frame s) as [Hq0 _].
  cbn zeta in Hq0.
  match goal with
  | |- exists s', bind (kbapp_generateAndTxReports_loop pool ?t) _ = _ /\ _ =>
      assert (Hwf0 : wf_reports t);
      [|destruct (generateAndTxReports_loop_drains pool t Hcfg Hwf0)
          as (s1 & Hrun & Hq1 & Hwf1);
        [rewrite Hq0; exact Hk|rewrite Hq0; exact Hu|exact Hpool
        |rewrite Hq0; exact Hlen|]]
  end.
  { destruct (negb _); [|exact Hwf].
    cbn [recoveryInProgress set_recoveryInProgress].
    destruct (_ =? 0); [|exact Hwf].
    match goal with
    | |- wf_reports (kbapp_txModifiedKeyReports ?t) =>
        destruct (txModifiedKeyReports_same t) as (H1 & H2 & H3 & _)
    end.
    cbn zeta in H1, H2, H3.
    unfold wf_reports, wf_std, wf_bit. rewrite H1, H2, H3. exact Hwf. }
  rewrite Hrun. cbn [bind]. eexists. split; [reflexivity|].
  split.
  - rewrite (proj1 (idleRateProc_frame u clk s1)). exact Hq1.
  - unfold kbapp_idleRateProc. destruct (_ && _); exact Hwf1.
Qed.

(** *** Idle rate *)

(** X19: the idle rate set by the host is the one read back, and it governs
    the repetition of the standard report.  A rate of zero switches the
    repetition off; with a rate [r] above zero, a key held, no recovery, an
    empty queue and the buffer pool below 80, the idle-rate processing sends
    the standard report again exactly when [r * 192 / 15] Bluetooth clocks
    have passed since it was last sent. *)
Theorem setIdleRate_governs_repetition (r : Z) (s : tKbAppState) :
  0 <= r < 256 ->
  let s' := snd (kbapp_setIdleRate r s) in
  fst (kbapp_setIdleRate r s) = HID_PAR_HANDSHAKE_RSP_SUCCESS /\
  kbapp_getIdleRate s' = r /\
  idleRateInBtClocks s' = r * 192 / 15 /\
  r * 192 < 65536 /\
  (r = 0 -> forall u clk : Z, kbapp_idleRateProc u clk s' = s') /\
  (r <> 0 ->
   recoveryInProgress s = 0 ->
   eventQueue s = [] ->
   keysInStdRpt s <> 0 \/ modKeysInStdRpt s <> 0 ->
   forall u clk : Z,
     u < 80 ->
     trace (kbapp_idleRateProc u clk s')
     = trace s ++ (if r * 192 / 15 <=? clk then [TxStdRpt (stdRpt s)]
                   else [])).
Proof.
  intros Hrange. cbn zeta. unfold kbapp_setIdleRate. cbn [fst snd].
  split; [reflexivity|]. split; [reflexivity|]. split; [reflexivity|].
  split; [lia|].
  unfold kbapp_idleRateProc, wiced_hidd_event_queue_get_num_elements.
  cbn [idleRate set_idleRate set_idleRateInBtClocks recoveryInProgress
       keysInStdRpt modKeysInStdRpt eventQueue idleRateInBtClocks].
  split.
  - intros -> u clk. reflexivity.
  - intros Hr Hrec Hq Hkeys u clk Hu.
    rewrite Hrec, Hq.
    destruct (Z.eqb_spec r 0); [contradiction|].
    assert (Hk : negb (keysInStdRpt s =? 0) || negb (modKeysInStdRpt s =? 0)
                 = true).
    { destruct (Z.eqb_spec (keysInStdRpt s) 0);
        destruct (Z.eqb_spec (modKeysInStdRpt s) 0);
        try reflexivity. lia. }
    rewrite Hk. destruct (Z.ltb_spec u 80); [|lia].
    cbn [negb andb length Z.of_nat Z.eqb].
    destruct (_ <=? clk); [reflexivity|]. cbn. now rewrite app_nil_r.
Qed.

(** *** The func-lock state across sleep *)

(** X20: the func-lock state survives a shutdown sleep.  Every func-lock key
    event leaves the copy of the lock state in retention memory equal to the
    lock state, so that restoring the state from that copy on wake-up gives
    the lock state back; after a power-on reset nothing is restored. *)
Theorem funcLock_state_survives_sleep (s : tKbAppState) (f k t : Z) :
  kbapp_funcLock_state s = state (funcLockInfo s) ->
  let s' := kbapp_funcLockProcEvtKey f k t s in
  kbapp_funcLock_state s' = state (funcLockInfo s') /\
  funcLockInfo (fst (kbapp_aon_restore false s')) = funcLockInfo s' /\
  (forall lost : FuncLockState,
     state (funcLockInfo (fst (kbapp_aon_restore false (set_state lost s'))))
     = state (funcLockInfo s')) /\
  kbapp_aon_restore true s' = (s', []).
Proof.
  intros Hinv. cbn zeta.
  assert (H : kbapp_funcLock_state (kbapp_funcLockProcEvtKey f k t s)
              = state (funcLockInfo (kbapp_funcLockProcEvtKey f k t s))).
  { unfold kbapp_funcLockProcEvtKey, kbapp_funcLockToggle.
    destruct (_ && _); [|exact Hinv].
    destruct (f =? KEY_DOWN); destruct (kepPosition (funcLockInfo s));
      cbn; try exact Hinv; try reflexivity.
    destruct (toggleStateOnKeyUp (funcLockInfo s)); cbn;
      [reflexivity|exact Hinv]. }
  split; [exact H|]. revert H.
  generalize (kbapp_funcLockProcEvtKey f k t s). intros s' H.
  unfold kbapp_aon_restore. cbn [negb fst].
  split; [|split; [|reflexivity]].
  - unfold set_state. cbn [funcLockInfo set_funcLockInfo]. rewrite H.
    destruct (funcLockInfo s'). reflexivity.
  - intros lost. cbn. exact H.
Qed.

(** *** The LED output report *)

Context {lh : LedHeader}.

Lemma caps_led_update_calls (s : tKbLedState) :
  ledReport (caps_led_update s) = ledReport s /\
  blekb_kb_output_rpt (caps_led_update s) = blekb_kb_output_rpt s /\
  led_calls (caps_led_update s)
  = led_calls s ++ [if Z.testbit (ledStates (ledReport s)) 1
                    then kb_LED_on KB_LED_CAPS else kb_LED_off KB_LED_CAPS].
Proof.
  unfold caps_led_update.
  change 2 with (2 ^ 1). rewrite land_pow2_eq0 by lia.
  destruct (Z.testbit _ 1); repeat split.
Qed.

Lemma procLedRpt_run (payload : list Z) (s : tKbLedState) :
  0 <= offsetof_ledStates < sizeof_KeyboardLedReport ->
  Z.of_nat (length payload) = sizeof_KeyboardLedReport ->
  exists v : Z,
    payload !! Z.to_nat offsetof_ledStates = Some v /\
    kbapp_procLedRpt payload (Z.of_nat (length payload)) s
    = Done (HID_PAR_HANDSHAKE_RSP_SUCCESS,
            caps_led_update (set_ledStates v s)).
Proof.
  intros Hoff Hsize. unfold kbapp_procLedRpt. rewrite Hsize, Z.eqb_refl.
  destruct (rd_in_range payload offsetof_ledStates) as (v & -> & Hv); [lia|].
  exists v. split; [exact Hv|reflexivity].
Qed.

(** X21: a set-report request changes the LEDs only when it carries a valid
    LED report.  The request succeeds exactly when it is an output report of
    at least two bytes that starts with the LED report ID and has the size
    of the LED report; then the LED states are the byte of the payload at
    the place of that member and the caps lock LED follows bit 1 of it.  Any
    other request is refused and leaves the LED state as it was. *)
Theorem setReport_accepts_only_the_led_report (reportType : Z)
  (payload : list Z) (s : tKbLedState) :
  0 <= offsetof_ledStates < sizeof_KeyboardLedReport ->
  exists (r : HandshakeRsp) (s' : tKbLedState),
    kbapp_setReport reportType payload (Z.of_nat (length payload)) s
    = Done (r, s') /\
    (r = HID_PAR_HANDSHAKE_RSP_SUCCESS <->
     reportType = HID_PAR_REP_TYPE_OUTPUT /\
     2 <= Z.of_nat (length payload) /\
     payload !! 0%nat = Some ledReportID /\
     Z.of_nat (length payload) = sizeof_KeyboardLedReport) /\
    (r <> HID_PAR_HANDSHAKE_RSP_SUCCESS -> s' = s) /\
    (r = HID_PAR_HANDSHAKE_RSP_SUCCESS ->
     exists v : Z,
       payload !! Z.to_nat offsetof_ledStates = Some v /\
       ledStates (ledReport s') = v /\
       led_reportID (ledReport s') = led_reportID (ledReport s) /\
       blekb_kb_output_rpt s' = blekb_kb_output_rpt s /\
       led_calls s'
       = led_calls s ++ [if Z.testbit v 1 then kb_LED_on KB_LED_CAPS
                         else kb_LED_off KB_LED_CAPS]).
Proof.
  intros Hoff. unfold kbapp_setReport.
  destruct (Z.eqb_spec reportType HID_PAR_REP_TYPE_OUTPUT) as [Et|Et].
  2:{ exists HID_PAR_HANDSHAKE_RSP_ERR_UNSUPPORTED_REQ, s.
      split; [reflexivity|].
      split; [split; [discriminate|intros (? & _); contradiction]|].
      split; [reflexivity|discriminate]. }
  destruct (Z.leb_spec 2 (Z.of_nat (length payload))) as [H2|H2].
  2:{ exists HID_PAR_HANDSHAKE_RSP_ERR_INVALID_PARAM, s.
      split; [reflexivity|].
      split; [split; [discriminate|intros (_ & ? & _); lia]|].
      split; [reflexivity|discriminate]. }
  destruct (rd_in_range payload 0) as (id & -> & Hid); [lia|].
  cbn [bind]. change (Z.to_nat 0) with 0%nat in Hid.
  destruct (Z.eqb_spec id ledReportID) as [Ei|Ei].
  2:{ exists HID_PAR_HANDSHAKE_RSP_ERR_INVALID_REP_ID, s.
      split; [reflexivity|].
      split; [split; [discriminate|intros (_ & _ & ? & _); congruence]|].
      split; [reflexivity|discriminate]. }
  destruct (Z.eq_dec (Z.of_nat (length payload)) sizeof_KeyboardLedReport)
    as [Es|Es].
  - destruct (procLedRpt_run payload s Hoff Es) as (v & Hv & ->).
    destruct (caps_led_update_calls (set_ledStates v s)) as (Hr & Hg & Hc).
    eexists _, _. split; [reflexivity|].
    split; [split; [intros _; repeat split; try assumption; congruence
                   |reflexivity]|].
    split; [intros H; now elim H|].
    intros _. exists v. split; [exact Hv|].
    rewrite Hr, Hg, Hc. repeat split.
  - exists HID_PAR_HANDSHAKE_RSP_ERR_INVALID_PARAM, s.
    unfold kbapp_procLedRpt.
    destruct (Z.eqb_spec (Z.of_nat (length payload)) sizeof_KeyboardLedReport);
      [contradiction|].
    split; [reflexivity|].
    split; [split; [discriminate|intros (_ & _ & _ & ?); contradiction]|].
    split; [reflexivity|discriminate].
Qed.

(** X22: the data handler looks at the first byte of the payload before it
    looks at the size.  With an empty payload of an output report it reads
    outside the payload; with a payload of one byte or more it leaves the LED
    state the set-report handler leaves for the same payload.  The handler of
    the LE transport looks at the size first and never reads outside the
    payload; when it accepts a report, the LED states and the copy it keeps
    of the output report are the first byte of the payload. *)
Theorem rxData_reads_payload_before_size (s : tKbLedState) :
  kbapp_rxData HID_PAR_REP_TYPE_OUTPUT [] 0 s = OutOfBounds /\
  (forall (reportType reportId : Z) (payload : list Z),
     exists s' : tKbLedState,
       blekb_setReport reportType reportId payload
         (Z.of_nat (length payload)) s = Done s' /\
       (s' = s \/
        exists v : Z,
          payload !! 0%nat = Some v /\
          ledStates (ledReport s') = v /\
          blekb_kb_output_rpt s' = v)) /\
  (forall payload : list Z,
     payload <> [] ->
     0 <= offsetof_ledStates < sizeof_KeyboardLedReport ->
     2 <= sizeof_KeyboardLedReport ->
     exists (r : HandshakeRsp) (s' : tKbLedState),
       kbapp_setReport HID_PAR_REP_TYPE_OUTPUT payload
         (Z.of_nat (length payload)) s = Done (r, s') /\
       kbapp_rxData HID_PAR_REP_TYPE_OUTPUT payload
         (Z.of_nat (length payload)) s = Done s').
Proof.
  split; [|split].
  - unfold kbapp_rxData. now rewrite Z.eqb_refl.
  - intros reportType reportId payload. unfold blekb_setReport.
    destruct (_ =? WICED_HID_REPORT_TYPE_OUTPUT);
      [|exists s; split; [reflexivity|now left]].
    destruct (Z.leb_spec 1 (Z.of_nat (length payload)));
      [|exists s; split; [reflexivity|now left]].
    destruct (_ =? ledReportID); [|exists s; split; [reflexivity|now left]].
    destruct (rd_in_range payload 0) as (v & -> & Hv); [lia|].
    eexists. split; [reflexivity|]. right. exists v.
    split; [exact Hv|].
    destruct (caps_led_update_calls
                (set_ledStates v (set_blekb_kb_output_rpt v s)))
      as (Hr & Hg & _).
    cbn [bind]. cbv zeta.
    change (blekb_kb_output_rpt (set_blekb_kb_output_rpt v s)) with v.
    rewrite Hr, Hg. split; reflexivity.
  - intros payload Hne Hoff H2. unfold kbapp_rxData, kbapp_setReport.
    rewrite Z.eqb_refl.
    destruct payload as [|id rest]; [contradiction|].
    change (rd (id :: rest) 0) with (Done id). cbn [bind].
    destruct (Z.leb_spec 1 (Z.of_nat (length (id :: rest)))) as [_|H1];
      [|cbn [length] in H1; lia].
    rewrite andb_true_r.
    destruct (Z.leb_spec 2 (Z.of_nat (length (id :: rest)))) as [Hl|Hl].
    + destruct (id =? ledReportID); [|eexists _, _; split; reflexivity].
      destruct (Z.eq_dec (Z.of_nat (length (id :: rest)))
                  sizeof_KeyboardLedReport) as [Es|Es].
      * destruct (procLedRpt_run (id :: rest) s Hoff Es) as (v & _ & ->).
        eexists _, _. split; reflexivity.
      * unfold kbapp_procLedRpt.
        destruct (Z.eqb_spec (Z.of_nat (length (id :: rest)))
                    sizeof_KeyboardLedReport); [contradiction|].
        eexists _, _. split; reflexivity.
    + eexists _, s. split; [reflexivity|].
      destruct (id =? ledReportID); [|reflexivity].
      unfold kbapp_procLedRpt.
      destruct (Z.eqb_spec (Z.of_nat (length (id :: rest)))
                  sizeof_KeyboardLedReport); [lia|reflexivity].
Qed.

(** *** Func-lock dependent keys *)

(** X23: a func-lock dependent key that goes up is in neither report
    afterwards.  Whatever the lock state and the protocol, the key-up takes
    the standard code of the key out of the standard report and clears its
    bit in the bit-mapped report; the other keys and bits and the func-lock
    state are left as they were. *)
Theorem funcLockProcEvtDepKey_up_clears_both_reports (s : tKbAppState)
  (k idx : Z) :
  wf_reports s ->
  NoDup (std_keys s) ->
  0 <= idx < 13 ->
  exists (e : KbFuncLockDepKeyTransTab) (s' : tKbAppState),
    rd kbFuncLockDepKeyTransTab idx = Done e /\
    kbapp_funcLockProcEvtDepKey KEY_UP k idx s = Done s' /\
    ~ In (stdRptCode e) (std_keys s') /\
    (bitRptCode e < numBitMappedKeys kbAppConfig ->
     bit_at (bitMappedKeys (bitMappedReport s')) (Z.to_nat (bitRptCode e))
     = false) /\
    (forall x : Z,
       x <> stdRptCode e -> (In x (std_keys s') <-> In x (std_keys s))) /\
    (forall p : nat,
       p <> Z.to_nat (bitRptCode e) ->
       bit_at (bitMappedKeys (bitMappedReport s')) p
       = bit_at (bitMappedKeys (bitMappedReport s)) p) /\
    funcLockInfo s' = funcLockInfo s.
Proof.
  intros Hwf Hnd Hidx. pose proof Hwf as (Hstd & Hbit & Hmax & H255).
  destruct (kbFuncLockDepKeyTransTab_entry idx Hidx) as (e & Hrd & He).
  exists e. unfold kbapp_funcLockProcEvtDepKey.
  change (KEY_UP =? KEY_DOWN) with false. cbv iota.
  rewrite Hrd. cbn [bind].
  unfold kbapp_stdRptProcEvtKey.
  change (KEY_UP =? KEY_DOWN) with false. cbv iota.
  (* the standard report *)
  assert (H1 : exists s1 : tKbAppState,
             kbapp_stdRptProcEvtKeyUp KEY_UP k (stdRptCode e) s = Done s1 /\
             ~ In (stdRptCode e) (std_keys s1) /\
             (forall x : Z,
                x <> stdRptCode e ->
                (In x (std_keys s1) <-> In x (std_keys s))) /\
             bitMappedReport s1 = bitMappedReport s /\
             funcLockInfo s1 = funcLockInfo s).
  { destruct (KeyUp_frame s KEY_UP k (stdRptCode e) Hstd)
      as (s1 & Hrun & (Hfl & _) & Hb & _).
    exists s1. split; [exact Hrun|].
    destruct (In_dec Z.eq_dec (stdRptCode e) (std_keys s)) as [Hin|Hnot].
    - destruct (In_std_keys_lookup s _ Hin) as (j & Hj & Hc).
      destruct (KeyUp_present s KEY_UP k _ j Hstd Hnd Hj Hc)
        as (s1' & y & Hrun' & Hy & Hkc & Hk & _).
      rewrite Hrun in Hrun'. injection Hrun' as <-.
      pose proof (std_keys_after_KeyUp s s1 _ y j Hstd Hnd Hj Hc Hy Hkc Hk)
        as Hperm.
      assert (Hnd' : NoDup (stdRptCode e :: std_keys s1))
        by now rewrite <- Hperm.
      apply NoDup_cons in Hnd'. destruct Hnd' as [Hnot _].
      split; [now rewrite <- list_elem_of_In|].
      split; [|split; assumption].
      intros x Hx. rewrite <- !list_elem_of_In, Hperm, elem_of_cons.
      split; [now right|]. intros [->|H]; [contradiction|exact H].
    - rewrite KeyUp_absent in Hrun by assumption. injection Hrun as <-.
      split; [exact Hnot|]. split; [reflexivity|]. split; assumption. }
  destruct H1 as (s1 & -> & Hnot & Hother & Hb1 & Hfl1). cbn [bind].
  (* the bit-mapped report *)
  assert (Hbit1 : wf_bit s1) by (unfold wf_bit; rewrite Hb1; exact Hbit).
  destruct (Z.lt_ge_cases (bitRptCode e) (numBitMappedKeys kbAppConfig))
    as [Hlt|Hge].
  - destruct (bitRptProcEvtKey_run s1 KEY_UP k (bitRptCode e) He Hbit1 Hlt)
      as (b & Hb & Hat & Hrun).
    rewrite Hrun. change (KEY_UP =? KEY_DOWN) with false. cbv iota.
    eexists. split; [reflexivity|]. split; [reflexivity|].
    destruct (Z.testbit b (Z.land (bitRptCode e) 7)) eqn:Eb.
    + cbn [std_keys keysInStdRpt stdRpt set_bitRptChanged set_keysInBitRpt
           set_bitMappedKeys set_bitMappedReport bitMappedReport bitMappedKeys
           funcLockInfo].
      fold (std_keys s1).
      split; [exact Hnot|].
      split; [intros _; rewrite (bit_at_insert_clear _ _ b _ He Hb),
                Nat.eqb_refl; apply andb_false_r|].
      split; [exact Hother|].
      split; [|exact Hfl1].
      intros p Hp. rewrite (bit_at_insert_clear _ _ b _ He Hb), <- Hb1.
      destruct (Nat.eqb_spec p (Z.to_nat (bitRptCode e))); [contradiction|].
      apply andb_true_r.
    + split; [exact Hnot|]. split; [intros _; congruence|].
      split; [exact Hother|]. split; [|exact Hfl1].
      intros p _. now rewrite Hb1.
  - unfold kbapp_bitRptProcEvtKey.
    destruct (Z.ltb_spec (bitRptCode e) (numBitMappedKeys kbAppConfig));
      [lia|].
    eexists. split; [reflexivity|]. split; [reflexivity|].
    split; [exact Hnot|]. split; [intros; lia|].
    split; [exact Hother|]. split; [|exact Hfl1].
    intros p _. now rewrite Hb1.
Qed.
End Properties.

(** Witness of C4: a state two polls before the end of a recovery. *)
Lemma recovery_suppresses_tx_and_funcLock_witness :
  recoveryInProgress (set_recoveryInProgress 2 busy_state) <> 0 /\
  kbapp_txModifiedKeyReports (fw := demo_firmware)
    (set_recoveryInProgress 2 busy_state)
  = set_recoveryInProgress 2 busy_state.
Proof.
  assert (H : recoveryInProgress (set_recoveryInProgress 2 busy_state) <> 0)
    by (simpl; lia).
  split; [exact H|].
  exact (proj1 (proj2 (recovery_suppresses_tx_and_funcLock (fw := demo_firmware)
                         (set_recoveryInProgress 2 busy_state) H))).
Defined.

(** Witness of X24: the busy state in boot protocol is switched to report
    protocol, and asked for report protocol once more. *)
Lemma setProtocol_clears_only_on_switch_to_report_witness :
  (kbapp_protocol (set_kbapp_protocol PROTOCOL_BOOT busy_state) = PROTOCOL_BOOT /\
   keysInBitRpt
     (kbapp_setProtocol (fw := demo_firmware) HID_PAR_PROTOCOL_REPORT
        (set_kbapp_protocol PROTOCOL_BOOT busy_state)) = 0) /\
  (HID_PAR_PROTOCOL_REPORT = kbapp_protocol busy_state /\
   kbapp_setProtocol (fw := demo_firmware) HID_PAR_PROTOCOL_REPORT busy_state
   = set_kbapp_protocol HID_PAR_PROTOCOL_REPORT busy_state).
Proof.
  split.
  - split; [reflexivity|].
    exact (proj1 (proj2 (proj1 (setProtocol_clears_only_on_switch_to_report
             (fw := demo_firmware)
             (set_kbapp_protocol PROTOCOL_BOOT busy_state)
             HID_PAR_PROTOCOL_REPORT) eq_refl eq_refl))).
  - split; [reflexivity|].
    exact (proj2 (setProtocol_clears_only_on_switch_to_report
             (fw := demo_firmware) busy_state HID_PAR_PROTOCOL_REPORT)
             (or_introl eq_refl)).
Defined.

(** C1: the error response marks three of the five dynamic reports.  In
    every state it leaves the func-lock and the scroll report unmarked.  On
    the busy state, where a func-lock report and a scroll report wait to be
    sent, not all five reports are marked after the response, and the three
    polls of the recovery that follows send the standard, the bit-mapped and
    the sleep report and neither the func-lock nor the scroll report, which
    are still unmarked at the end. *)
Theorem stdErrResp_drops_waiting_funcLock_and_scroll :
  (forall (fw : Firmware) (s : tKbAppState),
     funcLockRptChanged (kbapp_stdErrResp s) = false /\
     scrollRptChanged (kbapp_stdErrResp s) = false) /\
  funcLockRptChanged busy_state = true /\
  scrollRptChanged busy_state = true /\
  ~ all_dynamic_reports_dirty
      (kbapp_stdErrResp (fw := demo_firmware) busy_state) /\
  exists t : tKbAppState,
    polls (fw := demo_firmware) [([0], 0, 0); ([10], 0, 0); ([0; 0], 0, 0)]
      (kbapp_stdErrRespWithFwHwReset (fw := demo_firmware) busy_state)
    = Done t /\
    recoveryInProgress t = 0 /\
    funcLockRptChanged t = false /\
    scrollRptChanged t = false /\
    trace t
    = [ TxRolloverRpt; KeyscanReset;
        TxStdRpt (mkStdRpt 1 0 0 [0; 0; 0; 0; 0; 0]);
        TxBitRpt (mkBitRpt 2 [0; 0; 0]);
        TxSlpRpt (mkSlpRpt 3 0) ].
Proof.
  split.
  { intros fw s. unfold kbapp_stdErrResp. cbn.
    destruct (recoveryInProgress s =? 0); cbn; split; reflexivity. }
  split; [reflexivity|]. split; [reflexivity|]. split.
  { intros (_ & _ & _ & H & _). vm_compute in H. discriminate H. }
  eexists. split; [lazy; reflexivity|].
  repeat split.
Qed.

(** C7: the handler of the Protocol Mode characteristic of the LE
    transport stores the protocol it is sent and registers the report table
    of that protocol, and does nothing else.  On the busy state, connected
    over LE and in boot protocol, a write of report protocol takes the
    keyboard to report protocol and leaves the two bit-mapped keys, the sleep
    value, the scroll motion with its change flag and the func-lock key
    position as they were, where [kbapp_setProtocol] clears each of them; the
    transmission that follows sends the bit-mapped, the sleep and the scroll
    report of the time in boot protocol. *)
Theorem blekb_setProtocol_switches_without_clearing :
  (forall (reportType reportId v : Z) (rest : list Z) (payloadSize : Z)
          (s : tKbAppState),
     blekb_setProtocol reportType reportId (v :: rest) payloadSize s
     = Done (set_kbapp_protocol v s,
             if v =? PROTOCOL_REPORT then reportModeGattMap
             else bootModeGattMap)) /\
  exists s' : tKbAppState,
    blekb_setProtocol 0 0 [PROTOCOL_REPORT] 1
      (set_host_transport BT_TRANSPORT_LE
         (set_kbapp_protocol PROTOCOL_BOOT busy_state))
    = Done (s', reportModeGattMap) /\
    kbapp_protocol s' = PROTOCOL_REPORT /\
    (keysInBitRpt s' = 2 /\
     bitMappedKeys (bitMappedReport s') = [5; 0; 0] /\
     sleepVal (slpRpt s') = 1 /\
     motionAxis0 (scrollReport s') = 3 /\
     scrollRptChanged s' = true /\
     kepPosition (funcLockInfo s') = FUNC_LOCK_KEY_DOWN) /\
    (let r := kbapp_setProtocol (fw := demo_firmware) HID_PAR_PROTOCOL_REPORT
                (set_host_transport BT_TRANSPORT_LE
                   (set_kbapp_protocol PROTOCOL_BOOT busy_state)) in
     kbapp_protocol r = PROTOCOL_REPORT /\
     keysInBitRpt r = 0 /\
     bitMappedKeys (bitMappedReport r) = [0; 0; 0] /\
     sleepVal (slpRpt r) = 0 /\
     motionAxis0 (scrollReport r) = 0 /\
     scrollRptChanged r = false /\
     kepPosition (funcLockInfo r) = FUNC_LOCK_KEY_UP) /\
    trace (kbapp_txModifiedKeyReports (fw := demo_firmware) s')
    = [ TxStdRpt (mkStdRpt 1 0 0 [4; 5; 0; 0; 0; 0]);
        TxBitRpt (mkBitRpt 2 [5; 0; 0]);
        TxSlpRpt (mkSlpRpt 3 1);
        TxFuncLockRpt (mkFuncLockRpt 6 3);
        TxScrollRptLE (@SCROLL_REPORT_VOLUME_UP demo_firmware);
        TxScrollRptLE 0 ].
Proof.
  split.
  { intros reportType reportId v rest payloadSize s.
    unfold blekb_setProtocol. change (rd (v :: rest) 0) with (Done v).
    cbn [bind]. cbv zeta.
    change (kbapp_protocol (set_kbapp_protocol v s)) with v.
    now destruct (v =? PROTOCOL_REPORT). }
  eexists. split; [lazy; reflexivity|].
  repeat split.
Qed.

(** Witness of X25: the three polls of the demonstration recovery. *)
Lemma stdErrResp_marks_key_reports_witness :
  (pinCodeEntryInProgress busy_state = @PIN_ENTRY_MODE_NONE demo_firmware /\
   0 < recoveryPollCount (@kbAppConfig demo_firmware) < 256 /\
   Z.of_nat (length [([0], 0, 0); ([10], 0, 0); ([0; 0], 0, 0)])
   = recoveryPollCount (@kbAppConfig demo_firmware) /\
   Forall (fun e : list Z * Z * Z => fst (fst e) <> [])
     [([0], 0, 0); ([10], 0, 0); ([0; 0], 0, 0)]) /\
  exists t : tKbAppState,
    polls (fw := demo_firmware) [([0], 0, 0); ([10], 0, 0); ([0; 0], 0, 0)]
      (kbapp_stdErrRespWithFwHwReset (fw := demo_firmware) busy_state)
    = Done t /\
    recoveryInProgress t = 0 /\
    trace t
    = [ TxRolloverRpt; KeyscanReset;
        TxStdRpt (mkStdRpt 1 0 0 [0; 0; 0; 0; 0; 0]);
        TxBitRpt (mkBitRpt 2 [0; 0; 0]);
        TxSlpRpt (mkSlpRpt 3 0) ].
Proof.
  assert (H1 : pinCodeEntryInProgress busy_state
               = @PIN_ENTRY_MODE_NONE demo_firmware) by reflexivity.
  assert (H2 : 0 < recoveryPollCount (@kbAppConfig demo_firmware) < 256)
    by (cbn; lia).
  assert (H3 : Z.of_nat (length [([0], 0, 0); ([10], 0, 0); ([0; 0], 0, 0)])
               = recoveryPollCount (@kbAppConfig demo_firmware))
    by reflexivity.
  assert (H4 : Forall (fun e : list Z * Z * Z => fst (fst e) <> [])
                 [([0], 0, 0); ([10], 0, 0); ([0; 0], 0, 0)])
    by (repeat constructor; discriminate).
  split; [repeat split; assumption || apply H2|].
  exact (proj2 (stdErrResp_marks_key_reports (fw := demo_firmware) busy_state)
           _ H1 H2 H3 H4).
Defined.

(** Counterexample to C2 as stated: the code 4 is in the report of the busy
    state; its key-down changes nothing and the key-up that follows removes
    it, so that one key is left where there were two. *)
Lemma key_pair_restores_fails :
  ~ key_pair_restores (fw := demo_firmware) busy_state 4.
Proof.
  intros H.
  assert (Hin : In 4 (std_keys busy_state)) by (left; reflexivity).
  assert (Hd : kbapp_stdRptProcEvtKey (fw := demo_firmware) KEY_DOWN 0 4
                 busy_state = Done busy_state)
    by (vm_compute; reflexivity).
  assert (Hu : kbapp_stdRptProcEvtKey (fw := demo_firmware) KEY_UP 0 4
                 busy_state
               = Done (set_keysInStdRpt 1
                         (set_keyCodes [5; 0; 0; 0; 0; 0] busy_state)))
    by (vm_compute; reflexivity).
  destruct (H _ _ (or_introl Hin) Hd Hu) as [_ Hn].
  vm_compute in Hn. discriminate Hn.
Defined.

(** Witness of C2, amended: the key with code 4 pressed and released on a
    keyboard with no key down. *)
Lemma std_key_down_up_pair_witness :
  (wf_std zero_state /\
   maxKeysInStdRpt (@kbAppConfig demo_firmware)
   <= Z.of_nat (length (keyCodes (stdRpt zero_state))) /\
   maxKeysInStdRpt (@kbAppConfig demo_firmware) <= 255 /\
   ~ In 4 (std_keys zero_state) /\
   keysInStdRpt zero_state < maxKeysInStdRpt (@kbAppConfig demo_firmware)) /\
  exists s1 s2 : tKbAppState,
    kbapp_stdRptProcEvtKey (fw := demo_firmware) KEY_DOWN 7 4 zero_state
    = Done s1 /\
    std_keys s1 = std_keys zero_state ++ [4] /\
    keysInStdRpt s1 = keysInStdRpt zero_state + 1 /\
    kbapp_stdRptProcEvtKey (fw := demo_firmware) KEY_UP 7 4 s1 = Done s2 /\
    std_keys s2 = std_keys zero_state /\
    keysInStdRpt s2 = keysInStdRpt zero_state.
Proof.
  assert (H1 : wf_std zero_state) by (split; cbn; lia).
  assert (H2 : maxKeysInStdRpt (@kbAppConfig demo_firmware)
               <= Z.of_nat (length (keyCodes (stdRpt zero_state))))
    by (cbn; lia).
  assert (H3 : maxKeysInStdRpt (@kbAppConfig demo_firmware) <= 255)
    by (cbn; lia).
  assert (H4 : ~ In 4 (std_keys zero_state)) by (cbn; tauto).
  assert (H5 : keysInStdRpt zero_state
               < maxKeysInStdRpt (@kbAppConfig demo_firmware))
    by (cbn; lia).
  split; [repeat split; assumption || apply H1|].
  exact (proj1 (std_key_down_up_pair (fw := demo_firmware) zero_state 7 4
                  H1 H2 H3) H4 H5).
Defined.

(** Witness of C3: seven distinct keys pressed on a keyboard with no key
    down, whose standard report holds six. *)
Lemma rollover_once_per_recovery_window_witness :
  (recoveryInProgress zero_state = 0 /\
   recoveryPollCount (@kbAppConfig demo_firmware) <> 0 /\
   wf_std zero_state /\
   keysInStdRpt zero_state = 0 /\
   Z.of_nat (length [4; 5; 6; 7; 8; 9])
   = maxKeysInStdRpt (@kbAppConfig demo_firmware) /\
   List.NoDup ([4; 5; 6; 7; 8; 9] ++ [10])) /\
  trace (kbapp_stdErrResp (fw := demo_firmware) zero_state)
  = trace zero_state ++ [TxRolloverRpt] /\
  rollovers (trace (Nat.iter 3 (kbapp_stdErrResp (fw := demo_firmware))
                      zero_state)) = 1%nat /\
  exists sK : tKbAppState,
    press_keys (fw := demo_firmware) [4; 5; 6; 7; 8; 9] zero_state = Done sK /\
    std_keys sK = [4; 5; 6; 7; 8; 9] /\
    trace sK = trace zero_state /\
    kbapp_stdRptProcEvtKey (fw := demo_firmware) KEY_DOWN 0 10 sK
    = Done (kbapp_stdRptProcOverflow (fw := demo_firmware) sK) /\
    kbapp_stdRptProcOverflow (fw := demo_firmware) sK
    = emit KeyscanReset
        (wiced_hidd_event_queue_flush
           (kbapp_stdErrResp (fw := demo_firmware) sK)) /\
    (recoveryInProgress zero_state = 0 ->
     rollovers (trace (kbapp_stdRptProcOverflow (fw := demo_firmware) sK))
     = S (rollovers (trace zero_state))).
Proof.
  assert (H1 : recoveryInProgress zero_state = 0) by reflexivity.
  assert (H2 : recoveryPollCount (@kbAppConfig demo_firmware) <> 0)
    by (cbn; lia).
  assert (H3 : wf_std zero_state) by (split; cbn; lia).
  assert (H4 : keysInStdRpt zero_state = 0) by reflexivity.
  assert (H5 : Z.of_nat (length [4; 5; 6; 7; 8; 9])
               = maxKeysInStdRpt (@kbAppConfig demo_firmware))
    by reflexivity.
  assert (H6 : List.NoDup ([4; 5; 6; 7; 8; 9] ++ [10])).
  { cbn. repeat (constructor; [cbn; intuition lia|]). constructor. }
  pose proof (rollover_once_per_recovery_window (fw := demo_firmware)
                zero_state) as (Ha & _ & _ & Hd & He).
  split; [repeat split; assumption || apply H3|].
  split; [exact (Ha H1)|].
  split; [exact (Hd H2 H1 2%nat)|].
  apply (He [4; 5; 6; 7; 8; 9] 10 0 H3 H4 H5); cbn; lia || exact H6.
Defined.

(** Counterexample to C5 as stated: the accumulator value -32768 scaled by
    one bit.  Its negation does not fit an [int16_t]; the function returns
    the quotient 16384, of the sign opposite to the one of the value. *)
Lemma scaleValue_INT16_MIN :
  kbapp_scaleValue INT16_MIN 1 = (16384, 0) /\
  ~ scale_sign_correct INT16_MIN 1.
Proof.
  split; [reflexivity|].
  intros H. unfold scale_sign_correct in H. cbv in H.
  destruct H as (_ & H & _).
  assert (Hsgn : 1 = -1) by (apply H; discriminate).
  discriminate Hsgn.
Defined.

(** Witness of C5, amended: the accumulator value -6 scaled by two bits, and
    the two runs of the claim on the demonstration build. *)
Lemma scaleValue_sign_symmetric_witness :
  (- INT16_MAX <= -6 <= INT16_MAX /\ 0 <= 2) /\
  (let '(q, r) := kbapp_scaleValue (-6) 2 in
   Z.abs q = Z.shiftr (Z.abs (-6)) 2 /\
   (q <> 0 -> Z.sgn q = Z.sgn (-6)) /\
   r = -6 - Z.shiftl q 2 /\
   kbapp_scaleValue (- -6) 2 = (- q, - r)) /\
  eventQueue (scroll_run (fw := demo_firmware) [3; 3; 3; 3] zero_state)
  = [HID_EVENT_MOTION_AXIS_0 0; HID_EVENT_MOTION_AXIS_0 1;
     HID_EVENT_MOTION_AXIS_0 1; HID_EVENT_MOTION_AXIS_0 1] /\
  scrollFractional (scroll_run (fw := demo_firmware) [-3; -3; -3; -3]
                      zero_state) = 0.
Proof.
  assert (H1 : - INT16_MAX <= -6 <= INT16_MAX) by (unfold INT16_MAX; lia).
  assert (H2 : 0 <= 2) by lia.
  pose proof (scaleValue_sign_symmetric (fw := demo_firmware) (-6) 2 H1 H2)
    as [Ha Hb].
  split; [split; assumption|]. split; [exact Ha|].
  destruct (Hb zero_state eq_refl eq_refl eq_refl) as [[Hq _] [_ Hr]].
  - cbn. lia.
  - split; [exact Hq | exact Hr].
Defined.

(** Witness of C9: the first key-down of the bit-mapped key at row 1,
    column 2 on a keyboard with no key down. *)
Lemma bitRpt_counter_matches_bits_witness :
  (0 <= 10 /\
   wf_bit (fw := demo_firmware) zero_state /\
   bitRpt_inv (fw := demo_firmware) zero_state) /\
  exists s' : tKbAppState,
    kbapp_bitRptProcEvtKey (fw := demo_firmware) KEY_DOWN 7 10 zero_state
    = Done s' /\
    bitRpt_inv (fw := demo_firmware) s' /\
    keysInBitRpt s' = bits_set (bitMappedKeys (bitMappedReport s')).
Proof.
  assert (H1 : 0 <= 10) by lia.
  assert (H2 : wf_bit (fw := demo_firmware) zero_state)
    by (split; cbn; lia).
  assert (H3 : bitRpt_inv (fw := demo_firmware) zero_state).
  { split; [reflexivity|]. intros p _. apply (bit_at_replicate0 3 p). }
  split; [repeat split; assumption || apply H2 || apply H3|].
  destruct (proj2 (bitRpt_counter_matches_bits (fw := demo_firmware)
                     zero_state) KEY_DOWN 7 10 H1 H2 H3)
    as (s' & Hrun & Hinv & Hcnt & _).
  exists s'. repeat split; assumption || apply Hinv.
Defined.

(** ** Instances of the properties of the rest of the program *)

(** Witness of X1: a scan cycle in which only the connect button, of scan
    index 200, goes down and up. *)
Lemma pollActivityKey_connect_button_witness :
  Forall (connect_or_end_of_scan (fw := demo_firmware))
    [(200, KEY_DOWN); (0xFE, KEY_DOWN); (200, KEY_UP); (0xFE, KEY_DOWN)] /\
  eventQueue
    (kbapp_pollActivityKey (fw := demo_firmware)
       [(200, KEY_DOWN); (0xFE, KEY_DOWN); (200, KEY_UP); (0xFE, KEY_DOWN)]
       queued_state)
  = demo_queue /\
  trace
    (kbapp_pollActivityKey (fw := demo_firmware)
       [(200, KEY_DOWN); (0xFE, KEY_DOWN); (200, KEY_UP); (0xFE, KEY_DOWN)]
       queued_state)
  = [VirtualCableUnplug; EnterPairing].
Proof.
  assert (H : Forall (connect_or_end_of_scan (fw := demo_firmware))
                [(200, KEY_DOWN); (0xFE, KEY_DOWN); (200, KEY_UP);
                 (0xFE, KEY_DOWN)])
    by (repeat constructor; vm_compute; tauto).
  split; [exact H|].
  destruct (pollActivityKey_connect_button (fw := demo_firmware)
              [(200, KEY_DOWN); (0xFE, KEY_DOWN); (200, KEY_UP);
               (0xFE, KEY_DOWN)] queued_state) as (Ht & _ & Hq & _).
  split; [exact (Hq H)|exact Ht].
Defined.

(** Witness of X2: legacy pin entry with the pin report waiting. *)
Lemma generateAndTxReports_pin_entry_suspends_witness :
  pinCodeEntryInProgress pin_entry_state <> @PIN_ENTRY_MODE_NONE demo_firmware /\
  exists s' : tKbAppState,
    kbapp_generateAndTxReports (fw := demo_firmware) [0] 0 0 pin_entry_state
    = Done s' /\
    eventQueue s' = eventQueue pin_entry_state /\
    trace s' = [TxPinRpt (mkPinRpt 0 0)].
Proof.
  assert (H : pinCodeEntryInProgress pin_entry_state
              <> @PIN_ENTRY_MODE_NONE demo_firmware)
    by (vm_compute; discriminate).
  split; [exact H|].
  destruct (generateAndTxReports_pin_entry_suspends (fw := demo_firmware)
              [0] 0 0 pin_entry_state H) as (s' & E & Hq & _ & _ & Ht).
  exists s'. split; [exact E|]. split; [exact Hq|exact Ht].
Defined.

(** Witness of X3: an event of a type of the application's own at the head
    of the queue, and three readings of the buffer pool below 80. *)
Lemma generateAndTxReports_user_event_stalls_witness :
  (pinCodeEntryInProgress user_event_state = @PIN_ENTRY_MODE_NONE demo_firmware /\
   eventQueue user_event_state
   = [HID_EVENT_OTHER 9; HID_EVENT_KEY_STATE_CHANGE 0xFE KEY_DOWN] /\
   Forall (fun p : Z => p < 80) [0; 10; 79]) /\
  kbapp_generateAndTxReports (fw := demo_firmware) [0; 10; 79] 0 0
    user_event_state = OutOfFuel.
Proof.
  assert (H1 : pinCodeEntryInProgress user_event_state
               = @PIN_ENTRY_MODE_NONE demo_firmware) by reflexivity.
  assert (H2 : eventQueue user_event_state
               = [HID_EVENT_OTHER 9; HID_EVENT_KEY_STATE_CHANGE 0xFE KEY_DOWN])
    by reflexivity.
  assert (H3 : Forall (fun p : Z => p < 80) [0; 10; 79])
    by (repeat constructor).
  split; [split; [exact H1|split; [exact H2|exact H3]]|].
  exact (proj1 (generateAndTxReports_user_event_stalls (fw := demo_firmware)
                  [0; 10; 79] 0 0 9 _ user_event_state H1 H2 H3)).
Defined.

(** Witness of X4: a recovery with two polls to go and a full buffer
    pool. *)
Lemma generateAndTxReports_congested_witness :
  (pinCodeEntryInProgress (set_recoveryInProgress 2 queued_state)
   = @PIN_ENTRY_MODE_NONE demo_firmware /\ 80 <= 93) /\
  exists s' : tKbAppState,
    kbapp_generateAndTxReports (fw := demo_firmware) [93; 0] 0 0
      (set_recoveryInProgress 2 queued_state) = Done s' /\
    eventQueue s' = demo_queue /\
    recoveryInProgress s' = 1.
Proof.
  assert (H1 : pinCodeEntryInProgress (set_recoveryInProgress 2 queued_state)
               = @PIN_ENTRY_MODE_NONE demo_firmware) by reflexivity.
  assert (H2 : 80 <= 93) by lia.
  split; [split; [exact H1|exact H2]|].
  exact (generateAndTxReports_congested (fw := demo_firmware) 93 [0] 0 0
           (set_recoveryInProgress 2 queued_state) H1 H2).
Defined.

(** Witness of X5: the demonstration queue is flushed, and the next poll
    finds no hardware activity. *)
Lemma flushUserInput_leaves_nothing_to_report_witness :
  pinCodeEntryInProgress queued_state = @PIN_ENTRY_MODE_NONE demo_firmware /\
  eventQueue (kbapp_flushUserInput (fw := demo_firmware) queued_state) = [] /\
  exists s'' : tKbAppState,
    kbapp_pollActivityUser (fw := demo_firmware) [] 0
      (kbapp_flushUserInput (fw := demo_firmware) queued_state)
    = Done (BTHIDLINK_ACTIVITY_NONE, s'') /\
    eventQueue s'' = [].
Proof.
  assert (H : pinCodeEntryInProgress queued_state
              = @PIN_ENTRY_MODE_NONE demo_firmware) by reflexivity.
  split; [exact H|].
  destruct (flushUserInput_leaves_nothing_to_report (fw := demo_firmware)
              queued_state) as (Hq & _ & _ & _ & _ & _ & _ & Hp).
  split; [exact Hq|].
  destruct (Hp H) as (s'' & E & Hq' & _).
  exists s''. split; [exact E|exact Hq'].
Defined.

(** Witness of X6: the five reports of the busy state are sent, and are
    not sent again. *)
Lemma txModifiedKeyReports_sends_once_witness :
  (recoveryInProgress busy_state = 0 /\
   kbapp_protocol busy_state = PROTOCOL_REPORT) /\
  stdRptChanged (kbapp_txModifiedKeyReports (fw := demo_firmware) busy_state)
  = false /\
  scrollRptChanged (kbapp_txModifiedKeyReports (fw := demo_firmware) busy_state)
  = false.
Proof.
  split; [split; reflexivity|].
  destruct (proj2 (txModifiedKeyReports_sends_once (fw := demo_firmware)
                     busy_state) eq_refl) as (Hs & Hr).
  destruct (Hr eq_refl) as (_ & _ & _ & Hc).
  split; [exact Hs|exact Hc].
Defined.

(** Witness of X7: the busy state, were it in boot protocol. *)
Lemma boot_to_report_switch_sends_cleared_reports_witness :
  (kbapp_protocol (set_kbapp_protocol PROTOCOL_BOOT busy_state) = PROTOCOL_BOOT /\
   recoveryInProgress (set_kbapp_protocol PROTOCOL_BOOT busy_state) = 0) /\
  trace (kbapp_txModifiedKeyReports (fw := demo_firmware)
           (kbapp_setProtocol (fw := demo_firmware) HID_PAR_PROTOCOL_REPORT
              (set_kbapp_protocol PROTOCOL_BOOT busy_state)))
  = [ TxStdRpt (mkStdRpt 1 0 0 [4; 5; 0; 0; 0; 0]);
      TxBitRpt (mkBitRpt 2 [0; 0; 0]);
      TxSlpRpt (mkSlpRpt 3 0);
      TxFuncLockRpt (mkFuncLockRpt 6 3) ].
Proof.
  split; [split; reflexivity|].
  exact (boot_to_report_switch_sends_cleared_reports (fw := demo_firmware)
           (set_kbapp_protocol PROTOCOL_BOOT busy_state) eq_refl eq_refl).
Defined.

(** Witness of X8: a remainder of three, kept for forty-nine polls and gone
    at the fiftieth. *)
Lemma scroll_remainder_discarded_after_idle_polls_witness :
  (0 < pollsToKeepFracScrollData (@kbAppConfig demo_firmware) < 256 /\
   pollsSinceScroll (set_scrollFractional 3 zero_state) = 0) /\
  scrollFractional
    (scroll_run (fw := demo_firmware) (replicate 49 0)
       (set_scrollFractional 3 zero_state)) = 3 /\
  scrollFractional
    (scroll_run (fw := demo_firmware) (replicate 50 0)
       (set_scrollFractional 3 zero_state)) = 0.
Proof.
  assert (H1 : 0 < pollsToKeepFracScrollData (@kbAppConfig demo_firmware) < 256)
    by (split; reflexivity).
  assert (H2 : pollsSinceScroll (set_scrollFractional 3 zero_state) = 0)
    by reflexivity.
  split; [split; [exact H1|exact H2]|].
  destruct (proj1 (proj2 (scroll_remainder_discarded_after_idle_polls
                            (fw := demo_firmware)
                            (set_scrollFractional 3 zero_state))) H1 H2)
    as (Hk & H0 & _).
  split; [|exact H0].
  exact (proj1 (Hk 49%nat ltac:(reflexivity))).
Defined.

(** Witness of X9: the shift key, of mask 2, goes down in the zero state. *)
Lemma modKeys_counter_matches_bits_witness :
  (0 <= 1 < 8 /\
   modKeysInStdRpt zero_state = mod_bits (modifierKeys (stdRpt zero_state))) /\
  modKeysInStdRpt (kbapp_stdRptProcEvtModKey KEY_DOWN 6 (2 ^ 1) zero_state) = 1 /\
  modifierKeys (stdRpt (kbapp_stdRptProcEvtModKey KEY_DOWN 6 (2 ^ 1) zero_state))
  = 2.
Proof.
  assert (H1 : 0 <= 1 < 8) by lia.
  assert (H2 : modKeysInStdRpt zero_state
               = mod_bits (modifierKeys (stdRpt zero_state))) by reflexivity.
  split; [split; [exact H1|exact H2]|].
  split; [|reflexivity].
  exact (proj1 (modKeys_counter_matches_bits zero_state KEY_DOWN 6 1 H1 H2)).
Defined.

(** Witness of X10: the sleep key, of mask 1, in the zero state. *)
Lemma slpRpt_key_down_up_round_trip_witness :
  (1 <> 0 /\ Z.land (sleepVal (slpRpt zero_state)) 1 = 0) /\
  sleepVal (slpRpt (kbapp_slpRptProcEvtKey KEY_UP 8 1
                      (kbapp_slpRptProcEvtKey KEY_DOWN 8 1 zero_state)))
  = sleepVal (slpRpt zero_state).
Proof.
  assert (H1 : 1 <> 0) by lia.
  assert (H2 : Z.land (sleepVal (slpRpt zero_state)) 1 = 0) by reflexivity.
  split; [split; [exact H1|exact H2]|].
  exact (proj1 (proj2 (proj2 (proj2
           (slpRpt_key_down_up_round_trip zero_state 8 1 H1 H2))))).
Defined.


(** Witness of X12: the marker at the head of the queue of the busy state,
    a key event behind it. *)
Lemma procEvtKey_end_of_scan_cycle_witness :
  (eventQueue
     (set_eventQueue
        [ HID_EVENT_KEY_STATE_CHANGE (@END_OF_SCAN_CYCLE demo_firmware) KEY_DOWN;
          HID_EVENT_KEY_STATE_CHANGE 0 KEY_DOWN ] busy_state)
   = [ HID_EVENT_KEY_STATE_CHANGE (@END_OF_SCAN_CYCLE demo_firmware) KEY_DOWN;
       HID_EVENT_KEY_STATE_CHANGE 0 KEY_DOWN ] /\
   kbKeyConfig_size (fw := demo_firmware) <= @END_OF_SCAN_CYCLE demo_firmware /\
   @KB_MAX_KEYS demo_firmware <= @END_OF_SCAN_CYCLE demo_firmware) /\
  exists s' : tKbAppState,
    kbapp_procEvtKey (fw := demo_firmware)
      (set_eventQueue
         [ HID_EVENT_KEY_STATE_CHANGE (@END_OF_SCAN_CYCLE demo_firmware) KEY_DOWN;
           HID_EVENT_KEY_STATE_CHANGE 0 KEY_DOWN ] busy_state) = Done s' /\
    eventQueue s' = [HID_EVENT_KEY_STATE_CHANGE 0 KEY_DOWN] /\
    stdRpt s' = stdRpt busy_state.
Proof.
  assert (H2 : kbKeyConfig_size (fw := demo_firmware)
               <= @END_OF_SCAN_CYCLE demo_firmware) by (vm_compute; discriminate).
  assert (H3 : @KB_MAX_KEYS demo_firmware <= @END_OF_SCAN_CYCLE demo_firmware)
    by (vm_compute; discriminate).
  split; [split; [reflexivity|split; [exact H2|exact H3]]|].
  destruct (procEvtKey_end_of_scan_cycle (fw := demo_firmware)
              (set_eventQueue
                 [ HID_EVENT_KEY_STATE_CHANGE (@END_OF_SCAN_CYCLE demo_firmware)
                     KEY_DOWN;
                   HID_EVENT_KEY_STATE_CHANGE 0 KEY_DOWN ] busy_state)
              KEY_DOWN [HID_EVENT_KEY_STATE_CHANGE 0 KEY_DOWN]
              eq_refl H2 H3)
    as (s' & E & Hq & _ & Hs & _).
  exists s'. split; [exact E|]. split; [exact Hq|exact Hs].
Defined.

(** Witness of X13: legacy pin entry with a digit, a backspace and the
    enter key in the queue. *)
Lemma handlePinEntry_stays_in_bounds_witness :
  (wf_pin (fw := demo_firmware) pin_entry_state /\
   key_codes_in_table (fw := demo_firmware) (eventQueue pin_entry_state)) /\
  exists s' : tKbAppState,
    kbapp_handlePinEntry (fw := demo_firmware) pin_entry_state = Done s' /\
    eventQueue s' = [].
Proof.
  assert (H1 : wf_pin (fw := demo_firmware) pin_entry_state)
    by (repeat split; vm_compute; congruence).
  assert (H2 : key_codes_in_table (fw := demo_firmware)
                 (eventQueue pin_entry_state))
    by (repeat constructor; vm_compute; congruence).
  split; [split; [exact H1|exact H2]|].
  destruct (handlePinEntry_stays_in_bounds (fw := demo_firmware)
              pin_entry_state H1 H2) as (s' & E & Hq & _).
  exists s'. split; [exact E|exact Hq].
Defined.

(** Witness of X14: pin code entry and pass code entry, asked for in the
    zero state. *)
Lemma entering_pin_entry_prepares_the_buffer_witness :
  (pinCodeEntryInProgress zero_state = @PIN_ENTRY_MODE_NONE demo_firmware /\
   0 <= @MAX_PIN_SIZE demo_firmware
     <= Z.of_nat (length (pinCodeBuffer zero_state)) /\
   0 <= @MAX_PASS_SIZE demo_firmware
     < Z.of_nat (length (pinCodeBuffer zero_state))) /\
  (exists s' : tKbAppState,
     kbapp_enterPinCodeEntryMode (fw := demo_firmware) zero_state = Done s' /\
     wf_pin (fw := demo_firmware) s') /\
  (exists s' : tKbAppState,
     kbapp_enterPassCodeEntryMode (fw := demo_firmware) zero_state = Done s' /\
     wf_pin (fw := demo_firmware) s').
Proof.
  assert (H1 : pinCodeEntryInProgress zero_state
               = @PIN_ENTRY_MODE_NONE demo_firmware) by reflexivity.
  assert (H2 : 0 <= @MAX_PIN_SIZE demo_firmware
               <= Z.of_nat (length (pinCodeBuffer zero_state)))
    by (split; vm_compute; discriminate).
  assert (H3 : 0 <= @MAX_PASS_SIZE demo_firmware
               < Z.of_nat (length (pinCodeBuffer zero_state)))
    by (split; vm_compute; congruence).
  assert (H4 : @MAX_PIN_SIZE demo_firmware <= 255)
    by (vm_compute; discriminate).
  assert (H5 : @MAX_PASS_SIZE demo_firmware <= 255)
    by (vm_compute; discriminate).
  split; [split; [exact H1|split; [exact H2|exact H3]]|].
  destruct (entering_pin_entry_prepares_the_buffer (fw := demo_firmware)
              zero_state) as (_ & Hpin & Hpass).
  split.
  - destruct (Hpin H1 H2 H4) as (s' & E & _ & Hwf & _).
    exists s'. split; [exact E|exact Hwf].
  - destruct (Hpass H1 H3 H5) as (s' & E & _ & Hwf & _).
    exists s'. split; [exact E|exact Hwf].
Defined.

(** Witness of X15: the second of the two keys of the busy state goes
    up. *)
Lemma stdRpt_key_up_removes_key_witness :
  (wf_std busy_state /\ NoDup (std_keys busy_state) /\
   In 5 (std_keys busy_state)) /\
  exists s' : tKbAppState,
    kbapp_stdRptProcEvtKey (fw := demo_firmware) KEY_UP 0 5 busy_state
    = Done s' /\
    keysInStdRpt s' = 1 /\
    ~ In 5 (std_keys s').
Proof.
  assert (H1 : wf_std busy_state)
    by (repeat split; vm_compute; congruence).
  assert (H2 : NoDup (std_keys busy_state))
    by (apply (NoDup_cons_2 4 [5]);
        [intros H; apply list_elem_of_singleton in H; discriminate H
        |apply NoDup_singleton]).
  assert (H3 : In 5 (std_keys busy_state)) by (right; left; reflexivity).
  split; [split; [exact H1|split; [exact H2|exact H3]]|].
  destruct (stdRpt_key_up_removes_key (fw := demo_firmware) busy_state 0 5
              H1 H2 H3) as (s' & E & Hk & Hin & _).
  exists s'. split; [exact E|]. split; [exact Hk|].
  intros H. apply Hin in H. now destruct H.
Defined.

(** Witness of X16: the first scan cycle of the demonstration queue. *)
Lemma procEvtKey_stays_in_bounds_witness :
  (wf_keyConfig (fw := demo_firmware) /\
   wf_reports (fw := demo_firmware) queued_state /\
   key_codes_nonneg (eventQueue queued_state)) /\
  exists s' : tKbAppState,
    kbapp_procEvtKey (fw := demo_firmware) queued_state = Done s' /\
    (length (eventQueue s') <= length (eventQueue queued_state))%nat.
Proof.
  assert (H1 : wf_keyConfig (fw := demo_firmware))
    by (repeat constructor; vm_compute; congruence).
  assert (H2 : wf_reports (fw := demo_firmware) queued_state)
    by (repeat split; vm_compute; congruence).
  assert (H3 : key_codes_nonneg (eventQueue queued_state))
    by (repeat constructor; vm_compute; congruence).
  split; [split; [exact H1|split; [exact H2|exact H3]]|].
  destruct (procEvtKey_stays_in_bounds (fw := demo_firmware) queued_state
              H1 H2 H3) as (s' & E & _ & Hl).
  exists s'. split; [exact E|exact Hl].
Defined.

(** Witness of X17: the same scan cycle; the two keys of the busy state
    differ. *)
Lemma stdRpt_keys_stay_distinct_witness :
  (wf_reports (fw := demo_firmware) queued_state /\
   NoDup (std_keys queued_state)) /\
  exists s' : tKbAppState,
    kbapp_stdRptProcEvtKey (fw := demo_firmware) KEY_DOWN 1 5 queued_state
    = Done s' /\
    NoDup (std_keys s').
Proof.
  assert (H1 : wf_reports (fw := demo_firmware) queued_state)
    by (repeat split; vm_compute; congruence).
  assert (H2 : NoDup (std_keys queued_state))
    by (apply (NoDup_cons_2 4 [5]);
        [intros H; apply list_elem_of_singleton in H; discriminate H
        |apply NoDup_singleton]).
  split; [split; [exact H1|exact H2]|].
  destruct (proj1 (stdRpt_keys_stay_distinct (fw := demo_firmware)
                     queued_state H1 H2) KEY_DOWN 1 5) as (s' & E & _ & Hn).
  exists s'. split; [exact E|exact Hn].
Defined.

(** Witness of X18: the demonstration queue and nine readings of an idle
    buffer pool. *)
Lemma generateAndTxReports_drains_queue_witness :
  (wf_keyConfig (fw := demo_firmware) /\
   wf_reports (fw := demo_firmware) queued_state /\
   key_codes_nonneg (eventQueue queued_state) /\
   no_user_events (eventQueue queued_state) /\
   pinCodeEntryInProgress queued_state = @PIN_ENTRY_MODE_NONE demo_firmware /\
   Forall (fun p : Z => p < 80) (replicate 9 0) /\
   (length (eventQueue queued_state) < length (replicate 9 0))%nat) /\
  exists s' : tKbAppState,
    kbapp_generateAndTxReports (fw := demo_firmware) (replicate 9 0) 0 0
      queued_state = Done s' /\
    eventQueue s' = [].
Proof.
  assert (H1 : wf_keyConfig (fw := demo_firmware))
    by (repeat constructor; vm_compute; congruence).
  assert (H2 : wf_reports (fw := demo_firmware) queued_state)
    by (repeat split; vm_compute; congruence).
  assert (H3 : key_codes_nonneg (eventQueue queued_state))
    by (repeat constructor; vm_compute; congruence).
  assert (H4 : no_user_events (eventQueue queued_state))
    by (repeat constructor).
  assert (H5 : pinCodeEntryInProgress queued_state
               = @PIN_ENTRY_MODE_NONE demo_firmware) by reflexivity.
  assert (H6 : Forall (fun p : Z => p < 80) (replicate 9 0))
    by (repeat constructor).
  assert (H7 : (length (eventQueue queued_state) < length (replicate 9 0))%nat)
    by (vm_compute; lia).
  split; [repeat (split; [assumption|]); exact H7|].
  destruct (generateAndTxReports_drains_queue (fw := demo_firmware)
              (replicate 9 0) 0 0 queued_state H1 H2 H3 H4 H5 H6 H7)
    as (s' & E & Hq & _).
  exists s'. split; [exact E|exact Hq].
Defined.

(** Witness of X19: an idle rate of 125 units of 4 ms, half a second, is
    1600 Bluetooth clocks. *)
Lemma setIdleRate_governs_repetition_witness :
  0 <= 125 < 256 /\
  kbapp_getIdleRate (snd (kbapp_setIdleRate 125 busy_state)) = 125 /\
  idleRateInBtClocks (snd (kbapp_setIdleRate 125 busy_state)) = 1600.
Proof.
  assert (H : 0 <= 125 < 256) by lia.
  split; [exact H|].
  destruct (setIdleRate_governs_repetition 125 busy_state H)
    as (_ & Hr & Hc & _).
  split; [exact Hr|exact Hc].
Defined.

(** Witness of X20: the func-lock key goes up in the busy state, the state
    in memory is lost, and the keyboard wakes up. *)
Lemma funcLock_state_survives_sleep_witness :
  kbapp_funcLock_state busy_state = state (funcLockInfo busy_state) /\
  state (funcLockInfo
           (fst (kbapp_aon_restore false
                   (set_state FUNC_LOCK_STATE_OFF
                      (kbapp_funcLockProcEvtKey KEY_UP 9 0 busy_state)))))
  = state (funcLockInfo
             (kbapp_funcLockProcEvtKey KEY_UP 9 0 busy_state)).
Proof.
  assert (H : kbapp_funcLock_state busy_state = state (funcLockInfo busy_state))
    by reflexivity.
  split; [exact H|].
  exact (proj1 (proj2 (proj2 (funcLock_state_survives_sleep
           busy_state KEY_UP 9 0 H)))
           FUNC_LOCK_STATE_OFF).
Defined.

(** Witness of X21: the host lights the caps lock LED. *)
Lemma setReport_accepts_only_the_led_report_witness :
  0 <= @offsetof_ledStates demo_led < @sizeof_KeyboardLedReport demo_led /\
  exists (r : HandshakeRsp) (s' : tKbLedState),
    kbapp_setReport (lh := demo_led) 2 [1; 2] 2 demo_led_state = Done (r, s') /\
    (r = HID_PAR_HANDSHAKE_RSP_SUCCESS ->
     led_calls s' = [kb_LED_on KB_LED_CAPS]).
Proof.
  assert (H : 0 <= @offsetof_ledStates demo_led
              < @sizeof_KeyboardLedReport demo_led)
    by (split; vm_compute; congruence).
  split; [exact H|].
  destruct (setReport_accepts_only_the_led_report (lh := demo_led) 2 [1; 2]
              demo_led_state H) as (r & s' & E & _ & _ & Hs).
  exists r, s'. split; [exact E|].
  intros Hr. destruct (Hs Hr) as (v & Hv & _ & _ & _ & Hc).
  injection Hv as <-. exact Hc.
Defined.

(** Witness of X22: the LED report of the demonstration, as a data
    message. *)
Lemma rxData_reads_payload_before_size_witness :
  ([1; 2] <> [] /\
   0 <= @offsetof_ledStates demo_led < @sizeof_KeyboardLedReport demo_led /\
   2 <= @sizeof_KeyboardLedReport demo_led) /\
  exists (r : HandshakeRsp) (s' : tKbLedState),
    kbapp_setReport (lh := demo_led) (@HID_PAR_REP_TYPE_OUTPUT demo_led)
      [1; 2] 2 demo_led_state = Done (r, s') /\
    kbapp_rxData (lh := demo_led) (@HID_PAR_REP_TYPE_OUTPUT demo_led)
      [1; 2] 2 demo_led_state = Done s'.
Proof.
  assert (H1 : [1; 2] <> ([] : list Z)) by discriminate.
  assert (H2 : 0 <= @offsetof_ledStates demo_led
               < @sizeof_KeyboardLedReport demo_led)
    by (split; vm_compute; congruence).
  assert (H3 : 2 <= @sizeof_KeyboardLedReport demo_led)
    by (vm_compute; discriminate).
  split; [split; [exact H1|split; [exact H2|exact H3]]|].
  exact (proj2 (proj2 (rxData_reads_payload_before_size (lh := demo_led)
                         demo_led_state)) [1; 2] H1 H2 H3).
Defined.

(** Witness of X23: the first func-lock dependent key goes up in the busy
    state. *)
Lemma funcLockProcEvtDepKey_up_clears_both_reports_witness :
  (wf_reports (fw := demo_firmware) busy_state /\
   NoDup (std_keys busy_state) /\ 0 <= 0 < 13) /\
  exists s' : tKbAppState,
    kbapp_funcLockProcEvtDepKey (fw := demo_firmware) KEY_UP 10 0 busy_state
    = Done s' /\
    funcLockInfo s' = funcLockInfo busy_state.
Proof.
  assert (H1 : wf_reports (fw := demo_firmware) busy_state)
    by (repeat split; vm_compute; congruence).
  assert (H2 : NoDup (std_keys busy_state))
    by (apply (NoDup_cons_2 4 [5]);
        [intros H; apply list_elem_of_singleton in H; discriminate H
        |apply NoDup_singleton]).
  assert (H3 : 0 <= 0 < 13) by lia.
  split; [split; [exact H1|split; [exact H2|exact H3]]|].
  destruct (funcLockProcEvtDepKey_up_clears_both_reports (fw := demo_firmware)
              busy_state 10 0 H1 H2 H3) as (e & s' & _ & E & _ & _ & _ & _ & Hf).
  exists s'. split; [exact E|exact Hf].
Defined.
